(** * Asset lifecycle pipeline of custom-models: upload, thumbnail, delete,
      listing

    A shallow embedding of the four serverless handlers

      - [src/api/upload.js]      (Ingest Extractor and Upload Coordinator),
      - [src/api/thumbnail.js]   (Render Trigger and Status Updater),
      - [src/unnamed/part_001]   (Cascade Deleter),
      - [src/unnamed/part_000]   (the listing of the stored records),

    followed by the properties the specification states about them and
    further properties read off the code.

    Conventions of the embedding.

      - A JavaScript string is a [string] whose characters are read as code
        units in the range 0..255 (Latin-1); on that range [toLowerCase] and
        [trim] below are the functions of the language.
      - A JSON value is a [Json]; a JavaScript value that may be [undefined]
        is an [option Json].  A number is kept by its value, an integer
        (ids and timestamps are what the handlers compute with); an
        integer up to 2^53 in absolute value is printed by its decimal
        digits.  How the language prints an integer beyond 2^53 (by the
        shortest digits that read back as the same number, and in exponent
        form from 10^21 on) and how it reads a string as a number are
        functions of the runtime that an environment carries
        ([numberToString], [stringToNumber]).
      - [JSON.stringify] of a record is kept as the record itself
        ([JsonText]); the bytes of the serialisation are not modelled.
      - Every call to a collaborator (form parser, file system, archive
        library, blob store, network, headless browser) is an oracle of the
        environment record: it resolves to a value or rejects with an
        [Error].  What the handler did is recorded as a trace of [Event]s.
      - A handler is a computation in the monad [M]: it threads the local
        variables that the source mutates, the trace and the response, and
        it finishes a step normally, by [return], or by a thrown error.
        The [timeline] keeps the events and the response in the order in
        which they happened. *)

From stdpp Require Import gmap strings list fin_maps pretty.
From Stdlib Require Import ZArith Ascii String.

Set Warnings "-register-all".
Open Scope string_scope.

(* ===================================================================== *)
(** ** JavaScript strings *)
(* ===================================================================== *)

Module JsString.

(** [String.prototype.toLowerCase] on one code unit below 256: the Latin
    capital letters A..Z and the capitals U+00C0..U+00DE except the
    multiplication sign U+00D7 move up by 32. *)
Definition lower_unit (c : ascii) : ascii :=
  let n := nat_of_ascii c in
  if ((65 <=? n)%nat && (n <=? 90)%nat)
     || ((192 <=? n)%nat && (n <=? 222)%nat && negb (n =? 215)%nat)
  then ascii_of_nat (n + 32) else c.

Fixpoint toLowerCase (s : string) : string :=
  match s with
  | EmptyString => EmptyString
  | String c r => String (lower_unit c) (toLowerCase r)
  end.

(** White space and line terminators below 256: TAB, LF, VT, FF, CR,
    SPACE and NO-BREAK SPACE. *)
Definition is_white (c : ascii) : bool :=
  let n := nat_of_ascii c in
  ((9 <=? n)%nat && (n <=? 13)%nat) || (n =? 32)%nat || (n =? 160)%nat.

Fixpoint trimStart (s : string) : string :=
  match s with
  | EmptyString => EmptyString
  | String c r => if is_white c then trimStart r else s
  end.

Fixpoint trimEnd (s : string) : string :=
  match s with
  | EmptyString => EmptyString
  | String c r =>
      match trimEnd r with
      | EmptyString => if is_white c then EmptyString else String c EmptyString
      | r' => String c r'
      end
  end.

Definition trim (s : string) : string := trimEnd (trimStart s).

(** [s.substring(n)]: the code units from index [n] on. *)
Fixpoint substringFrom (n : nat) (s : string) : string :=
  match n, s with
  | O, _ => s
  | S n', String _ r => substringFrom n' r
  | S _, EmptyString => EmptyString
  end.

Definition startsWith (s p : string) : bool := String.prefix p s.

(** [s.endsWith(suf)]: [suf] is not longer than [s] and the last
    [suf.length] code units of [s] are [suf]. *)
Definition endsWith (s suf : string) : bool :=
  let n := String.length s in
  let k := String.length suf in
  (k <=? n)%nat && String.eqb (substringFrom (n - k) s) suf.

(** [s.split(sep)] for a separator of one code unit: never empty. *)
Fixpoint split (sep : ascii) (s : string) : list string :=
  match s with
  | EmptyString => [EmptyString]
  | String c r =>
      if Ascii.eqb c sep then EmptyString :: split sep r
      else match split sep r with
           | h :: t => String c h :: t
           | [] => [String c EmptyString]
           end
  end.

(** [Array.prototype.pop]: the last element, [undefined] on []. *)
Definition pop (l : list string) : option string := last l.

(** [s.replace(pat, rep)] for a string pattern and a replacement without
    dollar patterns: the first occurrence only. *)
Fixpoint replace (pat rep s : string) : string :=
  if String.prefix pat s then rep +:+ substringFrom (String.length pat) s
  else match s with
       | EmptyString => EmptyString
       | String c r => String c (replace pat rep r)
       end.

(** Truthiness of a string: every string but the empty one. *)
Definition truthy (s : string) : bool := negb (String.eqb s "").

End JsString.

Import JsString.

(* ===================================================================== *)
(** ** JSON values, errors, outcomes *)
(* ===================================================================== *)

Inductive Json : Type :=
  | JNull
  | JBool (b : bool)
  | JNum (n : Z)
  | JStr (s : string)
  | JArr (l : list Json)
  | JObj (m : gmap string Json).

(** A JavaScript [Error]: only its [message] is observed. *)
Record Error := mkError { message : string }.

(** The result of awaiting a collaborator. *)
Inductive Outcome (A : Type) : Type :=
  | Resolved (a : A)
  | Rejected (e : Error).
Arguments Resolved {A} a.
Arguments Rejected {A} e.

Definition TypeError (msg : string) : Error := mkError msg.

Module Js.

(** Truthiness of a value that may be [undefined]. *)
Definition truthy (v : option Json) : bool :=
  match v with
  | None => false
  | Some JNull => false
  | Some (JBool b) => b
  | Some (JNum n) => negb (n =? 0)%Z
  | Some (JStr s) => JsString.truthy s
  | Some (JArr _) => true
  | Some (JObj _) => true
  end.

(** [v.k] for a property name [k] that is no built-in of strings or
    arrays: a property of an object, [undefined] on the other values, a
    [TypeError] on [null]. *)
Definition getProp (v : Json) (k : string) : Outcome (option Json) :=
  match v with
  | JNull => Rejected (TypeError ("Cannot read properties of null (reading '" +:+ k +:+ "')"))
  | JObj m => Resolved (m !! k)
  | _ => Resolved None
  end.

(** [v.k = x] in strict code (the handlers are ES modules): an object
    gets the property; an array gets it too, but [JSON.stringify] does
    not print a property of an array that is no index, so the array is
    what is observed; [null] and the primitive values throw. *)
Definition setProp (v : Json) (k : string) (x : Json) : Outcome Json :=
  match v with
  | JObj m => Resolved (JObj (<[k := x]> m))
  | JArr l => Resolved (JArr l)
  | JNull => Rejected (TypeError ("Cannot set properties of null (setting '" +:+ k +:+ "')"))
  | _ => Rejected (TypeError ("Cannot create property '" +:+ k +:+ "'"))
  end.

(** The integers that every runtime prints in decimal: up to 2^53 each
    integer is a number of its own and its digits are what is printed. *)
Definition printsInDecimal (n : Z) : bool := (Z.abs n <=? 2 ^ 53)%Z.

Definition cannotConvert : Error := TypeError "Cannot convert object to primitive value".

(** [String(v)], as a template literal hole [${v}] prints a value.
    An object parsed from JSON prints through the inherited [toString]
    unless it has a key of that name: its value is no function, the
    inherited [valueOf] gives no primitive, and the conversion throws.  An
    array prints its elements joined by commas, [null] as nothing.  [show]
    is the runtime's printing of the integers beyond 2^53. *)
Fixpoint toStr (show : Z -> string) (v : Json) : Outcome string :=
  match v with
  | JNull => Resolved "null"
  | JBool true => Resolved "true"
  | JBool false => Resolved "false"
  | JNum n => Resolved (if printsInDecimal n then pretty n else show n)
  | JStr s => Resolved s
  | JArr l =>
      (fix join (l : list Json) : Outcome string :=
         match l with
         | [] => Resolved ""
         | x :: r =>
             match (match x with JNull => Resolved "" | _ => toStr show x end) with
             | Rejected e => Rejected e
             | Resolved sx =>
                 match r with
                 | [] => Resolved sx
                 | _ => match join r with
                        | Rejected e => Rejected e
                        | Resolved sr => Resolved (sx +:+ "," +:+ sr)
                        end
                 end
             end
         end) l
  | JObj m =>
      if bool_decide (is_Some (m !! "toString")) then Rejected cannotConvert
      else Resolved "[object Object]"
  end.

Definition toString (show : Z -> string) (v : option Json) : Outcome string :=
  match v with
  | Some j => toStr show j
  | None => Resolved "undefined"
  end.

(** [Number(v)], as the subtraction of two values converts an operand;
    [None] is [NaN].  An object or an array is converted through its
    primitive value as above, an array and a string are then read as a
    number by the runtime ([parse]). *)
Definition toNumber (show : Z -> string) (parse : string -> option Z) (v : option Json)
  : Outcome (option Z) :=
  match v with
  | None => Resolved None
  | Some JNull => Resolved (Some 0%Z)
  | Some (JBool b) => Resolved (Some (if b then 1 else 0)%Z)
  | Some (JNum n) => Resolved (Some n)
  | Some (JStr s) => Resolved (parse s)
  | Some (JArr l) =>
      match toStr show (JArr l) with
      | Resolved s => Resolved (parse s)
      | Rejected e => Rejected e
      end
  | Some (JObj m) =>
      if bool_decide (is_Some (m !! "toString")) then Rejected cannotConvert
      else Resolved None
  end.

(** A template literal hole [${o}] for a request header that may be
    missing. *)
Definition tmpl (o : option string) : string :=
  match o with
  | Some s => s
  | None => "undefined"
  end.

End Js.

(* ===================================================================== *)
(** ** Responses, events, the handler monad *)
(* ===================================================================== *)

(** [res.status(code).json(body)]. *)
Record Response := mkResponse { status : Z; body : Json }.

(** The body handed to the store's [put]. *)
Inductive Body : Type :=
  | Bytes (b : string)
  | JsonText (j : Json).

Inductive BrowserOp : Type :=
  | Launch
  | NewPage
  | SetViewport (width height : Z)
  | Goto (url : string)
  | WaitForFunction (expr : string) (timeout : Z)
  | Screenshot
  | Close.

Inductive Event : Type :=
  | EvParseForm
  | EvReadFile (path : string)
  | EvLoadZip (data : string)
  | EvUnpack (entry : string)
  | EvPut (key : string) (content : Body)
  | EvDel (urls : list Json)
  | EvFetch (url : string)
  | EvPost (url : string) (payload : Json)
  | EvBrowser (op : BrowserOp)
  | EvLog (msg : string).

(** How a step of a handler ends. *)
Inductive Step (A : Type) : Type :=
  | Val (a : A)
  | Ret
  | Thrown (e : Error).
Arguments Val {A} a.
Arguments Ret {A}.
Arguments Thrown {A} e.

(** What happened, in order: a call of a collaborator or a log line, or
    the sending of the response. *)
Inductive Moment : Type :=
  | Did (ev : Event)
  | Answered (r : Response).

(** The state a handler threads: its mutable local variables, the events
    so far, the response it sent, and both in the order in which they
    happened. *)
Record St (L : Type) := mkSt {
  locals : L;
  trace : list Event;
  response : option Response;
  timeline : list Moment;
}.
Arguments mkSt {L}.
Arguments locals {L}.
Arguments trace {L}.
Arguments response {L}.
Arguments timeline {L}.

(** A stretch of the timeline without the response. *)
Definition did (t : list Event) : list Moment := map Did t.

Definition M (L A : Type) : Type := St L -> Step A * St L.

Module Monad.
Section Ops.
Context {L : Type}.

Definition ret {A} (a : A) : M L A := fun s => (Val a, s).

Definition bind {A B} (m : M L A) (k : A -> M L B) : M L B :=
  fun s =>
    match m s with
    | (Val a, s') => k a s'
    | (Ret, s') => (Ret, s')
    | (Thrown e, s') => (Thrown e, s')
    end.

(** [throw e]. *)
Definition throw {A} (e : Error) : M L A := fun s => (Thrown e, s).

(** [return;] *)
Definition return_ {A} : M L A := fun s => (Ret, s).

(** Record one event. *)
Definition emit (ev : Event) : M L unit :=
  fun s => (Val tt, mkSt (locals s) (trace s ++ [ev]) (response s)
                         (timeline s ++ [Did ev])).

(** [await] on a collaborator whose call is the event [ev]. *)
Definition await {A} (ev : Event) (o : Outcome A) : M L A :=
  fun s =>
    let s' := mkSt (locals s) (trace s ++ [ev]) (response s) (timeline s ++ [Did ev]) in
    match o with
    | Resolved a => (Val a, s')
    | Rejected e => (Thrown e, s')
    end.

(** A synchronous operation that may throw. *)
Definition lift {A} (o : Outcome A) : M L A :=
  fun s =>
    match o with
    | Resolved a => (Val a, s)
    | Rejected e => (Thrown e, s)
    end.

(** [res.status(code).json(body)]: the first response is the one sent;
    a second one throws. *)
Definition respond (code : Z) (b : Json) : M L unit :=
  fun s =>
    match response s with
    | None => (Val tt, mkSt (locals s) (trace s) (Some (mkResponse code b))
                            (timeline s ++ [Answered (mkResponse code b)]))
    | Some _ => (Thrown (mkError "Cannot set headers after they are sent to the client"), s)
    end.

Definition get : M L L := fun s => (Val (locals s), s).

Definition modify (f : L -> L) : M L unit :=
  fun s => (Val tt, mkSt (f (locals s)) (trace s) (response s) (timeline s)).

(** [try { body } catch (error) { handler }]: the handler runs in the
    state the body left behind. *)
Definition try_catch (body : M L unit) (handler : Error -> M L unit) : M L unit :=
  fun s =>
    match body s with
    | (Thrown e, s') => handler e s'
    | r => r
    end.

(** [try { body } finally { fin }]: [fin] always runs; what it throws
    replaces how the body ended. *)
Definition try_finally (body : M L unit) (fin : M L unit) : M L unit :=
  fun s =>
    match body s with
    | (r, s') =>
        match fin s' with
        | (Val _, s'') => (r, s'')
        | (r', s'') => (r', s'')
        end
    end.

End Ops.
End Monad.

Import Monad.

Notation "x <- m ;; k" := (bind m (fun x => k))
  (at level 100, m at next level, right associativity).
Notation "m ;;; k" := (bind m (fun _ => k))
  (at level 100, right associativity).

(** Running a handler from the state of a fresh invocation. *)
Definition run {L} (l0 : L) (m : M L unit) : St L := snd (m (mkSt l0 [] None [])).

(** The handler's promise rejected (an error nobody caught). *)
Definition rejected {L} (l0 : L) (m : M L unit) : bool :=
  match fst (m (mkSt l0 [] None [])) with
  | Thrown _ => true
  | _ => false
  end.

Definition msg (s : string) : Json := JObj {[ "message" := JStr s ]}.

(** Code units above 127 that the handlers' messages use. *)
Definition auml : string := String (ascii_of_nat 228) EmptyString.
Definition ouml : string := String (ascii_of_nat 246) EmptyString.
Definition uuml : string := String (ascii_of_nat 252) EmptyString.

(** The fixed storage key convention. *)
Definition modelKey (id ext : string) : string := "models/" +:+ id +:+ "/model" +:+ ext.
Definition textureKey (id : string) : string := "models/" +:+ id +:+ "/texture.png".
Definition thumbnailKey (id : string) : string := "models/" +:+ id +:+ "/thumbnail.png".
Definition metadataKey (id : string) : string := "models/" +:+ id +:+ "/metadata.json".

(* ===================================================================== *)
(** ** src/api/upload.js *)
(* ===================================================================== *)

Module Upload.

(** A file of the parsed form (formidable); the reported name is [null]
    for a file part that gives none. *)
Record File := mkFile { originalFilename : option string; filepath : string }.

(** What [parseForm] resolves to: every field and every file is an
    array, and either may be missing. *)
Record Form := mkForm {
  modelName : option (list string);
  file : option (list File);
}.

(** An entry of the opened archive, in the order [zip.forEach]
    enumerates them; [data] is what [async('nodebuffer')] gives. *)
Record ZipEntry := mkEntry {
  name : string;
  dir : bool;
  data : Outcome string;
}.

Record Request := mkRequest { method : string; origin : option string }.

(** The collaborators of one invocation. *)
Record Env := mkEnv {
  parseForm : Outcome Form;
  readFileSync : string -> Outcome string;
  loadAsync : string -> Outcome (list ZipEntry);
  randomUUID : string;
  put : string -> Body -> Outcome string;
  now : Z;
  fetch : string -> Json -> Outcome unit;
}.

Definition modelExtensions : list string := [".obj"; ".gltf"; ".glb"; ".json"].

(** The three variables the [forEach] callback assigns. *)
Record Scan := mkScan {
  modelFile : option ZipEntry;
  textureFile : option ZipEntry;
  modelExtension : string;
}.

Definition scan0 : Scan := mkScan None None "".

(** The body of the [zip.forEach] callback. *)
Definition scanEntry (acc : Scan) (zipEntry : ZipEntry) : Scan :=
  let fileName := toLowerCase (name zipEntry) in
  let acc1 :=
    if endsWith fileName ".png" && negb (dir zipEntry) && negb (bool_decide (is_Some (textureFile acc)))
    then mkScan (modelFile acc) (Some zipEntry) (modelExtension acc)
    else acc in
  let ext := List.find (fun e => endsWith fileName e) modelExtensions in
  match ext with
  | Some e =>
      if JsString.truthy e && negb (dir zipEntry) && negb (bool_decide (is_Some (modelFile acc1)))
      then mkScan (Some zipEntry) (textureFile acc1) e
      else acc1
  | None => acc1
  end.

Definition scan (entries : list ZipEntry) : Scan := fold_left scanEntry entries scan0.

Definition msgNoModel : string :=
  "Keine unterst" +:+ uuml +:+ "tzte Modelldatei (.obj, .gltf, .glb, .json) in der ZIP gefunden.".
Definition msgNoTexture : string := "Keine Texturdatei (.png) in der ZIP gefunden.".
Definition msgOk : string :=
  "Upload erfolgreich, Rendering l" +:+ auml +:+ "uft im Hintergrund.".

Definition newModelMetadata (modelId modelName modelUrl textureUrl ext : string) (ts : Z)
  : gmap string Json :=
  <["id" := JStr modelId]>
  (<["name" := JStr modelName]>
  (<["modelUrl" := JStr modelUrl]>
  (<["textureUrl" := JStr textureUrl]>
  (<["modelType" := JStr (substringFrom 1 ext)]>
  (<["status" := JStr "Uploaded"]>
  (<["timestamp" := JNum ts]> ∅)))))).

Definition okBody (modelId modelName : string) : Json :=
  JObj (<["id" := JStr modelId]>
       (<["name" := JStr modelName]>
       (<["message" := JStr msgOk]> ∅))).

(** The statements of the [try] block from the [forEach] on: choose the
    two entries, store them, store the record, dispatch, answer. *)
Definition extractAndStore (env : Env) (req : Request) (modelName : string)
           (zip : list ZipEntry) : M unit unit :=
  let sc := scan zip in
  match modelFile sc with
  | None => (respond 400 (msg msgNoModel) ;;; return_)
  | Some modelFile =>
  match textureFile sc with
  | None => (respond 400 (msg msgNoTexture) ;;; return_)
  | Some textureFile =>
      let modelExtension := modelExtension sc in
      let modelId := randomUUID env in
      modelBuffer <- await (EvUnpack (name modelFile)) (data modelFile) ;;
      modelUrl <- await (EvPut (modelKey modelId modelExtension) (Bytes modelBuffer))
                        (put env (modelKey modelId modelExtension) (Bytes modelBuffer)) ;;
      textureBuffer <- await (EvUnpack (name textureFile)) (data textureFile) ;;
      textureUrl <- await (EvPut (textureKey modelId) (Bytes textureBuffer))
                          (put env (textureKey modelId) (Bytes textureBuffer)) ;;
      let newModelMetadata :=
        JsonText (JObj (newModelMetadata modelId modelName modelUrl textureUrl
                                         modelExtension (now env))) in
      _ <- await (EvPut (metadataKey modelId) newModelMetadata)
                 (put env (metadataKey modelId) newModelMetadata) ;;
      (* fetch(...) is called and not awaited *)
      let url := Js.tmpl (origin req) +:+ "/api/thumbnail" in
      let payload := JObj {[ "modelId" := JStr modelId ]} in
      emit (EvPost url payload) ;;;
      respond 200 (okBody modelId modelName) ;;;
      (* the pending promise settles after the last statement; its
         [.catch] callback only logs *)
      match fetch env url payload with
      | Resolved _ => ret tt
      | Rejected err =>
          emit (EvLog ("Fehler beim Starten des Thumbnail-Renderers: " +:+ message err))
      end
  end
  end.

(** The statements of the [try] block. *)
Definition tryBlock (env : Env) (req : Request) : M unit unit :=
  form <- await EvParseForm (parseForm env) ;;
  let modelName := trim <$> (modelName form ≫= head) in
  let zipFile := file form ≫= head in
  match modelName, zipFile with
  | Some modelName, Some zipFile =>
      if negb (JsString.truthy modelName)
      then (respond 400 (msg "Modellname oder ZIP-Datei fehlen.") ;;; return_)
      else
      last <- lift (match originalFilename zipFile with
                    | None =>
                        Rejected (TypeError "Cannot read properties of null (reading 'split')")
                    | Some fileName =>
                        match pop (split "." fileName) with
                        | Some x => Resolved x
                        | None => Rejected (TypeError "Cannot read properties of undefined (reading 'toLowerCase')")
                        end
                    end) ;;
      if negb (String.eqb (toLowerCase last) "zip")
      then (respond 400 (msg "Nur ZIP-Dateien sind erlaubt.") ;;; return_)
      else
      zipData <- await (EvReadFile (filepath zipFile)) (readFileSync env (filepath zipFile)) ;;
      zip <- await (EvLoadZip zipData) (loadAsync env zipData) ;;
      extractAndStore env req modelName zip
  | _, _ => (respond 400 (msg "Modellname oder ZIP-Datei fehlen.") ;;; return_)
  end.

(** The [catch] clause. *)
Definition catchBlock (error : Error) : M unit unit :=
  emit (EvLog ("SERVER FEHLER: " +:+ message error)) ;;;
  respond 500 (msg ("Interner Serverfehler: " +:+ message error)).

Definition handler (env : Env) (req : Request) : M unit unit :=
  if negb (String.eqb (method req) "POST")
  then (respond 405 (msg "Nur POST-Anfragen erlaubt.") ;;; return_)
  else
    try_catch (tryBlock env req) catchBlock.

(** What one invocation leaves behind. *)
Definition exec (env : Env) (req : Request) : St unit := run tt (handler env req).

Definition statusOf (s : St unit) : option Z := status <$> response s.

(** The keys the invocation wrote to the store. *)
Definition putKeys (t : list Event) : list string :=
  omap (fun ev => match ev with EvPut k _ => Some k | _ => None end) t.

End Upload.

(* ===================================================================== *)
(** ** src/api/thumbnail.js *)
(* ===================================================================== *)

(** What [fetch] resolves to, as far as the handlers look at it: the [ok]
    flag and what [.json()] gives. *)
Record FetchResponse := mkFetchResponse { ok : bool; json : Outcome Json }.

(** [const { k } = body]: [undefined] and [null] cannot be destructured. *)
Definition destructure (reqBody : option Json) (k : string) : Outcome (option Json) :=
  match reqBody with
  | None => Rejected (TypeError ("Cannot destructure property '" +:+ k +:+ "' of 'req.body' as it is undefined."))
  | Some b => Js.getProp b k
  end.

Module Thumbnail.

Record Request := mkRequest {
  method : string;
  origin : option string;
  reqBody : option Json;
}.

(** The collaborators of one invocation: the headless browser, the
    store and the network, and the runtime's printing of numbers.
    [launch] stands for [puppeteer.launch] with the
    [chromium.executablePath()] it awaits for its argument. *)
Record Env := mkEnv {
  numberToString : Z -> string;
  launch : Outcome unit;
  newPage : Outcome unit;
  setViewport : Outcome unit;
  goto : string -> Outcome unit;
  waitForFunction : Outcome unit;
  screenshot : Outcome string;
  put : string -> Body -> Outcome string;
  fetch : string -> Outcome FetchResponse;
  close : Outcome unit;
}.

(** The variables declared with [let] before the [try]. *)
Record Locals := mkLocals {
  browser : bool;
  screenshotBuffer : option string;
  metadata : option Json;
  thumbnailBlobUrl : option string;
}.

Definition locals0 : Locals := mkLocals false None None None.

Definition setBrowser (l : Locals) : Locals :=
  mkLocals true (screenshotBuffer l) (metadata l) (thumbnailBlobUrl l).
Definition setScreenshotBuffer (b : string) (l : Locals) : Locals :=
  mkLocals (browser l) (Some b) (metadata l) (thumbnailBlobUrl l).
Definition setMetadata (j : Json) (l : Locals) : Locals :=
  mkLocals (browser l) (screenshotBuffer l) (Some j) (thumbnailBlobUrl l).
Definition setThumbnailBlobUrl (u : string) (l : Locals) : Locals :=
  mkLocals (browser l) (screenshotBuffer l) (metadata l) (Some u).

Definition RENDER_SIZE : Z := 256.

(** [metadata.k = x]: the object the variable refers to is mutated, so
    the [catch] clause sees the assignment. *)
Definition assignMetadata (k : string) (x : Json) : M Locals unit :=
  l <- get ;;
  match metadata l with
  | Some md => md' <- lift (Js.setProp md k x) ;; modify (setMetadata md')
  | None => throw (TypeError ("Cannot set properties of undefined (setting '" +:+ k +:+ "')"))
  end.

(** [put(metadataPath, JSON.stringify(metadata), ...)]. *)
Definition putMetadata (env : Env) (metadataPath : string) : M Locals unit :=
  l <- get ;;
  match metadata l with
  | Some md =>
      _ <- await (EvPut metadataPath (JsonText md)) (put env metadataPath (JsonText md)) ;;
      ret tt
  | None =>
      (* JSON.stringify(undefined) is undefined: nothing the store accepts *)
      throw (TypeError "body is required")
  end.

Definition okBody (modelId : Json) (thumbnailBlobUrl : string) : Json :=
  JObj (<["id" := modelId]>
       (<["status" := JStr "success"]>
       (<["thumbnailUrl" := JStr thumbnailBlobUrl]> ∅))).

Definition errorBody (error : Error) : Json :=
  JObj (<["status" := JStr "error"]>
       (<["message" := JStr ("Thumbnail-Rendering fehlgeschlagen: " +:+ message error)]> ∅)).

(** [`${modelId}`]: the id as a template literal prints it; printing
    throws for an id that cannot be converted to a string. *)
Definition printId (env : Env) (modelId : option Json) : M Locals string :=
  lift (Js.toString (numberToString env) modelId).

(** The statements of the [try] block. *)
Definition tryBlock (env : Env) (req : Request) (modelId : option Json) : M Locals unit :=
  (* 1. *)
  _ <- await (EvBrowser Launch) (launch env) ;;
  modify setBrowser ;;;
  _ <- await (EvBrowser NewPage) (newPage env) ;;
  _ <- await (EvBrowser (SetViewport RENDER_SIZE RENDER_SIZE)) (setViewport env) ;;
  id <- printId env modelId ;;
  let rendererUrl := Js.tmpl (origin req) +:+ "/render.html?id=" +:+ id in
  (* 2. *)
  _ <- await (EvBrowser (Goto rendererUrl)) (goto env rendererUrl) ;;
  _ <- await (EvBrowser (WaitForFunction "window.renderingFinished === true" 60000))
             (waitForFunction env) ;;
  (* 3. *)
  buffer <- await (EvBrowser Screenshot) (screenshot env) ;;
  modify (setScreenshotBuffer buffer) ;;;
  (* 4. *)
  url <- await (EvPut (thumbnailKey id) (Bytes buffer))
               (put env (thumbnailKey id) (Bytes buffer)) ;;
  modify (setThumbnailBlobUrl url) ;;;
  (* 5. *)
  let metadataPath := metadataKey id in
  let oldMetadataUrl := Js.tmpl (origin req) +:+ "/" +:+ metadataPath in
  metaResponse <- await (EvFetch oldMetadataUrl) (fetch env oldMetadataUrl) ;;
  if negb (ok metaResponse)
  then throw (mkError "Fehler beim Abrufen der alten Metadaten.")
  else
  md <- lift (json metaResponse) ;;
  modify (setMetadata md) ;;;
  assignMetadata "status" (JStr "Ready") ;;;
  assignMetadata "thumbnailUrl" (JStr url) ;;;
  putMetadata env metadataPath ;;;
  (* 6. *)
  respond 200 (okBody (default JNull modelId) url).

(** The [catch] clause; its first statement prints the id for the log. *)
Definition catchBlock (env : Env) (modelId : option Json) (error : Error) : M Locals unit :=
  id <- printId env modelId ;;
  emit (EvLog ("FEHLER beim Rendern f" +:+ uuml +:+ "r ID " +:+ id +:+ ": " +:+ message error)) ;;;
  l <- get ;;
  (if Js.truthy (metadata l)
   then try_catch
          (assignMetadata "status" (JStr "Error") ;;;
           putMetadata env (metadataKey id))
          (fun updateError =>
             emit (EvLog ("Kritischer Fehler: Konnte Status nicht auf 'Error' aktualisieren. "
                          +:+ message updateError)))
   else ret tt) ;;;
  respond 500 (errorBody error).

(** The [finally] clause. *)
Definition finallyBlock (env : Env) : M Locals unit :=
  l <- get ;;
  if browser l
  then (_ <- await (EvBrowser Close) (close env) ;; ret tt)
  else ret tt.

Definition handler (env : Env) (req : Request) : M Locals unit :=
  if negb (String.eqb (method req) "POST")
  then (respond 405 (msg "Nur POST-Anfragen erlaubt.") ;;; return_)
  else
    modelId <- lift (destructure (reqBody req) "modelId") ;;
    if negb (Js.truthy modelId)
    then (respond 400 (msg "Fehlende Modell-ID im Body.") ;;; return_)
    else
      try_finally
        (try_catch (tryBlock env req modelId) (catchBlock env modelId))
        (finallyBlock env).

Definition exec (env : Env) (req : Request) : St Locals := run locals0 (handler env req).

Definition statusOf (s : St Locals) : option Z := status <$> response s.

End Thumbnail.

(* ===================================================================== *)
(** ** src/unnamed/part_001: the delete handler *)
(* ===================================================================== *)

Module Delete.

Record Request := mkRequest {
  method : string;
  origin : option string;
  reqBody : option Json;
}.

(** The collaborators of one invocation: the network and the store, and
    the runtime's printing of numbers. *)
Record Env := mkEnv {
  numberToString : Z -> string;
  fetch : string -> Outcome FetchResponse;
  del : list Json -> Outcome unit;
}.

(** The one variable declared with [let]: [modelMetadata]. *)
Definition Locals : Type := option Json.

Definition blobStoreBase : string := "https://pub-your-blob-store-id.r2.dev/".

(** The callback of the first [filter]:
    [url => url && !url.startsWith(req.headers.origin)].  A value that
    is truthy and no string has no [startsWith]. *)
Definition keepUrl (req : Request) (url : option Json) : Outcome bool :=
  if negb (Js.truthy url) then Resolved false
  else match url with
       | Some (JStr s) => Resolved (negb (startsWith s (Js.tmpl (origin req))))
       | _ => Rejected (TypeError "url.startsWith is not a function")
       end.

(** [Array.prototype.filter] with a callback that may throw. *)
Fixpoint filterM (f : option Json -> Outcome bool) (l : list (option Json))
  : Outcome (list (option Json)) :=
  match l with
  | [] => Resolved []
  | x :: r =>
      match f x with
      | Rejected e => Rejected e
      | Resolved b =>
          match filterM f r with
          | Rejected e => Rejected e
          | Resolved r' => Resolved (if b then x :: r' else r')
          end
      end
  end.

(** [const urlsToDelete = [...].filter(...)]: computed, and not used
    afterwards.  The elements of the array are evaluated first, among them
    the template that prints [modelMetadata.modelType]; then the filter
    runs. *)
Definition urlsToDelete (env : Env) (req : Request) (id metadataUrl : string)
           (modelMetadata : Json) : Outcome (list (option Json)) :=
  match Js.getProp modelMetadata "modelUrl" with
  | Rejected e => Rejected e
  | Resolved modelUrl =>
  match Js.getProp modelMetadata "textureUrl" with
  | Rejected e => Rejected e
  | Resolved textureUrl =>
  match Js.getProp modelMetadata "thumbnailUrl" with
  | Rejected e => Rejected e
  | Resolved thumbnailUrl =>
  match Js.getProp modelMetadata "modelType" with
  | Rejected e => Rejected e
  | Resolved modelType =>
  match Js.toString (numberToString env) modelType with
  | Rejected e => Rejected e
  | Resolved modelTypeText =>
      filterM (keepUrl req)
        [ modelUrl;
          textureUrl;
          (if Js.truthy thumbnailUrl then thumbnailUrl else Some JNull);
          Some (JStr (replace (Js.tmpl (origin req) +:+ "/") blobStoreBase metadataUrl));
          Some (JStr ("models/" +:+ id +:+ "/metadata.json"));
          Some (JStr ("models/" +:+ id +:+ "/texture.png"));
          Some (JStr ("models/" +:+ id +:+ "/model." +:+ modelTypeText));
          Some (JStr ("models/" +:+ id +:+ "/thumbnail.png")) ]
  end end end end end.

(** The argument of [del]: the three fields of the record and the
    metadata path, without the falsy ones. *)
Definition delArgument (metadataPath : string) (modelMetadata : Json)
  : Outcome (list Json) :=
  match Js.getProp modelMetadata "modelUrl" with
  | Rejected e => Rejected e
  | Resolved modelUrl =>
  match Js.getProp modelMetadata "textureUrl" with
  | Rejected e => Rejected e
  | Resolved textureUrl =>
  match Js.getProp modelMetadata "thumbnailUrl" with
  | Rejected e => Rejected e
  | Resolved thumbnailUrl =>
      Resolved (omap id (List.filter Js.truthy
                  [modelUrl; textureUrl; thumbnailUrl; Some (JStr metadataPath)]))
  end end end.

Definition okBody (modelId : Json) : Json :=
  JObj (<["id" := modelId]>
       (<["message" := JStr ("Modell und zugeh" +:+ ouml +:+ "rige Assets erfolgreich gel"
                             +:+ ouml +:+ "scht.")]> ∅)).

(** The inner [try] ... [catch] that loads the record. *)
Definition loadMetadata (env : Env) (id metadataUrl : string) : M Locals unit :=
  try_catch
    (metaResponse <- await (EvFetch metadataUrl) (fetch env metadataUrl) ;;
     if negb (ok metaResponse)
     then (respond 404 (msg ("Modell-Metadaten nicht gefunden (kann bereits gel"
                             +:+ ouml +:+ "scht sein).")) ;;; return_)
     else
       md <- lift (json metaResponse) ;;
       modify (fun _ => Some md))
    (fun error =>
       emit (EvLog ("Fehler beim Laden der Metadaten f" +:+ uuml +:+ "r ID " +:+ id +:+ ": "
                    +:+ message error)) ;;;
       respond 500 (msg "Interner Serverfehler beim Abrufen der Metadaten.") ;;;
       return_).

(** The statements of the outer [try] block. *)
Definition tryBlock (env : Env) (req : Request) : M Locals unit :=
  modelId <- lift (destructure (reqBody req) "id") ;;
  if negb (Js.truthy modelId)
  then (respond 400 (msg "Fehlende Modell-ID.") ;;; return_)
  else
    (* the template of [metadataUrl] prints the id *)
    id <- lift (Js.toString (numberToString env) modelId) ;;
    let metadataUrl := Js.tmpl (origin req) +:+ "/models/" +:+ id +:+ "/metadata.json" in
    loadMetadata env id metadataUrl ;;;
    modelMetadata <- get ;;
    match modelMetadata with
    | None => throw (TypeError "Cannot read properties of undefined (reading 'modelUrl')")
    | Some modelMetadata =>
        _ <- lift (urlsToDelete env req id metadataUrl modelMetadata) ;;
        let metadataPath := metadataKey id in
        (* 3. *)
        urls <- lift (delArgument metadataPath modelMetadata) ;;
        _ <- await (EvDel urls) (del env urls) ;;
        (* 4. *)
        respond 200 (okBody (default JNull modelId))
    end.

Definition catchBlock (error : Error) : M Locals unit :=
  emit (EvLog ("SERVER FEHLER beim L" +:+ ouml +:+ "schen: " +:+ message error)) ;;;
  respond 500 (msg ("Interner Serverfehler beim L" +:+ ouml +:+ "schen des Modells: "
                    +:+ message error)).

Definition handler (env : Env) (req : Request) : M Locals unit :=
  if negb (String.eqb (method req) "POST")
  then (respond 405 (msg "Nur POST-Anfragen erlaubt.") ;;; return_)
  else try_catch (tryBlock env req) catchBlock.

Definition exec (env : Env) (req : Request) : St Locals := run None (handler env req).

Definition statusOf (s : St Locals) : option Z := status <$> response s.

(** The key sets the invocation submitted to the store's batch delete. *)
Definition deleted (t : list Event) : list (list Json) :=
  omap (fun ev => match ev with EvDel urls => Some urls | _ => None end) t.

End Delete.

(* ===================================================================== *)
(** ** src/unnamed/part_000: the listing handler *)
(* ===================================================================== *)

From Stdlib Require Import Sorted.

Module Listing.

(** An entry of the store's listing. *)
Record Blob := mkBlob { pathname : string; url : string }.

Record Request := mkRequest { method : string }.

(** The collaborators of one invocation: [listBlobs] is
    [list({ prefix: 'models/', limit: 1000 })] with the [blobs] of its
    result, [getBlob] is [get(url, { type: 'json' })]; and the runtime's
    printing of numbers and reading of strings as numbers ([None] where a
    string reads as no number). *)
Record Env := mkEnv {
  numberToString : Z -> string;
  stringToNumber : string -> option Z;
  listBlobs : Outcome (list Blob);
  getBlob : string -> Outcome Json;
}.

(** The callback of the first [filter]. *)
Definition isMetadataFile (blob : Blob) : bool :=
  endsWith (pathname blob) "/metadata.json".

(** The callback of [map]: the parsed content of the file, or [null]
    when it cannot be fetched.  The calls start in the order of the files;
    a failure is logged when its request settles, which is recorded here
    right after the call. *)
Definition fetchOne (env : Env) (file : Blob) : M unit Json :=
  fun s =>
    match await (EvFetch (url file)) (getBlob env (url file)) s with
    | (Thrown error, s') =>
        match emit (EvLog ("Fehler beim Abrufen der Metadaten f" +:+ uuml +:+ "r "
                           +:+ pathname file +:+ ": " +:+ message error)) s' with
        | (_, s'') => (Val JNull, s'')
        end
    | r => r
    end.

(** [Promise.all(files.map(callback))]. *)
Fixpoint fetchAll (env : Env) (files : list Blob) : M unit (list Json) :=
  match files with
  | [] => ret []
  | file :: rest =>
      blob <- fetchOne env file ;;
      blobs <- fetchAll env rest ;;
      ret (blob :: blobs)
  end.

(** [model => model !== null]. *)
Definition notNull (model : Json) : bool :=
  match model with
  | JNull => false
  | _ => true
  end.

(** [(a, b) => b.timestamp - a.timestamp]: both properties are read, then
    the left and the right operand are converted to numbers, which throws
    for an object that cannot be converted; a difference with an operand
    that is no number is [NaN], which [sort] takes as 0. *)
Definition compareFn (env : Env) (a b : Json) : Outcome Z :=
  match Js.getProp b "timestamp" with
  | Rejected e => Rejected e
  | Resolved tb =>
  match Js.getProp a "timestamp" with
  | Rejected e => Rejected e
  | Resolved ta =>
  match Js.toNumber (numberToString env) (stringToNumber env) tb with
  | Rejected e => Rejected e
  | Resolved x =>
  match Js.toNumber (numberToString env) (stringToNumber env) ta with
  | Rejected e => Rejected e
  | Resolved y =>
      Resolved (match x, y with
                | Some x, Some y => x - y
                | _, _ => 0
                end)%Z
  end end end end.

(** [Array.prototype.sort] is stable, so for a consistent comparison its
    result is determined; it is computed here by insertion from the right:
    an element goes in front of the first one it does not have to
    follow.  A comparison that throws ends the sort; with two elements or
    more every element is compared at least once. *)
Fixpoint insertSorted (cmp : Json -> Json -> Outcome Z) (x : Json) (l : list Json)
  : Outcome (list Json) :=
  match l with
  | [] => Resolved [x]
  | y :: r =>
      match cmp x y with
      | Rejected e => Rejected e
      | Resolved c =>
          if (c <=? 0)%Z then Resolved (x :: y :: r)
          else match insertSorted cmp x r with
               | Rejected e => Rejected e
               | Resolved r' => Resolved (y :: r')
               end
      end
  end.

Definition sort (cmp : Json -> Json -> Outcome Z) (l : list Json) : Outcome (list Json) :=
  foldr (fun x sorted =>
           match sorted with
           | Rejected e => Rejected e
           | Resolved sorted => insertSorted cmp x sorted
           end) (Resolved []) l.

(** The statements of the [try] block. *)
Definition tryBlock (env : Env) : M unit unit :=
  (* 1. *)
  blobs <- lift (listBlobs env) ;;
  (* 2. *)
  let metadataFiles := List.filter isMetadataFile blobs in
  (* 3. and 4. *)
  fetched <- fetchAll env metadataFiles ;;
  let models := List.filter notNull fetched in
  (* 5. *)
  models <- lift (sort (compareFn env) models) ;;
  (* 6. *)
  respond 200 (JArr models).

Definition catchBlock (error : Error) : M unit unit :=
  emit (EvLog ("SERVER FEHLER beim Abrufen der Liste: " +:+ message error)) ;;;
  respond 500 (msg ("Interner Serverfehler beim Laden der Modelle: " +:+ message error)).

Definition handler (env : Env) (req : Request) : M unit unit :=
  if negb (String.eqb (method req) "GET")
  then (respond 405 (msg "Nur GET-Anfragen erlaubt.") ;;; return_)
  else try_catch (tryBlock env) catchBlock.

Definition exec (env : Env) (req : Request) : St unit := run tt (handler env req).

Definition statusOf (s : St unit) : option Z := status <$> response s.

(** The URLs an invocation asked the store for, in order. *)
Definition fetched (t : list Event) : list string :=
  omap (fun ev => match ev with EvFetch u => Some u | _ => None end) t.

End Listing.

Module ListingSpec.
Import Listing.

(** What a metadata file gives the listing: its parsed content, unless
    the file cannot be fetched or its content is [null]. *)
Definition loadedFrom (env : Env) (file : Blob) : option Json :=
  match getBlob env (url file) with
  | Resolved j => if notNull j then Some j else None
  | Rejected _ => None
  end.

(** The records the listing has to show, in the order of the store's
    listing. *)
Definition loaded (env : Env) (blobs : list Blob) : list Json :=
  omap (loadedFrom env) (List.filter isMetadataFile blobs).

(** [model.timestamp] when it is a number. *)
Definition timestamp (model : Json) : option Z :=
  match model with
  | JObj m => match m !! "timestamp" with
              | Some (JNum n) => Some n
              | _ => None
              end
  | _ => None
  end.

(** The timestamp of the record can be converted to a number, or to
    [NaN]: a comparison does not throw on the record. *)
Definition converts (env : Env) (model : Json) : Prop :=
  exists c, compareFn env model model = Resolved c.

(** The comparison of two records on which it does not throw. *)
Definition comparison (env : Env) (a b : Json) : Z :=
  match compareFn env a b with
  | Resolved c => c
  | Rejected _ => 0%Z
  end.

(** The sort for a comparison that does not throw. *)
Fixpoint inserted (cmp : Json -> Json -> Z) (x : Json) (l : list Json) : list Json :=
  match l with
  | [] => [x]
  | y :: r => if (cmp x y <=? 0)%Z then x :: y :: r else y :: inserted cmp x r
  end.

Definition sorted (cmp : Json -> Json -> Z) (l : list Json) : list Json :=
  foldr (inserted cmp) [] l.

(** Every record that loads has a number as timestamp. *)
Definition timestamped (l : list Json) : Prop :=
  forall j, j ∈ l -> is_Some (timestamp j).

(** [a] may stand before [b] in a listing that shows the newest first. *)
Definition notOlder (a b : Json) : Prop :=
  match timestamp a, timestamp b with
  | Some x, Some y => (y <= x)%Z
  | _, _ => False
  end.

(** What the calls for the files leave in the trace. *)
Fixpoint fetchEvents (env : Env) (files : list Blob) : list Event :=
  match files with
  | [] => []
  | file :: rest =>
      (EvFetch (url file) ::
       match getBlob env (url file) with
       | Resolved _ => []
       | Rejected error =>
           [EvLog ("Fehler beim Abrufen der Metadaten f" +:+ uuml +:+ "r "
                   +:+ pathname file +:+ ": " +:+ message error)]
       end) ++ fetchEvents env rest
  end.

(** The record carries the timestamp [t]. *)
Definition hasTimestamp (t : Z) (j : Json) : bool :=
  bool_decide (timestamp j = Some t).

End ListingSpec.

(* ===================================================================== *)
(** ** The specification's vocabulary for uploads *)
(* ===================================================================== *)

Module UploadSpec.
Import Upload.

(** A recognized model entry in the specification's words: no directory,
    and the lowercased name ends in one of the model extensions. *)
Definition isModelName (n : string) (d : bool) : bool :=
  negb d && existsb (fun ext => endsWith (toLowerCase n) ext) modelExtensions.

(** A texture entry: no directory, the lowercased name ends in .png. *)
Definition isTextureName (n : string) (d : bool) : bool :=
  negb d && endsWith (toLowerCase n) ".png".

Definition isModelEntry (e : ZipEntry) : bool := isModelName (name e) (dir e).
Definition isTextureEntry (e : ZipEntry) : bool := isTextureName (name e) (dir e).

(** The first model entry and the first texture entry in enumeration
    order, each with its position. *)
Definition firstModel (es : list ZipEntry) : option (nat * ZipEntry) :=
  list_find (fun e => isModelEntry e = true) es.
Definition firstTexture (es : list ZipEntry) : option (nat * ZipEntry) :=
  list_find (fun e => isTextureEntry e = true) es.

(** The extension tag of an entry: the first extension of the fixed set
    its lowercased name ends in. *)
Definition extensionOf (e : ZipEntry) : string :=
  default "" (List.find (fun ext => endsWith (toLowerCase (name e)) ext) modelExtensions).

(** What of an entry is visible without its content. *)
Definition entryMeta (e : ZipEntry) : string * bool := (name e, dir e).

(** The request is a POST whose form parses and carries the trimmed,
    non-empty name [n] and the file [zipFile]; the file has a name and the
    name passes the handler's test; the file is read as [zipData], which the archive
    library opens as the entries [es]. *)
Record Opens (env : Env) (req : Request) (form : Form) (zipFile : File)
       (n zipData : string) (es : list ZipEntry) : Prop := mkOpens {
  opens_method : method req = "POST";
  opens_form : parseForm env = Resolved form;
  opens_name : trim <$> (modelName form ≫= head) = Some n;
  opens_name_ne : n <> "";
  opens_file : file form ≫= head = Some zipFile;
  opens_zip :
    originalFilename zipFile ≫= (fun fileName => toLowerCase <$> pop (split "." fileName))
    = Some "zip";
  opens_read : readFileSync env (filepath zipFile) = Resolved zipData;
  opens_load : loadAsync env zipData = Resolved es;
}.


(** The render dispatch of an upload: where it goes, what it carries,
    and what its [.catch] callback logs once the request settles. *)
Definition dispatchUrl (req : Request) : string :=
  Js.tmpl (origin req) +:+ "/api/thumbnail".
Definition dispatchPayload (id : string) : Json := JObj {[ "modelId" := JStr id ]}.

End UploadSpec.

(* ===================================================================== *)
(** ** Metadata Records in the store *)
(* ===================================================================== *)

Module Record.

(** A field of a record; [None] when it is missing or the value is no
    object. *)
Definition field (j : Json) (k : string) : option Json :=
  match j with
  | JObj m => m !! k
  | _ => None
  end.

(** The records an invocation handed to the store's [put], in order. *)
Definition recordsPut (t : list Event) : list (string * Json) :=
  omap (fun ev => match ev with
                  | EvPut k (JsonText j) => Some (k, j)
                  | _ => None
                  end) t.

(** The store after the writes of a trace, given which writes the store
    accepted: a write replaces the whole blob at its key. *)
Definition storeAfter (put : string -> Body -> Outcome string)
           (store : gmap string Body) (t : list Event) : gmap string Body :=
  fold_left (fun st ev =>
               match ev with
               | EvPut k c => match put k c with
                              | Resolved _ => <[k := c]> st
                              | Rejected _ => st
                              end
               | _ => st
               end) t store.

(** The status of the record stored at a key. *)
Definition statusAt (store : gmap string Body) (k : string) : option Json :=
  match store !! k with
  | Some (JsonText j) => field j "status"
  | _ => None
  end.

End Record.

(* ===================================================================== *)
(** ** The operations of the system *)
(* ===================================================================== *)

(** One invocation of one of the three handlers that write or delete. *)
Inductive Invocation : Type :=
  | UploadRun (env : Upload.Env) (req : Upload.Request)
  | RenderRun (env : Thumbnail.Env) (req : Thumbnail.Request)
  | DeleteRun (env : Delete.Env) (req : Delete.Request).

Definition traceOf (inv : Invocation) : list Event :=
  match inv with
  | UploadRun env req => trace (Upload.exec env req)
  | RenderRun env req => trace (Thumbnail.exec env req)
  | DeleteRun env req => trace (Delete.exec env req)
  end.

Module RenderSpec.
Import Thumbnail.

(** The record as the success path of the Render Trigger leaves it in
    memory: status Ready, then thumbnailUrl. *)
Definition readyRecord (m0 : gmap string Json) (url : string) : gmap string Json :=
  <["thumbnailUrl" := JStr url]> (<["status" := JStr "Ready"]> m0).

(** The request is a POST for the asset [mid], which prints as [id]; the
    browser renders and captures [buf]; the store takes the image and
    returns [url]; the record [m0] is loaded. *)
Record Renders (env : Env) (req : Request) (mid : Json) (id buf url : string)
       (m0 : gmap string Json) : Prop := mkRenders {
  renders_method : method req = "POST";
  renders_id : destructure (reqBody req) "modelId" = Resolved (Some mid);
  renders_truthy : Js.truthy (Some mid) = true;
  renders_prints : Js.toString (numberToString env) (Some mid) = Resolved id;
  renders_launch : launch env = Resolved tt;
  renders_page : newPage env = Resolved tt;
  renders_viewport : setViewport env = Resolved tt;
  renders_goto :
    goto env (Js.tmpl (origin req) +:+ "/render.html?id=" +:+ id) = Resolved tt;
  renders_wait : waitForFunction env = Resolved tt;
  renders_shot : screenshot env = Resolved buf;
  renders_put : put env (thumbnailKey id) (Bytes buf) = Resolved url;
  renders_fetch :
    fetch env (Js.tmpl (origin req) +:+ "/" +:+ metadataKey id) =
    Resolved (mkFetchResponse true (Resolved (JObj m0)));
}.

End RenderSpec.

(* ===================================================================== *)
(** ** Vocabulary for the render and delete invocations *)
(* ===================================================================== *)

Module RenderSteps.
Import Thumbnail.

(** The request is a POST for the asset [mid], which prints as [id]; the
    browser is launched, renders the page of the asset and captures
    [buf]; the store accepts the image at the thumbnail key and returns
    [url]. *)
Record Captures (env : Env) (req : Request) (mid : Json) (id buf url : string)
  : Prop := mkCaptures {
  captures_method : method req = "POST";
  captures_id : destructure (reqBody req) "modelId" = Resolved (Some mid);
  captures_truthy : Js.truthy (Some mid) = true;
  captures_prints : Js.toString (numberToString env) (Some mid) = Resolved id;
  captures_launch : launch env = Resolved tt;
  captures_page : newPage env = Resolved tt;
  captures_viewport : setViewport env = Resolved tt;
  captures_goto :
    goto env (Js.tmpl (origin req) +:+ "/render.html?id=" +:+ id) = Resolved tt;
  captures_wait : waitForFunction env = Resolved tt;
  captures_shot : screenshot env = Resolved buf;
  captures_put : put env (thumbnailKey id) (Bytes buf) = Resolved url;
}.

(** Where the Render Trigger loads the record of the asset whose id
    prints as [id] from. *)
Definition oldMetadataUrl (req : Request) (id : string) : string :=
  Js.tmpl (origin req) +:+ "/" +:+ metadataKey id.

(** The events of an invocation up to the stored image. *)
Definition captured (req : Request) (id buf : string) : list Event :=
  [EvBrowser Launch; EvBrowser NewPage;
   EvBrowser (SetViewport RENDER_SIZE RENDER_SIZE);
   EvBrowser (Goto (Js.tmpl (origin req) +:+ "/render.html?id=" +:+ id));
   EvBrowser (WaitForFunction "window.renderingFinished === true" 60000);
   EvBrowser Screenshot;
   EvPut (thumbnailKey id) (Bytes buf)].

(** A JSON value that is no object and no array: [null], a boolean, a
    number or a string. *)
Definition isPrimitive (j : Json) : bool :=
  match j with
  | JObj _ | JArr _ => false
  | _ => true
  end.

End RenderSteps.

Module DeleteSteps.
Import Delete.

(** Where the delete handler loads the record of the asset whose id
    prints as [id] from. *)
Definition metadataUrl (req : Request) (id : string) : string :=
  Js.tmpl (origin req) +:+ "/models/" +:+ id +:+ "/metadata.json".

(** The request is a POST for the asset [mid], which prints as [id]. *)
Record Asks (env : Env) (req : Request) (mid : Json) (id : string) : Prop := mkAsks {
  asks_method : method req = "POST";
  asks_id : destructure (reqBody req) "id" = Resolved (Some mid);
  asks_truthy : Js.truthy (Some mid) = true;
  asks_prints : Js.toString (numberToString env) (Some mid) = Resolved id;
}.

(** A field that is missing or holds a string. *)
Definition stringOrMissing (v : option Json) : bool :=
  match v with
  | None | Some (JStr _) => true
  | _ => false
  end.

(** What the callback of the first [filter] throws. *)
Definition startsWithError : Error := TypeError "url.startsWith is not a function".

End DeleteSteps.

Module RuntimeExamples.

(** A runtime as far as the examples ask it: the one integer beyond 2^53
    that is printed is 10^21, and the strings read as numbers are the
    empty one and one digit. *)
Definition numberToString (n : Z) : string := "1e+21".
Definition stringToNumber (s : string) : option Z :=
  if String.eqb s "" then Some 0%Z
  else if String.eqb s "5" then Some 5%Z
  else None.

End RuntimeExamples.

Module UploadExamples.
Import Upload.

Definition okPut (k : string) (_ : Body) : Outcome string :=
  Resolved ("https://store.example/" +:+ k).

Definition chair : list ZipEntry :=
  [ mkEntry "assets/" true (Resolved "");
    mkEntry "assets/skin.png" false (Resolved "PNGDATA");
    mkEntry "assets/MESH.OBJ" false (Resolved "o mesh");
    mkEntry "assets/other.glb" false (Resolved "glTF") ].


Definition file0 (fname : string) : File := mkFile (Some fname) "/tmp/up1".
Definition form0 (fname : string) : Form :=
  mkForm (Some ["  Chair "]) (Some [file0 fname]).

Definition env0 (fname : string) (zip : Outcome (list ZipEntry)) : Env :=
  mkEnv (Resolved (form0 fname))
        (fun _ => Resolved "PK")
        (fun _ => zip)
        "id-1" okPut 1700000000000
        (fun _ _ => Resolved tt).

Definition post : Request := mkRequest "POST" (Some "https://site.example").


End UploadExamples.


Module ThumbnailExamples.
Import Thumbnail.

Definition thumbUrl : string := "https://store.example/models/a1/thumbnail.png".

(** The record of asset a1 as the upload handler wrote it, with another
    status when asked. *)
Definition recordWith (st : string) : gmap string Json :=
  <["status" := JStr st]>
    (Upload.newModelMetadata "a1" "Chair" "https://store.example/models/a1/model.obj"
       "https://store.example/models/a1/texture.png" ".obj" 1700000000000).

Definition served (st : string) (_ : string) : Outcome FetchResponse :=
  Resolved (mkFetchResponse true (Resolved (JObj (recordWith st)))).

(** A store that accepts every write. *)
Definition okPut (k : string) (_ : Body) : Outcome string :=
  Resolved ("https://store.example/" +:+ k).


Definition env0 (put : string -> Body -> Outcome string) (st : string) : Env :=
  mkEnv RuntimeExamples.numberToString
        (Resolved tt) (Resolved tt) (Resolved tt) (fun _ => Resolved tt) (Resolved tt)
        (Resolved "PNG") put (served st) (Resolved tt).

Definition post : Request :=
  mkRequest "POST" (Some "https://site.example") (Some (JObj {[ "modelId" := JStr "a1" ]})).

(** The store holding the record of a1 with the given status. *)
Definition store0 (st : string) : gmap string Body :=
  {[ metadataKey "a1" := JsonText (JObj (recordWith st)) ]}.

End ThumbnailExamples.

Module DeleteExamples.
Import Delete.

Definition modelUrl : string := "https://store.example/models/a1/model.obj".
Definition textureUrl : string := "https://store.example/models/a1/texture.png".

(** The record of asset a1 as the upload handler wrote it: no
    thumbnailUrl yet. *)
Definition uploaded : Json :=
  JObj (Upload.newModelMetadata "a1" "Chair" modelUrl textureUrl ".obj" 1700000000000).

Definition env0 (record : Json) : Env :=
  mkEnv RuntimeExamples.numberToString
        (fun _ => Resolved (mkFetchResponse true (Resolved record)))
        (fun _ => Resolved tt).

Definition post : Request :=
  mkRequest "POST" (Some "https://site.example") (Some (JObj {[ "id" := JStr "a1" ]})).

End DeleteExamples.

Module ListingExamples.
Import Listing.

Definition record (id : string) (ts : Z) : Json :=
  JObj (Upload.newModelMetadata id "Chair" ("https://store.example/models/" +:+ id +:+ "/model.obj")
          ("https://store.example/models/" +:+ id +:+ "/texture.png") ".obj" ts).

Definition blobs : list Blob :=
  [ mkBlob "models/a/metadata.json" "u/a"; mkBlob "models/a/model.obj" "u/a/model";
    mkBlob "models/b/metadata.json" "u/b"; mkBlob "models/c/metadata.json" "u/c";
    mkBlob "models/d/metadata.json" "u/d" ].

(** Three records load, c cannot be fetched. *)
Definition env0 : Env :=
  mkEnv RuntimeExamples.numberToString RuntimeExamples.stringToNumber
        (Resolved blobs)
        (fun u => if String.eqb u "u/a" then Resolved (record "a" 10)
                  else if String.eqb u "u/b" then Resolved (record "b" 30)
                  else if String.eqb u "u/d" then Resolved (record "d" 10)
                  else Rejected (mkError "not found")).

Definition get : Request := mkRequest "GET".

End ListingExamples.

Module MoreExamples.

(** An upload whose name is only white space. *)
Definition blankForm : Upload.Form :=
  Upload.mkForm (Some ["   "]) (Some [UploadExamples.file0 "a.zip"]).
Definition blankEnv : Upload.Env :=
  Upload.mkEnv (Resolved blankForm) (fun _ => Resolved "PK")
               (fun _ => Resolved UploadExamples.chair) "id-1" UploadExamples.okPut
               1700000000000 (fun _ _ => Resolved tt).

(** A store that refuses the texture. *)
Definition refuseTexture (k : string) (_ : Body) : Outcome string :=
  if endsWith k "/texture.png" then Rejected (mkError "store unavailable")
  else Resolved ("https://store.example/" +:+ k).
Definition textureFailsEnv : Upload.Env :=
  Upload.mkEnv (Resolved (UploadExamples.form0 "a.zip")) (fun _ => Resolved "PK")
               (fun _ => Resolved UploadExamples.chair) "id-1" refuseTexture
               1700000000000 (fun _ _ => Resolved tt).

(** A store that takes the image and refuses every record. *)
Definition refuseRecords (k : string) (c : Body) : Outcome string :=
  match c with
  | JsonText _ => Rejected (mkError "store unavailable")
  | Bytes _ => Resolved ("https://store.example/" +:+ k)
  end.

(** A render environment by what the fetch of the old record gives. *)
Definition renderEnv (put : string -> Body -> Outcome string)
           (served : Outcome FetchResponse) : Thumbnail.Env :=
  Thumbnail.mkEnv RuntimeExamples.numberToString
                  (Resolved tt) (Resolved tt) (Resolved tt) (fun _ => Resolved tt)
                  (Resolved tt) (Resolved "PNG") put (fun _ => served) (Resolved tt).

Definition notFound : FetchResponse := mkFetchResponse false (Resolved JNull).

(** The record of a1 exactly as the upload handler writes it. *)
Definition uploadedA1 : gmap string Json :=
  Upload.newModelMetadata "a1" "Chair" "https://store.example/models/a1/model.obj"
    "https://store.example/models/a1/texture.png" ".obj" 1700000000000.

Definition noBody : Thumbnail.Request :=
  Thumbnail.mkRequest "POST" (Some "https://site.example") None.

(** A delete environment by what the fetch of the record gives. *)
Definition deleteEnv (served : Outcome FetchResponse) : Delete.Env :=
  Delete.mkEnv RuntimeExamples.numberToString (fun _ => served) (fun _ => Resolved tt).

Definition deleteNoBody : Delete.Request :=
  Delete.mkRequest "POST" (Some "https://site.example") None.

(** An upload whose file part has no file name. *)
Definition namelessForm : Upload.Form :=
  Upload.mkForm (Some ["  Chair "]) (Some [Upload.mkFile None "/tmp/up1"]).
Definition namelessEnv : Upload.Env :=
  Upload.mkEnv (Resolved namelessForm) (fun _ => Resolved "PK")
               (fun _ => Resolved UploadExamples.chair) "id-1" UploadExamples.okPut
               1700000000000 (fun _ _ => Resolved tt).

(** A render request for an id that cannot be printed, and one for the
    id 10^21. *)
Definition unprintablePost : Thumbnail.Request :=
  Thumbnail.mkRequest "POST" (Some "https://site.example")
    (Some (JObj {[ "modelId" := JObj {[ "toString" := JNum 1 ]} ]})).
Definition largePost : Thumbnail.Request :=
  Thumbnail.mkRequest "POST" (Some "https://site.example")
    (Some (JObj {[ "modelId" := JNum (10 ^ 21) ]})).

(** A record whose modelUrl is a number. *)
Definition numberUrl : gmap string Json := <["modelUrl" := JNum 5]> uploadedA1.

End MoreExamples.
(* ===================================================================== *)
(** ** Facts about the string functions *)
(* ===================================================================== *)

Section StringFacts.

Lemma append_cons (x : ascii) (a b : string) : String x a +:+ b = String x (a +:+ b).
Proof. reflexivity. Qed.

Lemma append_nil_l (b : string) : "" +:+ b = b.
Proof. reflexivity. Qed.

Lemma append_assoc (a b c : string) : (a +:+ b) +:+ c = a +:+ (b +:+ c).
Proof.
  induction a as [|x a IH]; [reflexivity|].
  now rewrite !append_cons, IH.
Qed.

Lemma append_length (a b : string) :
  String.length (a +:+ b) = (String.length a + String.length b)%nat.
Proof.
  induction a as [|x a IH]; [reflexivity|].
  rewrite append_cons; simpl. now rewrite IH.
Qed.

Lemma toLowerCase_app (a b : string) :
  toLowerCase (a +:+ b) = toLowerCase a +:+ toLowerCase b.
Proof.
  induction a as [|x a IH]; [reflexivity|].
  rewrite append_cons; simpl. now rewrite append_cons, IH.
Qed.

Lemma substringFrom_app (p s : string) : substringFrom (String.length p) (p +:+ s) = s.
Proof.
  induction p as [|x p IH]; [now destruct s|].
  rewrite append_cons; simpl. exact IH.
Qed.

(** Cutting a string at an index inside it. *)
Lemma substringFrom_cut (m : nat) (s : string) :
  (m <= String.length s)%nat ->
  exists p, s = p +:+ substringFrom m s /\ String.length p = m.
Proof.
  revert s; induction m as [|m IH]; intros s Hm.
  - exists ""; split; [now destruct s | reflexivity].
  - destruct s as [|c r]; simpl in Hm; [lia|].
    destruct (IH r) as (p & Hp & Hl); [lia|].
    exists (String c p); rewrite append_cons; simpl; split;
      [now rewrite <- Hp | now rewrite Hl].
Qed.

(** [endsWith] is having a prefix in front of the suffix. *)
Lemma endsWith_spec (s suf : string) :
  endsWith s suf = true <-> exists p, s = p +:+ suf.
Proof.
  unfold endsWith; split.
  - intros H; apply andb_true_iff in H as [Hle Heq].
    apply Nat.leb_le in Hle. apply String.eqb_eq in Heq.
    destruct (substringFrom_cut (String.length s - String.length suf) s) as (p & Hp & _);
      [lia|].
    exists p. now rewrite <- Heq.
  - intros [p ->]. rewrite append_length.
    apply andb_true_iff; split; [apply Nat.leb_le; lia|].
    replace (String.length p + String.length suf - String.length suf)%nat
      with (String.length p) by lia.
    rewrite substringFrom_app. apply String.eqb_refl.
Qed.

(** The shape of [split]: one piece when the separator does not occur,
    else the last piece is what follows the last separator. *)
Lemma split_shape (sep : ascii) (s : string) :
  match split sep s with
  | [] => False
  | [h] => s = h
  | _ :: t => exists x p, last t = Some x /\ s = p +:+ String sep x
  end.
Proof.
  induction s as [|c r IH]; simpl; [reflexivity|].
  destruct (Ascii.eqb c sep) eqn:E.
  - apply Ascii.eqb_eq in E; subst c.
    destruct (split sep r) as [|h' [|h'' t']]; [contradiction | |].
    + subst r. exists h', "". split; reflexivity.
    + destruct IH as (x & p & Hl & ->).
      exists x, (String sep p). split; [exact Hl | reflexivity].
  - destruct (split sep r) as [|h' [|h'' t']]; [contradiction | |].
    + now subst r.
    + destruct IH as (x & p & Hl & ->).
      exists x, (String c p). split; [exact Hl | reflexivity].
Qed.

Lemma pop_split (sep : ascii) (s : string) :
  exists x, pop (split sep s) = Some x /\
            (s = x \/ exists p, s = p +:+ String sep x).
Proof.
  pose proof (split_shape sep s) as H. unfold pop.
  destruct (split sep s) as [|h [|h' t]]; [contradiction | |].
  - subst h. exists s. split; [reflexivity | now left].
  - destruct H as (x & p & Hl & ->). exists x. split; [exact Hl | right; now exists p].
Qed.

(** When the file-name test of the upload handler lets a name pass. *)
Lemma zip_name_passes (f x : string) :
  pop (split "." f) = Some x -> toLowerCase x = "zip" ->
  toLowerCase f = "zip" \/ endsWith (toLowerCase f) ".zip" = true.
Proof.
  intros Hp Hx. destruct (pop_split "." f) as (y & Hy & Hs).
  rewrite Hp in Hy; injection Hy as <-.
  destruct Hs as [-> | [p ->]]; [now left | right].
  apply endsWith_spec. exists (toLowerCase p).
  rewrite toLowerCase_app. simpl. rewrite Hx. reflexivity.
Qed.




End StringFacts.

(* ===================================================================== *)
(** ** The entry scan of the Ingest Extractor *)
(* ===================================================================== *)

Section ScanFacts.
Import Upload UploadSpec.

(** One round of the [forEach] callback, in the specification's words. *)
Lemma scanEntry_spec (acc : Scan) (e : ZipEntry) :
  scanEntry acc e =
  mkScan
    (match modelFile acc with
     | Some m => Some m
     | None => if isModelEntry e then Some e else None
     end)
    (match textureFile acc with
     | Some t => Some t
     | None => if isTextureEntry e then Some e else None
     end)
    (match modelFile acc with
     | Some _ => modelExtension acc
     | None => if isModelEntry e then extensionOf e else modelExtension acc
     end).
Proof.
  unfold scanEntry, isModelEntry, isTextureEntry, isModelName, isTextureName,
    extensionOf, modelExtensions.
  destruct acc as [[m|] [t|] x]; destruct (dir e); simpl;
    destruct (endsWith (toLowerCase (name e)) ".png");
    destruct (endsWith (toLowerCase (name e)) ".obj");
    destruct (endsWith (toLowerCase (name e)) ".gltf");
    destruct (endsWith (toLowerCase (name e)) ".glb");
    destruct (endsWith (toLowerCase (name e)) ".json");
    reflexivity.
Qed.

Lemma list_find_cons_bool {A} (p : A -> bool) (x : A) (l : list A) :
  list_find (fun a => p a = true) (x :: l) =
  if p x then Some (0%nat, x) else prod_map S id <$> list_find (fun a => p a = true) l.
Proof.
  simpl. destruct (p x); case_decide; try reflexivity; congruence.
Qed.

(** The fold from any accumulator: a variable that is set stays, one
    that is not set takes the first match of the rest. *)
Lemma scan_fold (es : list ZipEntry) (acc : Scan) :
  fold_left scanEntry es acc =
  mkScan
    (match modelFile acc with
     | Some m => Some m
     | None => snd <$> firstModel es
     end)
    (match textureFile acc with
     | Some t => Some t
     | None => snd <$> firstTexture es
     end)
    (match modelFile acc with
     | Some _ => modelExtension acc
     | None => match firstModel es with
               | Some (_, m) => extensionOf m
               | None => modelExtension acc
               end
     end).
Proof.
  revert acc; induction es as [|e es IH]; intros acc.
  - simpl. now destruct acc as [[m|] [t|] x].
  - simpl fold_left. rewrite IH, scanEntry_spec.
    unfold firstModel, firstTexture. rewrite !list_find_cons_bool.
    destruct acc as [[m|] [t|] x]; simpl;
      destruct (isModelEntry e); destruct (isTextureEntry e); simpl;
      try reflexivity;
      fold (firstModel es); fold (firstTexture es);
      destruct (firstModel es) as [[i m']|]; destruct (firstTexture es) as [[j t']|];
      reflexivity.
Qed.

Lemma scan_model es : modelFile (scan es) = snd <$> firstModel es.
Proof. unfold scan. now rewrite scan_fold. Qed.

Lemma scan_texture es : textureFile (scan es) = snd <$> firstTexture es.
Proof. unfold scan. now rewrite scan_fold. Qed.

Lemma scan_extension es :
  modelExtension (scan es) =
  match firstModel es with Some (_, m) => extensionOf m | None => "" end.
Proof. unfold scan. now rewrite scan_fold. Qed.

(** The position of the first match is a function of the names and the
    directory flags. *)
Lemma list_find_meta (p : string -> bool -> bool) (es : list ZipEntry) :
  fst <$> list_find (fun e => p (name e) (dir e) = true) es =
  fst <$> list_find (fun m : string * bool => p (fst m) (snd m) = true) (entryMeta <$> es).
Proof.
  induction es as [|e es IH]; [reflexivity|].
  rewrite fmap_cons.
  rewrite (list_find_cons_bool (fun e => p (name e) (dir e))).
  rewrite (list_find_cons_bool (fun m : string * bool => p (fst m) (snd m))).
  simpl. destruct (p (name e) (dir e)); [reflexivity|].
  destruct (list_find (fun e => p (name e) (dir e) = true) es) as [[i x]|],
           (list_find (fun m : string * bool => p (fst m) (snd m) = true) (entryMeta <$> es))
             as [[j y]|]; simpl in *; congruence.
Qed.



End ScanFacts.

(* ===================================================================== *)
(** ** Running the upload handler *)
(* ===================================================================== *)

Section UploadRun.
Import Upload UploadSpec.

Lemma truthy_ne (s : string) : s <> "" -> JsString.truthy s = true.
Proof.
  intros H. unfold JsString.truthy. destruct (String.eqb s "") eqn:E; [|reflexivity].
  apply String.eqb_eq in E. contradiction.
Qed.

(** Up to the opened archive the handler has parsed the form, read the
    file and opened it, and nothing else. *)
Lemma handler_opens env req form zipFile n zipData es :
  Opens env req form zipFile n zipData es ->
  handler env req (mkSt tt [] None []) =
  try_catch (extractAndStore env req n es) catchBlock
    (mkSt tt [EvParseForm; EvReadFile (filepath zipFile); EvLoadZip zipData] None
          (did [EvParseForm; EvReadFile (filepath zipFile); EvLoadZip zipData])).
Proof.
  intros [Hm Hf Hn Hne Hfile Hzip Hr Hl].
  unfold handler. rewrite Hm. simpl negb. cbv iota.
  unfold try_catch, tryBlock, bind, await, lift. rewrite Hf. simpl.
  rewrite Hn, Hfile, (truthy_ne n Hne). simpl.
  destruct (originalFilename zipFile) as [fileName|]; [|discriminate].
  simpl in Hzip.
  destruct (pop (split "." fileName)) as [x|]; [|discriminate].
  simpl in Hzip. injection Hzip as Hzip. rewrite Hzip. simpl.
  rewrite Hr. simpl. rewrite Hl. reflexivity.
Qed.

(** The end of an invocation whose archive has no model entry. *)
Lemma extract_no_model env req n es t0 tl0 :
  firstModel es = None ->
  try_catch (extractAndStore env req n es) catchBlock (mkSt tt t0 None tl0) =
  (Ret, mkSt tt t0 (Some (mkResponse 400 (msg msgNoModel)))
             (tl0 ++ [Answered (mkResponse 400 (msg msgNoModel))])).
Proof.
  intros H. unfold try_catch, extractAndStore. rewrite scan_model, H. reflexivity.
Qed.

(** The end of an invocation whose archive has a model entry and no
    texture entry. *)
Lemma extract_no_texture env req n es t0 tl0 im :
  firstModel es = Some im -> firstTexture es = None ->
  try_catch (extractAndStore env req n es) catchBlock (mkSt tt t0 None tl0) =
  (Ret, mkSt tt t0 (Some (mkResponse 400 (msg msgNoTexture)))
             (tl0 ++ [Answered (mkResponse 400 (msg msgNoTexture))])).
Proof.
  intros Hm Ht. unfold try_catch, extractAndStore.
  rewrite scan_model, scan_texture, Hm, Ht. reflexivity.
Qed.

(** With both entries the handler answers 200 or 500, never 400. *)
Lemma extract_both env req n es t0 tl0 im jt :
  firstModel es = Some im -> firstTexture es = Some jt ->
  let s := snd (try_catch (extractAndStore env req n es) catchBlock (mkSt tt t0 None tl0)) in
  status <$> response s = Some 200%Z \/ status <$> response s = Some 500%Z.
Proof.
  intros Hm Ht. unfold try_catch, extractAndStore.
  rewrite scan_model, scan_texture, Hm, Ht. simpl.
  unfold bind, await, catchBlock, bind, emit, respond.
  repeat match goal with
         | |- context [match ?o with Resolved _ => _ | Rejected _ => _ end] =>
             destruct o; simpl
         end; auto.
Qed.




End UploadRun.

(* ===================================================================== *)
(** ** Properties of the upload handler *)
(* ===================================================================== *)

Section UploadClaims.
Import Upload UploadSpec UploadExamples.

Lemma exec_opens env req form zipFile n zipData es :
  Opens env req form zipFile n zipData es ->
  exec env req =
  snd (try_catch (extractAndStore env req n es) catchBlock
         (mkSt tt [EvParseForm; EvReadFile (filepath zipFile); EvLoadZip zipData] None
               (did [EvParseForm; EvReadFile (filepath zipFile); EvLoadZip zipData]))).
Proof. intros H. unfold exec, run. now rewrite (handler_opens _ _ _ _ _ _ _ H). Qed.

Lemma existsb_modelExtensions (s : string) :
  existsb (fun ext => endsWith s ext) modelExtensions = true <->
  exists ext p, ext ∈ modelExtensions /\ s = p +:+ ext.
Proof.
  rewrite existsb_exists. split.
  - intros (ext & Hin & He). apply endsWith_spec in He as [p Hp].
    exists ext, p. split; [now apply list_elem_of_In | exact Hp].
  - intros (ext & p & Hin & Hp). exists ext. split; [now apply list_elem_of_In|].
    apply endsWith_spec. now exists p.
Qed.

(** C10.  The model extensions are exactly .obj, .gltf, .glb and .json
    and the texture extension is .png; the callback of the scan takes an
    entry as the model exactly when it is no directory and its lowercased
    name ends in one of the four, and as the texture exactly when it is
    no directory and its lowercased name ends in .png; so MODEL.OBJ and
    Skin.PNG are recognized. *)
Theorem recognized_extensions_case_insensitive :
  modelExtensions = [".obj"; ".gltf"; ".glb"; ".json"] /\
  (forall e : ZipEntry,
      modelFile (scanEntry scan0 e) = Some e <->
      dir e = false /\
      exists ext p, ext ∈ [".obj"; ".gltf"; ".glb"; ".json"] /\
                    toLowerCase (name e) = p +:+ ext) /\
  (forall e : ZipEntry,
      textureFile (scanEntry scan0 e) = Some e <->
      dir e = false /\ exists p, toLowerCase (name e) = p +:+ ".png") /\
  (forall d1 d2 : Outcome string,
      scan [mkEntry "MODEL.OBJ" false d1; mkEntry "Skin.PNG" false d2] =
      mkScan (Some (mkEntry "MODEL.OBJ" false d1)) (Some (mkEntry "Skin.PNG" false d2))
             ".obj").
Proof.
  split; [reflexivity|]. split; [|split].
  - intros e. rewrite scanEntry_spec. simpl.
    unfold isModelEntry, isModelName.
    rewrite <- (existsb_modelExtensions (toLowerCase (name e))).
    destruct (dir e), (existsb _ modelExtensions); simpl; split;
      try discriminate; try tauto; intros [? ?]; discriminate.
  - intros e. rewrite scanEntry_spec. simpl.
    unfold isTextureEntry, isTextureName.
    rewrite <- (endsWith_spec (toLowerCase (name e)) ".png").
    destruct (dir e), (endsWith _ ".png"); simpl; split;
      try discriminate; try tauto; intros [? ?]; discriminate.
  - intros d1 d2. reflexivity.
Qed.

(** C5.  For an archive that opens as the entries [es], the scan takes
    as the model the first entry, in enumeration order, that is no
    directory and whose name ends in a model extension, and as the
    texture the first that is no directory and whose name ends in .png;
    the two positions are functions of the names and directory flags in
    enumeration order, not of any content; and the handler answers 400
    exactly when there is no model entry or no texture entry. *)
Theorem ingest_selects_first_entries env req form zipFile n zipData es :
  Opens env req form zipFile n zipData es ->
  modelFile (scan es) = snd <$> firstModel es /\
  textureFile (scan es) = snd <$> firstTexture es /\
  (forall i m, firstModel es = Some (i, m) <->
               es !! i = Some m /\ isModelEntry m = true /\
               forall j e, es !! j = Some e -> (j < i)%nat -> isModelEntry e = false) /\
  (forall i t, firstTexture es = Some (i, t) <->
               es !! i = Some t /\ isTextureEntry t = true /\
               forall j e, es !! j = Some e -> (j < i)%nat -> isTextureEntry e = false) /\
  fst <$> firstModel es =
    fst <$> list_find (fun m : string * bool => isModelName (fst m) (snd m) = true)
                      (entryMeta <$> es) /\
  fst <$> firstTexture es =
    fst <$> list_find (fun m : string * bool => isTextureName (fst m) (snd m) = true)
                      (entryMeta <$> es) /\
  (statusOf (exec env req) = Some 400%Z <->
   firstModel es = None \/ firstTexture es = None).
Proof.
  intros Ho.
  split; [apply scan_model|]. split; [apply scan_texture|].
  split; [|split].
  - intros i m. unfold firstModel. rewrite list_find_Some.
    split; intros (H1 & H2 & H3); (split; [exact H1|]); (split; [exact H2|]);
      intros j e Hj Hlt; specialize (H3 j e Hj Hlt);
      destruct (isModelEntry e); congruence.
  - intros i t. unfold firstTexture. rewrite list_find_Some.
    split; intros (H1 & H2 & H3); (split; [exact H1|]); (split; [exact H2|]);
      intros j e Hj Hlt; specialize (H3 j e Hj Hlt);
      destruct (isTextureEntry e); congruence.
  - split; [apply (list_find_meta isModelName)|].
    split; [apply (list_find_meta isTextureName)|].
    rewrite (exec_opens _ _ _ _ _ _ _ Ho). unfold statusOf.
    destruct (firstModel es) as [im|] eqn:Hm.
    + destruct (firstTexture es) as [jt|] eqn:Ht.
      * pose proof (extract_both env req n es
                      [EvParseForm; EvReadFile (filepath zipFile); EvLoadZip zipData]
                      (did [EvParseForm; EvReadFile (filepath zipFile); EvLoadZip zipData])
                      im jt Hm Ht) as H.
        cbv zeta in H. split.
        -- intros H4. destruct H as [H|H]; rewrite H in H4; discriminate.
        -- intros [H4|H4]; discriminate.
      * rewrite (extract_no_texture _ _ _ _ _ _ im Hm Ht). simpl. split; auto.
    + rewrite (extract_no_model _ _ _ _ _ _ Hm). simpl. split; auto.
Qed.




(** C9, as the handler does it.  A POST whose form parses and carries a
    file whose reported name is a string that, lowercased, neither ends
    in .zip nor is zip itself is answered 400 after the form was parsed
    and before the file is read or opened. *)
Theorem upload_rejects_other_file_names env req form zipFile fileName :
  method req = "POST" ->
  parseForm env = Resolved form ->
  file form ≫= head = Some zipFile ->
  originalFilename zipFile = Some fileName ->
  endsWith (toLowerCase fileName) ".zip" = false ->
  toLowerCase fileName <> "zip" ->
  statusOf (exec env req) = Some 400%Z /\
  trace (exec env req) = [EvParseForm].
Proof.
  intros Hm Hf Hfile Hname Hends Hne.
  unfold statusOf, exec, run, handler. rewrite Hm. simpl negb. cbv iota.
  unfold try_catch, tryBlock, bind, await, lift. rewrite Hf. simpl.
  rewrite Hfile.
  destruct (trim <$> (modelName form ≫= head)) as [nm|]; [|simpl; auto].
  destruct (JsString.truthy nm); simpl; [|auto].
  rewrite Hname.
  destruct (pop_split "." fileName) as (y & Hy & _).
  rewrite Hy. simpl.
  destruct (String.eqb (toLowerCase y) "zip") eqn:E; simpl; [|auto].
  apply String.eqb_eq in E.
  destruct (zip_name_passes _ _ Hy E) as [H|H]; [contradiction | congruence].
Qed.

(** C1, as the handler does it.  A POST with a non-empty trimmed name and
    a file that passes the name test and is read, but that the archive
    library does not open, is answered 500 with the library's message:
    the error is caught by the handler's only [catch]; nothing is put
    into the store. *)
Theorem upload_malformed_archive_answers_500 env req form zipFile fileName n zipData err :
  method req = "POST" ->
  parseForm env = Resolved form ->
  trim <$> (modelName form ≫= head) = Some n ->
  n <> "" ->
  file form ≫= head = Some zipFile ->
  originalFilename zipFile = Some fileName ->
  toLowerCase <$> pop (split "." fileName) = Some "zip" ->
  readFileSync env (filepath zipFile) = Resolved zipData ->
  loadAsync env zipData = Rejected err ->
  response (exec env req) =
    Some (mkResponse 500 (msg ("Interner Serverfehler: " +:+ message err))) /\
  putKeys (trace (exec env req)) = [].
Proof.
  intros Hm Hf Hn Hne Hfile Hname Hzip Hr Hl.
  unfold exec, run, handler. rewrite Hm. simpl negb. cbv iota.
  unfold try_catch, tryBlock, bind, await, lift. rewrite Hf. simpl.
  rewrite Hn, Hfile, (truthy_ne n Hne). simpl. rewrite Hname.
  destruct (pop (split "." fileName)) as [y|]; [|discriminate].
  simpl in Hzip. injection Hzip as Hzip. rewrite Hzip. simpl.
  rewrite Hr. simpl. rewrite Hl. simpl. split; reflexivity.
Qed.

End UploadClaims.

(* ===================================================================== *)
(** ** Running the Render Trigger *)
(* ===================================================================== *)

Section ThumbnailRun.
Import Thumbnail RenderSpec.

Ltac outcomes :=
  repeat match goal with
         | |- context [match ?o with Resolved _ => _ | Rejected _ => _ end] =>
             let E := fresh "E" in destruct o eqn:E; simpl
         | |- context [if ?b then _ else _] =>
             let E := fresh "E" in destruct b eqn:E; simpl
         end.

Ltac members H :=
  repeat (apply elem_of_cons in H as [H|H]; [try discriminate|]);
  try (apply elem_of_nil in H; contradiction).

(** Every object the Render Trigger hands to the store as a record is
    written at the metadata key of the asset, whose id prints as [id],
    after the image was stored at [url] and the record [m0] was loaded; it
    is the ready record, or, when the store refused that one, the ready
    record with status Error. *)
Lemma thumbnail_puts_objects env req k m :
  (k, JObj m) ∈ Record.recordsPut (trace (exec env req)) ->
  exists mid id buf url resp m0,
    destructure (reqBody req) "modelId" = Resolved mid /\
    Js.toString (numberToString env) mid = Resolved id /\
    k = metadataKey id /\
    screenshot env = Resolved buf /\
    put env (thumbnailKey id) (Bytes buf) = Resolved url /\
    EvFetch (Js.tmpl (origin req) +:+ "/" +:+ metadataKey id) ∈ trace (exec env req) /\
    fetch env (Js.tmpl (origin req) +:+ "/" +:+ metadataKey id) = Resolved resp /\
    json resp = Resolved (JObj m0) /\
    (m = readyRecord m0 url \/
     (m = <["status" := JStr "Error"]> (readyRecord m0 url) /\
      exists e, put env k (JsonText (JObj (readyRecord m0 url))) = Rejected e)).
Proof.
  remember (trace (exec env req)) as t eqn:Ht. revert Ht.
  unfold exec, run, handler.
  destruct (negb (String.eqb (method req) "POST")).
  { simpl. intros -> H. inversion H. }
  unfold bind at 1, lift at 1.
  destruct (destructure (reqBody req) "modelId") as [mid|e] eqn:Hmid;
    [|simpl; intros -> H; inversion H].
  destruct (negb (Js.truthy mid)); [simpl; intros -> H; inversion H|].
  unfold tryBlock, catchBlock, finallyBlock, assignMetadata, putMetadata, printId.
  unfold try_finally, try_catch, bind, await, lift, emit, respond, modify, get,
    throw, ret, return_.
  simpl.
  destruct (launch env); simpl.
  2: { destruct (Js.toString _ mid); simpl; intros -> H; inversion H. }
  destruct (newPage env); simpl.
  2: { destruct (Js.toString _ mid); simpl; destruct (close env); simpl;
       intros -> H; inversion H. }
  destruct (setViewport env); simpl.
  2: { destruct (Js.toString _ mid); simpl; destruct (close env); simpl;
       intros -> H; inversion H. }
  destruct (Js.toString (numberToString env) mid) as [id|] eqn:Hprint; simpl;
    [|destruct (close env); simpl; intros -> H; inversion H].
  destruct (goto env _); simpl; [|destruct (close env); simpl; intros -> H; inversion H].
  destruct (waitForFunction env); simpl;
    [|destruct (close env); simpl; intros -> H; inversion H].
  destruct (screenshot env) as [buf|]; simpl;
    [|destruct (close env); simpl; intros -> H; inversion H].
  destruct (put env (thumbnailKey _) _) as [url|] eqn:Hput; simpl;
    [|destruct (close env); simpl; intros -> H; inversion H].
  destruct (fetch env _) as [resp|] eqn:Hfetch; simpl;
    [|destruct (close env); simpl; intros -> H; inversion H].
  destruct (ok resp); simpl; [|destruct (close env); simpl; intros -> H; inversion H].
  destruct (json resp) as [md|] eqn:Hjson; simpl;
    [|destruct (close env); simpl; intros -> H; inversion H].
  destruct md as [| b | z | str | arr | m0]; simpl.
  1-4: repeat match goal with
              | |- context [if ?c then _ else _] => destruct c; simpl
              end;
       destruct (close env); simpl; intros -> H; members H.
  - (* an array: what is stored is the array *)
    destruct (put env (metadataKey _) (JsonText (JArr arr))); simpl;
      [|destruct (put env (metadataKey _) (JsonText (JArr arr))); simpl];
      destruct (close env); simpl; intros -> H; members H.
  - fold (readyRecord m0 url).
    assert (Hgoal : forall rest,
              ((k, JObj m) = (metadataKey id, JObj (readyRecord m0 url)) \/
               ((k, JObj m) = (metadataKey id,
                  JObj (<["status" := JStr "Error"]> (readyRecord m0 url))) /\
                exists e, put env (metadataKey id) (JsonText (JObj (readyRecord m0 url)))
                          = Rejected e)) ->
              exists mid' id' buf' url' resp' m0',
                Resolved mid = Resolved mid' /\
                Js.toString (numberToString env) mid' = Resolved id' /\
                k = metadataKey id' /\
                Resolved buf = Resolved buf' /\
                put env (thumbnailKey id') (Bytes buf') = Resolved url' /\
                EvFetch (Js.tmpl (origin req) +:+ "/" +:+ metadataKey id') ∈
                  ([EvBrowser Launch; EvBrowser NewPage;
                    EvBrowser (SetViewport RENDER_SIZE RENDER_SIZE);
                    EvBrowser (Goto (Js.tmpl (origin req) +:+ "/render.html?id=" +:+ id));
                    EvBrowser (WaitForFunction "window.renderingFinished === true" 60000);
                    EvBrowser Screenshot;
                    EvPut (thumbnailKey id) (Bytes buf);
                    EvFetch (Js.tmpl (origin req) +:+ "/" +:+ metadataKey id)] ++ rest)%list /\
                fetch env (Js.tmpl (origin req) +:+ "/" +:+ metadataKey id')
                  = Resolved resp' /\
                json resp' = Resolved (JObj m0') /\
                (m = readyRecord m0' url' \/
                 (m = <["status" := JStr "Error"]> (readyRecord m0' url') /\
                  exists e, put env k (JsonText (JObj (readyRecord m0' url')))
                            = Rejected e))).
    { assert (Hin : forall rest,
                EvFetch (Js.tmpl (origin req) +:+ "/" +:+ metadataKey id) ∈
                  ([EvBrowser Launch; EvBrowser NewPage;
                    EvBrowser (SetViewport RENDER_SIZE RENDER_SIZE);
                    EvBrowser (Goto (Js.tmpl (origin req) +:+ "/render.html?id=" +:+ id));
                    EvBrowser (WaitForFunction "window.renderingFinished === true" 60000);
                    EvBrowser Screenshot;
                    EvPut (thumbnailKey id) (Bytes buf);
                    EvFetch (Js.tmpl (origin req) +:+ "/" +:+ metadataKey id)] ++ rest)%list).
      { intros rest. cbn [app]. rewrite !elem_of_cons. do 7 right. now left. }
      intros rest [H|[H [e He]]].
      - injection H as -> ->.
        exists mid, id, buf, url, resp, m0.
        repeat (split; [first [easy | apply Hin]|]). now left.
      - injection H as -> ->.
        exists mid, id, buf, url, resp, m0.
        repeat (split; [first [easy | apply Hin]|]). right.
        split; [reflexivity | now exists e]. }
    destruct (put env (metadataKey _) (JsonText (JObj (readyRecord m0 url))))
      as [u|e] eqn:Hready; simpl.
    + destruct (close env); simpl; intros -> H; members H;
        (eapply Hgoal; left; exact H).
    + destruct (put env (metadataKey _) (JsonText (JObj (<["status" := _]> _))));
        simpl; destruct (close env); simpl; intros -> H;
        (apply elem_of_cons in H as [H|H];
         [|members H];
         (eapply Hgoal;
          first [left; exact H | right; split; [exact H | now exists e]])).
Qed.

(** The run in which the browser, the store and the network all succeed
    up to the loaded record: what the invocation leaves behind, by
    whether the store accepts the ready record. *)
Lemma handler_renders env req mid id buf url m0 :
  Renders env req mid id buf url m0 ->
  let ready := readyRecord m0 url in
  let failed := <["status" := JStr "Error"]> ready in
  let t0 := [EvBrowser Launch; EvBrowser NewPage;
             EvBrowser (SetViewport RENDER_SIZE RENDER_SIZE);
             EvBrowser (Goto (Js.tmpl (origin req) +:+ "/render.html?id=" +:+ id));
             EvBrowser (WaitForFunction "window.renderingFinished === true" 60000);
             EvBrowser Screenshot;
             EvPut (thumbnailKey id) (Bytes buf);
             EvFetch (Js.tmpl (origin req) +:+ "/" +:+ metadataKey id);
             EvPut (metadataKey id) (JsonText (JObj ready))] in
  exec env req =
  match put env (metadataKey id) (JsonText (JObj ready)) with
  | Resolved _ =>
      mkSt (mkLocals true (Some buf) (Some (JObj ready)) (Some url))
           (t0 ++ [EvBrowser Close])
           (Some (mkResponse 200 (okBody mid url)))
           (did t0 ++ [Answered (mkResponse 200 (okBody mid url)); Did (EvBrowser Close)])
  | Rejected e =>
      mkSt (mkLocals true (Some buf) (Some (JObj failed)) (Some url))
           (t0 ++ EvLog ("FEHLER beim Rendern f" +:+ uuml +:+ "r ID " +:+ id +:+ ": "
                         +:+ message e)
               :: EvPut (metadataKey id) (JsonText (JObj failed))
               :: match put env (metadataKey id) (JsonText (JObj failed)) with
                  | Resolved _ => [EvBrowser Close]
                  | Rejected e' =>
                      [EvLog ("Kritischer Fehler: Konnte Status nicht auf 'Error' aktualisieren. "
                              +:+ message e');
                       EvBrowser Close]
                  end)
           (Some (mkResponse 500 (errorBody e)))
           (did t0 ++ Did (EvLog ("FEHLER beim Rendern f" +:+ uuml +:+ "r ID " +:+ id +:+ ": "
                                  +:+ message e))
               :: Did (EvPut (metadataKey id) (JsonText (JObj failed)))
               :: match put env (metadataKey id) (JsonText (JObj failed)) with
                  | Resolved _ =>
                      [Answered (mkResponse 500 (errorBody e)); Did (EvBrowser Close)]
                  | Rejected e' =>
                      [Did (EvLog ("Kritischer Fehler: Konnte Status nicht auf 'Error' aktualisieren. "
                                   +:+ message e'));
                       Answered (mkResponse 500 (errorBody e)); Did (EvBrowser Close)]
                  end)
  end.
Proof.
  intros [Hm Hid Hty Hpr Hl Hp Hv Hg Hw Hs Hput Hf]. intros ready failed t0.
  subst ready failed t0.
  unfold exec, run, handler. rewrite Hm. simpl negb. cbv iota.
  unfold bind, lift. rewrite Hid. cbv beta iota. rewrite Hty.
  simpl negb. cbv iota.
  unfold tryBlock, catchBlock, finallyBlock, assignMetadata, putMetadata, printId.
  unfold try_finally, try_catch, bind, await, lift, emit, respond, modify, get,
    throw, ret, return_.
  simpl. rewrite Hl. simpl. rewrite Hp. simpl. rewrite Hv. simpl.
  simpl in Hpr. rewrite Hpr. simpl.
  rewrite Hg. simpl. rewrite Hw. simpl. rewrite Hs. simpl.
  rewrite Hput. simpl. rewrite Hf. simpl.
  fold (readyRecord m0 url).
  destruct (put env (metadataKey id) (JsonText (JObj (readyRecord m0 url))))
    as [u|e]; simpl.
  - destruct (close env); reflexivity.
  - destruct (put env (metadataKey id)
                (JsonText (JObj (<["status" := JStr "Error"]> (readyRecord m0 url)))));
      simpl; destruct (close env); reflexivity.
Qed.

End ThumbnailRun.

(* ===================================================================== *)
(** ** The records each operation writes *)
(* ===================================================================== *)

Section RecordsWritten.
Import RenderSpec.

Ltac members H :=
  repeat (apply elem_of_cons in H as [H|H]; [try discriminate|]);
  try (apply elem_of_nil in H; contradiction).

(** The upload handler writes one record at most: the new record of the
    id the generator returned, at its metadata key. *)
Lemma upload_puts_records env req k j :
  (k, j) ∈ Record.recordsPut (trace (Upload.exec env req)) ->
  exists n murl turl ext,
    k = metadataKey (Upload.randomUUID env) /\
    j = JObj (Upload.newModelMetadata (Upload.randomUUID env) n murl turl ext
                (Upload.now env)).
Proof.
  unfold Upload.exec, run, Upload.handler.
  destruct (negb (String.eqb (Upload.method req) "POST")); [intros H; members H|].
  unfold Upload.tryBlock, Upload.extractAndStore, Upload.catchBlock.
  unfold try_catch, bind, await, lift, emit, respond, return_, ret.
  simpl.
  repeat match goal with
         | |- context [match ?o with Resolved _ => _ | Rejected _ => _ end] =>
             destruct o; simpl
         | |- context [match ?o with Some _ => _ | None => _ end] =>
             destruct o; simpl
         | |- context [if ?b then _ else _] =>
             destruct b; simpl
         end;
    intros H; members H; injection H as -> ->; eauto 10.
Qed.

(** The delete handler writes nothing. *)
Lemma delete_puts_nothing env req :
  Record.recordsPut (trace (Delete.exec env req)) = [].
Proof.
  unfold Delete.exec, run, Delete.handler.
  destruct (negb (String.eqb (Delete.method req) "POST")); [reflexivity|].
  unfold Delete.tryBlock, Delete.loadMetadata, Delete.catchBlock.
  unfold try_catch, bind, await, lift, emit, respond, return_, ret, modify, get, throw.
  simpl.
  repeat match goal with
         | |- context [match ?o with Resolved _ => _ | Rejected _ => _ end] =>
             destruct o; simpl
         | |- context [match ?o with Some _ => _ | None => _ end] =>
             destruct o; simpl
         | |- context [if ?b then _ else _] =>
             destruct b; simpl
         end; reflexivity.
Qed.

End RecordsWritten.

(* ===================================================================== *)
(** ** Running the delete handler *)
(* ===================================================================== *)

Section DeleteRun.
Import Delete.

(** What the batch delete gets when the id prints as [sid], the record
    loads as the object [m] and the unused list [urlsToDelete] is built
    without a throw: the truthy ones of the three fields, then the
    metadata key. *)
Lemma delete_submits_record_fields env req mid sid m l :
  method req = "POST" ->
  destructure (reqBody req) "id" = Resolved (Some mid) ->
  Js.truthy (Some mid) = true ->
  Js.toString (numberToString env) (Some mid) = Resolved sid ->
  fetch env (Js.tmpl (origin req) +:+ "/models/" +:+ sid +:+ "/metadata.json")
    = Resolved (mkFetchResponse true (Resolved (JObj m))) ->
  urlsToDelete env req sid
    (Js.tmpl (origin req) +:+ "/models/" +:+ sid +:+ "/metadata.json") (JObj m)
    = Resolved l ->
  deleted (trace (exec env req)) =
    [omap id (List.filter Js.truthy
                [m !! "modelUrl"; m !! "textureUrl"; m !! "thumbnailUrl";
                 Some (JStr (metadataKey sid))])] /\
  statusOf (exec env req) =
    Some (match del env (omap id (List.filter Js.truthy
                [m !! "modelUrl"; m !! "textureUrl"; m !! "thumbnailUrl";
                 Some (JStr (metadataKey sid))])) with
          | Resolved _ => 200
          | Rejected _ => 500
          end)%Z.
Proof.
  intros Hm Hid Hty Hpr Hf Hu.
  unfold statusOf, exec, run, handler. rewrite Hm. simpl negb. cbv iota.
  unfold tryBlock, loadMetadata, catchBlock.
  unfold try_catch, bind, await, lift, emit, respond, return_, ret, modify, get, throw.
  rewrite Hid. cbv beta iota. rewrite Hty. simpl negb. cbv iota beta.
  rewrite Hpr. cbv beta iota.
  rewrite Hf. cbn [ok json negb locals trace response timeline app].
  rewrite Hu. cbn [locals trace response timeline app Js.getProp delArgument].
  destruct (del env _); split; reflexivity.
Qed.

End DeleteRun.

(* ===================================================================== *)
(** ** Properties of the records: thumbnailUrl and status *)
(* ===================================================================== *)

Section LifecycleClaims.
Import RenderSpec.

Lemma readyRecord_status m0 url : readyRecord m0 url !! "status" = Some (JStr "Ready").
Proof.
  unfold readyRecord. rewrite lookup_insert_ne by discriminate. apply lookup_insert_eq.
Qed.




(** The store after an invocation of the Render Trigger in which all
    succeeds. *)
Lemma storeAfter_renders env req mid id buf url m0 u (st : gmap string Body) :
  Renders env req mid id buf url m0 ->
  Thumbnail.put env (metadataKey id) (JsonText (JObj (readyRecord m0 url)))
    = Resolved u ->
  Record.storeAfter (Thumbnail.put env) st (trace (Thumbnail.exec env req))
    !! metadataKey id
  = Some (JsonText (JObj (readyRecord m0 url))).
Proof.
  intros Hr Hp. pose proof (handler_renders env req mid id buf url m0 Hr) as He.
  cbv zeta in He. rewrite Hp in He. rewrite He.
  unfold Record.storeAfter. cbn [trace app fold_left].
  rewrite (renders_put _ _ _ _ _ _ _ Hr), Hp.
  apply lookup_insert_eq.
Qed.

(** C4, as the handlers do it.  The upload handler stores status
    Uploaded, at the metadata key of the id the generator returned; the
    Render Trigger stores status Ready or Error and never Uploaded; the
    delete handler stores nothing.  The Render Trigger does not read the
    status of the record it loads: for a request whose modelId prints as
    [id], whatever record [m0] it loads, when the browser and the store
    succeed the stored record at the metadata key of [id] becomes [m0]
    with status Ready and the new thumbnailUrl, and the answer is 200. *)
Theorem render_trigger_overwrites_any_status env req mid id buf url m0 u :
  Renders env req mid id buf url m0 ->
  Thumbnail.put env (metadataKey id) (JsonText (JObj (readyRecord m0 url)))
    = Resolved u ->
  (forall st : gmap string Body,
      Record.storeAfter (Thumbnail.put env) st (trace (Thumbnail.exec env req))
        !! metadataKey id
      = Some (JsonText (JObj (<["thumbnailUrl" := JStr url]>
                                (<["status" := JStr "Ready"]> m0))))) /\
  Record.recordsPut (trace (Thumbnail.exec env req)) =
    [(metadataKey id,
      JObj (<["thumbnailUrl" := JStr url]> (<["status" := JStr "Ready"]> m0)))] /\
  Thumbnail.statusOf (Thumbnail.exec env req) = Some 200%Z /\
  (forall inv k m,
      (k, JObj m) ∈ Record.recordsPut (traceOf inv) ->
      match inv with
      | UploadRun uenv _ =>
          k = metadataKey (Upload.randomUUID uenv) /\
          m !! "status" = Some (JStr "Uploaded")
      | RenderRun _ _ =>
          m !! "status" = Some (JStr "Ready") \/ m !! "status" = Some (JStr "Error")
      | DeleteRun _ _ => False
      end).
Proof.
  intros Hr Hp. split; [|split; [|split]].
  - intros st. exact (storeAfter_renders env req mid id buf url m0 u st Hr Hp).
  - pose proof (handler_renders env req mid id buf url m0 Hr) as He.
    cbv zeta in He. rewrite Hp in He. rewrite He. reflexivity.
  - pose proof (handler_renders env req mid id buf url m0 Hr) as He.
    cbv zeta in He. rewrite Hp in He. unfold Thumbnail.statusOf. rewrite He. reflexivity.
  - intros [uenv ureq | renv rreq | denv dreq] k m; simpl; intros H.
    + apply upload_puts_records in H as (n & murl & turl & ext & -> & Hj).
      injection Hj as ->. split; reflexivity.
    + apply thumbnail_puts_objects in H
        as (mid' & id' & buf' & url' & resp & m0' & _ & _ & _ & _ & _ & _ & _ & _ & Hm).
      destruct Hm as [-> | [-> _]];
        [left; apply readyRecord_status | right; apply lookup_insert_eq].
    + rewrite delete_puts_nothing in H. now apply elem_of_nil in H.
Qed.

End LifecycleClaims.

(* ===================================================================== *)
(** ** The properties at concrete invocations *)
(* ===================================================================== *)

Section Concrete.
Import Upload UploadSpec UploadExamples.

Lemma opens_chair (fname : string) (es : list ZipEntry) :
  toLowerCase <$> pop (split "." fname) = Some "zip" ->
  Opens (env0 fname (Resolved es)) post (form0 fname) (file0 fname) "Chair" "PK" es.
Proof. intros H. constructor; try reflexivity; [discriminate | exact H]. Defined.


(** C1: a payload the archive library refuses, under a non-empty name
    and a .zip file name, is answered 500, not 400. *)
Lemma malformed_archive_is_answered_500 :
  trim "  Chair " = "Chair" /\
  loadAsync (env0 "chair.zip" (Rejected (mkError "Corrupted zip"))) "PK"
    = Rejected (mkError "Corrupted zip") /\
  statusOf (exec (env0 "chair.zip" (Rejected (mkError "Corrupted zip"))) post)
    = Some 500%Z /\
  statusOf (exec (env0 "chair.zip" (Rejected (mkError "Corrupted zip"))) post)
    <> Some 400%Z.
Proof. repeat split; try reflexivity. vm_compute. discriminate. Qed.

Lemma upload_malformed_archive_answers_500_witness :
  response (exec (env0 "chair.zip" (Rejected (mkError "Corrupted zip"))) post) =
    Some (mkResponse 500 (msg "Interner Serverfehler: Corrupted zip")) /\
  putKeys (trace (exec (env0 "chair.zip" (Rejected (mkError "Corrupted zip"))) post)) = [].
Proof.
  apply (upload_malformed_archive_answers_500
           (env0 "chair.zip" (Rejected (mkError "Corrupted zip"))) post
           (form0 "chair.zip") (file0 "chair.zip") "chair.zip" "Chair" "PK"
           (mkError "Corrupted zip"));
    try reflexivity.
  discriminate.
Defined.

Lemma ingest_selects_first_entries_witness :
  name <$> modelFile (scan chair) = Some "assets/MESH.OBJ" /\
  modelFile (scan chair) = snd <$> firstModel chair.
Proof.
  split; [reflexivity|].
  exact (proj1 (ingest_selects_first_entries
                  (env0 "a.ZIP" (Resolved chair)) post (form0 "a.ZIP") (file0 "a.ZIP")
                  "Chair" "PK" chair (opens_chair "a.ZIP" chair eq_refl))).
Defined.




(** C9: a file reported as zip, a name that does not end in .zip, is
    let through: the archive is read and the upload answered 200. *)
Lemma file_named_zip_is_accepted :
  endsWith (toLowerCase "zip") ".zip" = false /\
  statusOf (exec (env0 "zip" (Resolved chair)) post) = Some 200%Z /\
  statusOf (exec (env0 "zip" (Resolved chair)) post) <> Some 400%Z /\
  EvReadFile "/tmp/up1" ∈ trace (exec (env0 "zip" (Resolved chair)) post).
Proof.
  split; [reflexivity|]. split; [reflexivity|]. split; [vm_compute; discriminate|].
  vm_compute. apply list_elem_of_further, list_elem_of_here.
Qed.

Lemma upload_rejects_other_file_names_witness :
  statusOf (exec (env0 "chair.obj" (Resolved chair)) post) = Some 400%Z /\
  trace (exec (env0 "chair.obj" (Resolved chair)) post) = [EvParseForm].
Proof.
  apply (upload_rejects_other_file_names
           (env0 "chair.obj" (Resolved chair)) post (form0 "chair.obj") (file0 "chair.obj")
           "chair.obj");
    try reflexivity.
  vm_compute. discriminate.
Defined.

End Concrete.

Section ConcreteRender.
Import Thumbnail RenderSpec ThumbnailExamples.

Lemma renders_a1 (put : string -> Body -> Outcome string) (st : string) :
  put (thumbnailKey "a1") (Bytes "PNG") = Resolved thumbUrl ->
  Renders (env0 put st) post (JStr "a1") "a1" "PNG" thumbUrl (recordWith st).
Proof. intros H. constructor; try reflexivity. exact H. Defined.



(** C4: the record of a1 is stored with status Error and is what the
    Render Trigger loads; the invocation succeeds, and the stored record
    has status Ready afterwards. *)
Lemma render_trigger_rewrites_error_record :
  Record.statusAt (store0 "Error") (metadataKey "a1") = Some (JStr "Error") /\
  fetch (env0 okPut "Error") ("https://site.example/" +:+ metadataKey "a1") =
    Resolved (mkFetchResponse true (Resolved (JObj (recordWith "Error")))) /\
  store0 "Error" !! metadataKey "a1" = Some (JsonText (JObj (recordWith "Error"))) /\
  statusOf (exec (env0 okPut "Error") post) = Some 200%Z /\
  Record.statusAt
    (Record.storeAfter okPut (store0 "Error") (trace (exec (env0 okPut "Error") post)))
    (metadataKey "a1") = Some (JStr "Ready") /\
  Record.storeAfter okPut (store0 "Error") (trace (exec (env0 okPut "Error") post))
    !! metadataKey "a1"
    <> store0 "Error" !! metadataKey "a1".
Proof.
  repeat split; try (vm_compute; reflexivity).
  vm_compute. discriminate.
Qed.

Lemma render_trigger_overwrites_any_status_witness :
  Record.recordsPut (trace (exec (env0 okPut "Error") post)) =
    [(metadataKey "a1",
      JObj (<["thumbnailUrl" := JStr thumbUrl]>
              (<["status" := JStr "Ready"]> (recordWith "Error"))))] /\
  statusOf (exec (env0 okPut "Error") post) = Some 200%Z.
Proof.
  pose proof (render_trigger_overwrites_any_status
                (env0 okPut "Error") post (JStr "a1") "a1" "PNG" thumbUrl (recordWith "Error")
                "https://store.example/models/a1/metadata.json"
                (renders_a1 okPut "Error" eq_refl) eq_refl) as H.
  destruct H as (_ & H1 & H2 & _). split; [exact H1 | exact H2].
Defined.

End ConcreteRender.

Section ConcreteDelete.
Import Delete DeleteExamples.

(** C2: the record of a1 as the upload handler wrote it has no
    thumbnailUrl; the batch delete gets the two fields and the metadata
    key, and not the key models/a1/thumbnail.png of the naming
    convention, which only the unused list [urlsToDelete] holds. *)
Theorem delete_submits_fields_without_fallback :
  Record.field uploaded "thumbnailUrl" = None /\
  deleted (trace (exec (env0 uploaded) post)) =
    [[JStr modelUrl; JStr textureUrl; JStr (metadataKey "a1")]] /\
  statusOf (exec (env0 uploaded) post) = Some 200%Z /\
  (JStr (thumbnailKey "a1") ∉ [JStr modelUrl; JStr textureUrl; JStr (metadataKey "a1")]) /\
  urlsToDelete (env0 uploaded) post "a1" "https://site.example/models/a1/metadata.json"
    uploaded =
    Resolved [ Some (JStr modelUrl); Some (JStr textureUrl);
               Some (JStr "https://pub-your-blob-store-id.r2.dev/models/a1/metadata.json");
               Some (JStr "models/a1/metadata.json");
               Some (JStr "models/a1/texture.png");
               Some (JStr "models/a1/model.obj");
               Some (JStr "models/a1/thumbnail.png") ].
Proof.
  split; [reflexivity|]. split; [reflexivity|]. split; [reflexivity|].
  split; [|reflexivity].
  intros H. vm_compute in H.
  repeat (apply elem_of_cons in H as [H|H]; [discriminate|]).
  now apply elem_of_nil in H.
Qed.

End ConcreteDelete.

(* ===================================================================== *)
(** ** More about the upload handler *)
(* ===================================================================== *)

Section UploadMore.
Import Upload UploadSpec.

Ltac members H :=
  repeat (apply elem_of_cons in H as [H|H]; [try discriminate|]);
  try (apply elem_of_nil in H; contradiction).

Ltac branches :=
  repeat match goal with
         | |- context [match ?o with Resolved _ => _ | Rejected _ => _ end] =>
             destruct o eqn:?; simpl
         | |- context [match ?o with Some _ => _ | None => _ end] =>
             destruct o eqn:?; simpl
         | |- context [if ?b then _ else _] =>
             destruct b eqn:?; simpl
         end.

(** The upload handler catches every error: its promise never rejects,
    and it always sends one response, with status 200, 400, 405 or 500. *)
Theorem upload_always_answers env req :
  rejected tt (handler env req) = false /\
  exists r, response (exec env req) = Some r /\
            (status r = 200 \/ status r = 400 \/ status r = 405 \/ status r = 500)%Z.
Proof.
  unfold rejected, exec, run, handler.
  destruct (negb (String.eqb (method req) "POST")).
  { simpl. split; [reflexivity|]. eexists; split; [reflexivity|]. auto. }
  unfold tryBlock, extractAndStore, catchBlock.
  unfold try_catch, bind, await, lift, emit, respond, return_, ret.
  simpl. branches; (split; [reflexivity|]); eexists; (split; [reflexivity|]); simpl; auto.
Qed.

Ltac found := repeat first [apply list_elem_of_here | apply list_elem_of_further].

(** The answer is 200 exactly when the render dispatch was sent: no
    dispatch for an upload that failed, no failure after the dispatch. *)
Theorem upload_answers_200_iff_dispatched env req :
  statusOf (exec env req) = Some 200%Z <->
  EvPost (dispatchUrl req) (dispatchPayload (randomUUID env)) ∈ trace (exec env req).
Proof.
  unfold statusOf, exec, run, handler, dispatchUrl, dispatchPayload.
  destruct (negb (String.eqb (method req) "POST")).
  { simpl. split; [discriminate | intros H; members H]. }
  unfold tryBlock, extractAndStore, catchBlock.
  unfold try_catch, bind, await, lift, emit, respond, return_, ret.
  simpl. branches; (split; [try discriminate; intros _; found | intros H; try reflexivity; members H]).
Qed.

(** A POST whose form parses but has no modelName field, an empty array
    for it, a name that is empty or only white space, or no file, is
    answered 400 right after the form was parsed. *)
Theorem upload_blank_name_or_missing_file env req form :
  method req = "POST" ->
  parseForm env = Resolved form ->
  trim <$> (modelName form ≫= head) = None \/
  trim <$> (modelName form ≫= head) = Some "" \/
  file form ≫= head = None ->
  response (exec env req) = Some (mkResponse 400 (msg "Modellname oder ZIP-Datei fehlen.")) /\
  trace (exec env req) = [EvParseForm].
Proof.
  intros Hm Hf H.
  unfold exec, run, handler. rewrite Hm. simpl negb. cbv iota.
  unfold try_catch, tryBlock, bind, await, lift. rewrite Hf. simpl.
  destruct H as [H | [H | H]]; rewrite H; simpl.
  - auto.
  - destruct (file form ≫= head); simpl; auto.
  - destruct (trim <$> (modelName form ≫= head)); simpl; auto.
Qed.

(** The extension tag of a selected model entry is one of the fixed
    set. *)
Lemma extensionOf_recognized (e : ZipEntry) :
  isModelEntry e = true -> extensionOf e ∈ modelExtensions.
Proof.
  unfold isModelEntry, isModelName, extensionOf. intros H.
  apply andb_true_iff in H as [_ H]. apply existsb_exists in H as (x & Hin & Hx).
  destruct (List.find _ modelExtensions) as [ext|] eqn:E.
  - apply find_some in E as [E _]. simpl. now apply list_elem_of_In.
  - apply (find_none _ _ E) in Hin. congruence.
Qed.

Lemma scan_extension_recognized es m :
  modelFile (scan es) = Some m -> modelExtension (scan es) ∈ modelExtensions.
Proof.
  rewrite scan_model, scan_extension. destruct (firstModel es) as [[i x]|] eqn:E; [|discriminate].
  intros _. apply extensionOf_recognized.
  unfold firstModel in E. apply list_find_Some in E as (_ & E & _). exact E.
Qed.

(** Every key the upload handler writes follows the naming convention
    under the id of the invocation: the model under model plus one of the
    four lowercase extensions, whatever the case of the entry name, the
    texture under texture.png, the record under metadata.json. *)
Theorem upload_keys_follow_convention env req k :
  k ∈ putKeys (trace (exec env req)) ->
  (exists ext, ext ∈ modelExtensions /\ k = modelKey (randomUUID env) ext) \/
  k = textureKey (randomUUID env) \/
  k = metadataKey (randomUUID env).
Proof.
  unfold exec, run, handler.
  destruct (negb (String.eqb (method req) "POST")); [intros H; members H|].
  unfold tryBlock, extractAndStore, catchBlock.
  unfold try_catch, bind, await, lift, emit, respond, return_, ret.
  simpl. branches; intros H; members H; subst k; auto;
    left; eexists; (split; [eapply scan_extension_recognized; eassumption | reflexivity]).
Qed.



(** The texture write fails after the model write succeeded: the answer
    is 500 with the store's message, nothing is rolled back, and the store
    holds the model blob without any record or dispatch for it. *)
Theorem upload_texture_failure_orphans_model
        env req form zipFile n zipData es i m j t mb tb murl err :
  Opens env req form zipFile n zipData es ->
  firstModel es = Some (i, m) -> firstTexture es = Some (j, t) ->
  data m = Resolved mb -> data t = Resolved tb ->
  put env (modelKey (randomUUID env) (extensionOf m)) (Bytes mb) = Resolved murl ->
  put env (textureKey (randomUUID env)) (Bytes tb) = Rejected err ->
  response (exec env req) =
    Some (mkResponse 500 (msg ("Interner Serverfehler: " +:+ message err))) /\
  putKeys (trace (exec env req)) =
    [modelKey (randomUUID env) (extensionOf m); textureKey (randomUUID env)] /\
  Record.recordsPut (trace (exec env req)) = [] /\
  (forall url payload, EvPost url payload ∉ trace (exec env req)) /\
  (forall st : gmap string Body,
      Record.storeAfter (put env) st (trace (exec env req)) =
      <[modelKey (randomUUID env) (extensionOf m) := Bytes mb]> st).
Proof.
  intros Ho Hm Ht Hdm Hdt Hp1 Hp2.
  rewrite (exec_opens _ _ _ _ _ _ _ Ho).
  unfold try_catch, extractAndStore.
  rewrite scan_model, scan_texture, scan_extension, Hm, Ht.
  cbn [fmap option_fmap option_map snd].
  unfold bind, await, catchBlock, bind, emit, respond.
  rewrite Hdm. cbn [locals trace response app]. rewrite Hp1.
  cbn [locals trace response app]. rewrite Hdt. cbn [locals trace response app].
  rewrite Hp2. cbn [locals trace response app snd].
  split; [reflexivity|]. split; [reflexivity|]. split; [reflexivity|].
  split.
  - intros url payload H. members H.
  - intros st. unfold Record.storeAfter. cbn [fold_left]. now rewrite Hp1, Hp2.
Qed.

(** Two suffixes of one string: the shorter is a suffix of the longer. *)
Lemma suffixes_nest (s a b : string) :
  endsWith s a = true -> endsWith s b = true ->
  (String.length b <= String.length a)%nat -> endsWith a b = true.
Proof.
  intros Ha Hb Hl. apply endsWith_spec in Ha as [p Hp]. apply endsWith_spec in Hb as [q Hq].
  apply endsWith_spec. subst s. revert q Hq.
  induction p as [|c p IH]; intros q Hq.
  - exists q. exact Hq.
  - destruct q as [|c' q].
    + rewrite append_nil_l in Hq. subst b. rewrite append_cons in Hl.
      cbn [String.length] in Hl. rewrite append_length in Hl. lia.
    + rewrite !append_cons in Hq. injection Hq as _ Hq. exact (IH q Hq).
Qed.

(** No name is a model name and a texture name at once. *)
Lemma model_name_is_no_texture_name (nm : string) (d : bool) :
  isModelName nm d = true -> isTextureName nm d = false.
Proof.
  unfold isModelName, isTextureName. intros H.
  apply andb_true_iff in H as [Hd H]. rewrite Hd. simpl.
  destruct (endsWith (toLowerCase nm) ".png") eqn:Hpng; [|reflexivity].
  apply existsb_exists in H as (ext & Hin & Hext).
  unfold modelExtensions in Hin. simpl in Hin.
  destruct Hin as [<- | [<- | [<- | [<- | []]]]].
  - pose proof (suffixes_nest _ _ _ Hext Hpng ltac:(simpl; lia)). discriminate.
  - pose proof (suffixes_nest _ _ _ Hext Hpng ltac:(simpl; lia)). discriminate.
  - pose proof (suffixes_nest _ _ _ Hext Hpng ltac:(simpl; lia)). discriminate.
  - pose proof (suffixes_nest _ _ _ Hext Hpng ltac:(simpl; lia)). discriminate.
Qed.

(** The two entries the scan selects are files, never directories, and
    never one and the same entry: the model is no texture entry and the
    texture is no model entry. *)
Theorem scan_selects_two_different_files es m t :
  modelFile (scan es) = Some m -> textureFile (scan es) = Some t ->
  dir m = false /\ dir t = false /\
  isTextureEntry m = false /\ isModelEntry t = false /\ m <> t.
Proof.
  rewrite scan_model, scan_texture. intros Hm Ht.
  destruct (firstModel es) as [[i x]|] eqn:Em; [|discriminate].
  destruct (firstTexture es) as [[j y]|] eqn:Et; [|discriminate].
  simpl in Hm, Ht. injection Hm as ->. injection Ht as ->.
  apply list_find_Some in Em as (_ & Em & _). apply list_find_Some in Et as (_ & Et & _).
  assert (Hmt : isTextureEntry m = false) by (apply model_name_is_no_texture_name, Em).
  assert (Htm : isModelEntry t = false).
  { destruct (isModelEntry t) eqn:E; [|reflexivity].
    apply model_name_is_no_texture_name in E. unfold isTextureEntry in Et. congruence. }
  assert (Hne : m <> t) by (intros ->; congruence).
  unfold isModelEntry, isModelName in Em. unfold isTextureEntry, isTextureName in Et.
  apply andb_true_iff in Em as [Em _]. apply andb_true_iff in Et as [Et _].
  apply negb_true_iff in Em, Et.
  repeat (split; [assumption|]). exact Hne.
Qed.

(** First match wins over a longer enumeration: what the scan found in
    the first part of the entries stays, and only what it did not find
    there is taken from the entries that follow. *)
Theorem scan_of_appended_entries es es' :
  modelFile (scan (es ++ es')) =
    match modelFile (scan es) with
    | Some m => Some m
    | None => modelFile (scan es')
    end /\
  textureFile (scan (es ++ es')) =
    match textureFile (scan es) with
    | Some t => Some t
    | None => textureFile (scan es')
    end /\
  modelExtension (scan (es ++ es')) =
    match modelFile (scan es) with
    | Some _ => modelExtension (scan es)
    | None => modelExtension (scan es')
    end.
Proof.
  assert (Happ : scan (es ++ es') = fold_left scanEntry es' (scan es))
    by (unfold scan; apply fold_left_app).
  rewrite Happ, (scan_fold es' (scan es)). cbn [modelFile textureFile modelExtension].
  rewrite (scan_model es'), (scan_texture es'), (scan_extension es').
  repeat split; try reflexivity.
  destruct (modelFile (scan es)) eqn:E; [reflexivity|].
  destruct (firstModel es') as [[i x]|]; [reflexivity|].
  rewrite scan_extension. rewrite scan_model in E.
  destruct (firstModel es) as [[i x]|]; [discriminate | reflexivity].
Qed.

Lemma split_not_nil sep s : split sep s <> [].
Proof. pose proof (split_shape sep s) as H. now destruct (split sep s). Qed.

(** After a separator only what follows it matters for the last piece. *)
Lemma pop_split_app sep p x :
  pop (split sep (p +:+ String sep x)) = pop (split sep x).
Proof.
  unfold pop.
  assert (H : exists h t, split sep (p +:+ String sep x) = h :: t /\ t <> [] /\
                          last t = last (split sep x)).
  { induction p as [|c p IH].
    - rewrite append_nil_l. cbn [split]. rewrite Ascii.eqb_refl.
      exists "", (split sep x). split; [reflexivity|]. split; [apply split_not_nil | reflexivity].
    - destruct IH as (h & t & Hs & Hne & Hl). rewrite append_cons. cbn [split]. rewrite Hs.
      destruct (Ascii.eqb c sep).
      + exists "", (h :: t). split; [reflexivity|]. split; [discriminate|].
        rewrite <- Hl. destruct t; [contradiction | reflexivity].
      + exists (String c h), t. auto. }
  destruct H as (h & t & -> & Hne & <-). destruct t; [contradiction | reflexivity].
Qed.

Lemma lower_unit_dot c : lower_unit c = "."%char -> c = "."%char.
Proof.
  destruct c as [[] [] [] [] [] [] [] []]; vm_compute; intros H;
    first [reflexivity | discriminate H].
Qed.

Lemma toLowerCase_app_inv f a b :
  toLowerCase f = a +:+ b ->
  exists fa fb, f = fa +:+ fb /\ toLowerCase fa = a /\ toLowerCase fb = b.
Proof.
  revert f; induction a as [|c a IH]; intros f H.
  - exists "", f. auto.
  - destruct f as [|d f]; [discriminate|].
    rewrite append_cons in H. cbn [toLowerCase] in H. injection H as Hc H.
    destruct (IH f H) as (fa & fb & -> & Ha & Hb).
    exists (String d fa), fb. rewrite append_cons. cbn [toLowerCase]. now rewrite Hc, Ha.
Qed.

Lemma split_zip x : toLowerCase x = "zip" -> split "." x = [x].
Proof.
  destruct x as [|a [|b [|c [|d x]]]]; try discriminate.
  cbn [toLowerCase]. intros H. injection H as Ha Hb Hc.
  cbn [split].
  destruct (Ascii.eqb_spec a "."); [subst a; discriminate Ha|].
  destruct (Ascii.eqb_spec b "."); [subst b; discriminate Hb|].
  destruct (Ascii.eqb_spec c "."); [subst c; discriminate Hc|].
  reflexivity.
Qed.

(** The file-name test of the upload handler, in full: a reported name
    passes exactly when, lowercased, it is zip or ends in .zip. *)
Theorem upload_file_name_test_passes_iff (f : string) :
  toLowerCase <$> pop (split "." f) = Some "zip" <->
  toLowerCase f = "zip" \/ endsWith (toLowerCase f) ".zip" = true.
Proof.
  split.
  - destruct (pop (split "." f)) as [x|] eqn:Hp; [|discriminate].
    intros H. injection H as H. exact (zip_name_passes f x Hp H).
  - intros [H | H].
    + unfold pop. rewrite (split_zip f H). simpl. now rewrite H.
    + apply endsWith_spec in H as [p Hp].
      apply toLowerCase_app_inv in Hp as (fa & fb & -> & _ & Hb).
      destruct fb as [|c x]; [discriminate|].
      cbn [toLowerCase] in Hb. injection Hb as Hc Hx.
      apply lower_unit_dot in Hc. subst c.
      rewrite pop_split_app. unfold pop. rewrite (split_zip x Hx). simpl. now rewrite Hx.
Qed.

End UploadMore.

(* ===================================================================== *)
(** ** More about the Render Trigger *)
(* ===================================================================== *)

Section RenderMore.
Import Thumbnail RenderSpec RenderSteps.

Ltac members H :=
  repeat (apply elem_of_cons in H as [H|H]; [try discriminate|]);
  try (apply elem_of_nil in H; contradiction).

Ltac found := repeat first [apply list_elem_of_here | apply list_elem_of_further].

Ltac branches :=
  repeat match goal with
         | |- context [match ?o with Resolved _ => _ | Rejected _ => _ end] =>
             destruct o eqn:?; simpl
         | |- context [match ?o with Some _ => _ | None => _ end] =>
             destruct o eqn:?; simpl
         | |- context [if ?b then _ else _] =>
             destruct b eqn:?; simpl
         end.

(** Unfolding an invocation up to the calls of the collaborators. *)
Ltac open_handler :=
  unfold tryBlock, catchBlock, finallyBlock, assignMetadata, putMetadata, printId;
  unfold try_finally, try_catch, bind, await, lift, emit, respond, modify, get,
    throw, ret, return_;
  simpl.


(** A record is handed to the store only after the whole capture
    succeeded, the image is stored and the old record was fetched and
    parsed: the invocation begins with the capture for the id of the
    request as it prints, then fetches the old record, and the record goes
    to the metadata key of that id. *)
Theorem render_writes_record_only_after_capture env req k j :
  (k, j) ∈ Record.recordsPut (trace (exec env req)) ->
  exists mid id buf url resp md rest,
    Captures env req mid id buf url /\
    fetch env (oldMetadataUrl req id) = Resolved resp /\
    ok resp = true /\ json resp = Resolved md /\
    k = metadataKey id /\
    trace (exec env req) =
      (captured req id buf ++ EvFetch (oldMetadataUrl req id) :: rest)%list.
Proof.
  remember (trace (exec env req)) as tr eqn:Htr. revert Htr.
  unfold exec, run, handler, oldMetadataUrl, captured.
  destruct (String.eqb_spec (method req) "POST") as [Hm|Hm];
    [|simpl; intros -> H; simpl in H; members H].
  change (negb true) with false. cbv iota. unfold bind at 1, lift at 1.
  destruct (destructure (reqBody req) "modelId") as [mid|e] eqn:Hid; cbv beta iota;
    [|simpl; intros -> H; simpl in H; members H].
  destruct mid as [mid|]; [|simpl; intros -> H; simpl in H; members H].
  destruct (Js.truthy (Some mid)) eqn:Hty; [|simpl; intros -> H; simpl in H; members H].
  change (negb true) with false. cbv iota.
  open_handler.
  destruct (launch env) as [[]|] eqn:Hl; simpl.
  2: { destruct (Js.toStr _ mid); simpl; intros -> H; simpl in H; members H. }
  destruct (newPage env) as [[]|] eqn:Hp; simpl.
  2: { destruct (Js.toStr _ mid); simpl; destruct (close env); simpl;
       intros -> H; simpl in H; members H. }
  destruct (setViewport env) as [[]|] eqn:Hv; simpl.
  2: { destruct (Js.toStr _ mid); simpl; destruct (close env); simpl;
       intros -> H; simpl in H; members H. }
  destruct (Js.toStr (numberToString env) mid) as [id|] eqn:Hpr; simpl;
    [|destruct (close env); simpl; intros -> H; simpl in H; members H].
  destruct (goto env _) as [[]|] eqn:Hg; simpl;
    [|destruct (close env); simpl; intros -> H; simpl in H; members H].
  destruct (waitForFunction env) as [[]|] eqn:Hw; simpl;
    [|destruct (close env); simpl; intros -> H; simpl in H; members H].
  destruct (screenshot env) as [buf|] eqn:Hs; simpl;
    [|destruct (close env); simpl; intros -> H; simpl in H; members H].
  destruct (put env (thumbnailKey _) _) as [url|] eqn:Hput; simpl;
    [|destruct (close env); simpl; intros -> H; simpl in H; members H].
  destruct (fetch env _) as [resp|] eqn:Hf; simpl;
    [|destruct (close env); simpl; intros -> H; simpl in H; members H].
  destruct (ok resp) eqn:Hok; simpl;
    [|destruct (close env); simpl; intros -> H; simpl in H; members H].
  destruct (json resp) as [md|] eqn:Hj; simpl;
    [|destruct (close env); simpl; intros -> H; simpl in H; members H].
  assert (Hgoal : forall rest,
            tr = ([EvBrowser Launch; EvBrowser NewPage;
                   EvBrowser (SetViewport RENDER_SIZE RENDER_SIZE);
                   EvBrowser (Goto (Js.tmpl (origin req) +:+ "/render.html?id=" +:+ id));
                   EvBrowser (WaitForFunction "window.renderingFinished === true" 60000);
                   EvBrowser Screenshot;
                   EvPut (thumbnailKey id) (Bytes buf)] ++
                  EvFetch (Js.tmpl (origin req) +:+ "/" +:+ metadataKey id) :: rest)%list ->
            k = metadataKey id ->
            exists mid' id' buf' url' resp' md' rest',
              Captures env req mid' id' buf' url' /\
              fetch env (Js.tmpl (origin req) +:+ "/" +:+ metadataKey id') = Resolved resp' /\
              ok resp' = true /\ json resp' = Resolved md' /\
              k = metadataKey id' /\
              tr = ([EvBrowser Launch; EvBrowser NewPage;
                     EvBrowser (SetViewport RENDER_SIZE RENDER_SIZE);
                     EvBrowser (Goto (Js.tmpl (origin req) +:+ "/render.html?id=" +:+ id'));
                     EvBrowser (WaitForFunction "window.renderingFinished === true" 60000);
                     EvBrowser Screenshot;
                     EvPut (thumbnailKey id') (Bytes buf')] ++
                    EvFetch (Js.tmpl (origin req) +:+ "/" +:+ metadataKey id') :: rest')%list).
  { intros rest Ht Hk. exists mid, id, buf, url, resp, md, rest.
    split; [constructor; assumption|]. repeat (split; [assumption|]). exact Ht. }
  destruct md; simpl; branches; intros Ht H; rewrite Ht in H; simpl in H; members H;
    (eapply Hgoal; [exact Ht | now injection H]).
Qed.

(** The Render Trigger changes two fields only: a record it stores goes
    to the metadata key of the id of the request as it prints, the
    invocation has fetched the old record of that id, and every other
    field of the stored record, among them id, name, modelUrl,
    textureUrl, modelType and timestamp, is as in the fetched record. *)
Theorem render_keeps_the_other_fields env req k m :
  (k, JObj m) ∈ Record.recordsPut (trace (exec env req)) ->
  exists mid id resp m0,
    destructure (reqBody req) "modelId" = Resolved mid /\
    Js.toString (numberToString env) mid = Resolved id /\
    k = metadataKey id /\
    EvFetch (oldMetadataUrl req id) ∈ trace (exec env req) /\
    fetch env (oldMetadataUrl req id) = Resolved resp /\
    json resp = Resolved (JObj m0) /\
    forall f, f <> "status" -> f <> "thumbnailUrl" -> m !! f = m0 !! f.
Proof.
  intros H.
  apply thumbnail_puts_objects in H
    as (mid & id & buf & url & resp & m0 & Hid & Hpr & Hk & _ & _ & Hin & Hf & Hj & Hm).
  exists mid, id, resp, m0. unfold oldMetadataUrl.
  repeat (split; [assumption|]).
  intros f Hs Ht. unfold readyRecord in Hm.
  destruct Hm as [-> | [-> _]]; rewrite ?lookup_insert_ne by congruence; reflexivity.
Qed.

(** A POST without a body, or with the body [null], is not answered at
    all: the destructuring stands before the [try], so the handler's
    promise rejects, and no collaborator was called. *)
Theorem render_rejects_without_body env req :
  method req = "POST" ->
  reqBody req = None \/ reqBody req = Some JNull ->
  rejected locals0 (handler env req) = true /\
  response (exec env req) = None /\
  trace (exec env req) = [].
Proof.
  intros Hm Hb. unfold rejected, exec, run, handler. rewrite Hm. simpl negb. cbv iota.
  unfold bind, lift. destruct Hb as [-> | ->]; simpl; auto.
Qed.

(** Running an invocation up to the stored image. *)
Ltac run_capture Hc :=
  let Hm := fresh "Hm" in let Hid := fresh "Hid" in let Hty := fresh "Hty" in
  let Hpr := fresh "Hpr" in
  let Hl := fresh "Hl" in let Hp := fresh "Hp" in let Hv := fresh "Hv" in
  let Hg := fresh "Hg" in let Hw := fresh "Hw" in let Hs := fresh "Hs" in
  let Hput := fresh "Hput" in
  pose proof Hc as [Hm Hid Hty Hpr Hl Hp Hv Hg Hw Hs Hput];
  unfold exec, run, handler; rewrite Hm; simpl negb; cbv iota;
  unfold bind, lift; rewrite Hid; cbv beta iota; rewrite Hty; simpl negb; cbv iota;
  open_handler;
  rewrite Hl; simpl; rewrite Hp; simpl; rewrite Hv; simpl;
  simpl in Hpr; rewrite Hpr; simpl; rewrite Hg; simpl;
  rewrite Hw; simpl; rewrite Hs; simpl; rewrite Hput; simpl.

(** What an invocation does when the image is stored and the old record
    cannot be loaded. *)
Lemma render_load_failure_trace env req mid id buf url :
  Captures env req mid id buf url ->
  (exists e, fetch env (oldMetadataUrl req id) = Rejected e) \/
  (exists resp, fetch env (oldMetadataUrl req id) = Resolved resp /\
                (ok resp = false \/ exists e, json resp = Rejected e)) ->
  statusOf (exec env req) = Some 500%Z /\
  exists log,
    trace (exec env req) =
    (captured req id buf ++
     [EvFetch (oldMetadataUrl req id); EvLog log; EvBrowser Close])%list.
Proof.
  intros Hc Hload. unfold statusOf, oldMetadataUrl, captured in *. run_capture Hc.
  destruct Hload as [[e He] | (resp & Hr & [Hok | [e He]])].
  - rewrite He. simpl. destruct (close env); simpl; split; eauto.
  - rewrite Hr. simpl. rewrite Hok. simpl. destruct (close env); simpl; split; eauto.
  - rewrite Hr. simpl. destruct (ok resp); simpl; rewrite ?He; simpl;
      destruct (close env); simpl; split; eauto.
Qed.

(** For a request whose modelId prints as [id]: the image is stored but
    the old record cannot be loaded (the request fails, the answer is not
    ok, or the body is no JSON): the answer is 500, no record is written,
    so the stored record keeps the status it had, and the store has gained
    the image only. *)
Theorem render_without_loaded_record_stores_image_only env req mid id buf url :
  Captures env req mid id buf url ->
  (exists e, fetch env (oldMetadataUrl req id) = Rejected e) \/
  (exists resp, fetch env (oldMetadataUrl req id) = Resolved resp /\
                (ok resp = false \/ exists e, json resp = Rejected e)) ->
  statusOf (exec env req) = Some 500%Z /\
  Record.recordsPut (trace (exec env req)) = [] /\
  last (trace (exec env req)) = Some (EvBrowser Close) /\
  (forall st : gmap string Body,
      Record.storeAfter (put env) st (trace (exec env req)) =
      <[thumbnailKey id := Bytes buf]> st).
Proof.
  intros Hc Hload.
  destruct (render_load_failure_trace env req mid id buf url Hc Hload) as (Hs & log & Ht).
  split; [exact Hs|]. rewrite Ht. unfold captured.
  split; [reflexivity|]. split; [reflexivity|].
  intros st. unfold Record.storeAfter. cbn [app fold_left].
  now rewrite (captures_put _ _ _ _ _ _ Hc).
Qed.

(** For a request whose modelId prints as [id]: the old record is loaded
    but is [null] or a primitive value, on which no property can be set:
    the answer is 500 and no record is written. *)
Theorem render_needs_an_object_record env req mid id buf url resp md :
  Captures env req mid id buf url ->
  fetch env (oldMetadataUrl req id) = Resolved resp ->
  ok resp = true -> json resp = Resolved md ->
  isPrimitive md = true ->
  statusOf (exec env req) = Some 500%Z /\
  Record.recordsPut (trace (exec env req)) = [].
Proof.
  intros Hc Hr Hok Hj Hprim. unfold statusOf, oldMetadataUrl in *. run_capture Hc.
  rewrite Hr. simpl. rewrite Hok. simpl. rewrite Hj. simpl.
  destruct md as [| [|] | z | str | |]; try discriminate Hprim; simpl;
    try (destruct (negb (z =? 0)%Z); simpl);
    try (destruct (JsString.truthy str); simpl);
    destruct (close env); simpl; split; reflexivity.
Qed.

(** For a request whose modelId prints as [id]: the store accepts neither
    the ready record nor the record with status Error: the answer is 500
    with the message of the first failure, the second one is only logged,
    and the stored record is as it was. *)
Theorem render_double_failure_is_logged_only env req mid id buf url m0 e e' :
  Renders env req mid id buf url m0 ->
  put env (metadataKey id) (JsonText (JObj (readyRecord m0 url))) = Rejected e ->
  put env (metadataKey id)
    (JsonText (JObj (<["status" := JStr "Error"]> (readyRecord m0 url)))) = Rejected e' ->
  response (exec env req) = Some (mkResponse 500 (errorBody e)) /\
  (exists t,
      trace (exec env req) =
      (t ++ [EvLog ("Kritischer Fehler: Konnte Status nicht auf 'Error' aktualisieren. "
                    +:+ message e');
             EvBrowser Close])%list) /\
  (forall st : gmap string Body,
      Record.storeAfter (put env) st (trace (exec env req)) =
      <[thumbnailKey id := Bytes buf]> st).
Proof.
  intros Hr H1 H2. pose proof (handler_renders env req mid id buf url m0 Hr) as He.
  cbv zeta in He. rewrite H1, H2 in He. rewrite He. cbn [response trace].
  split; [reflexivity|]. split.
  - eexists (_ ++ [_; _])%list. rewrite <- app_assoc. reflexivity.
  - intros st. unfold Record.storeAfter. cbn [app fold_left].
    now rewrite (renders_put _ _ _ _ _ _ _ Hr), H1, H2.
Qed.

(** The answer is 200 exactly when the invocation handed one record to
    the store and the store accepted it. *)
Theorem render_answers_200_iff_record_stored env req :
  statusOf (exec env req) = Some 200%Z <->
  exists k j u,
    Record.recordsPut (trace (exec env req)) = [(k, j)] /\
    put env k (JsonText j) = Resolved u.
Proof.
  unfold statusOf, exec, run, handler.
  destruct (negb (String.eqb (method req) "POST")).
  { simpl. split; [discriminate | intros (k & j & u & H & _); discriminate H]. }
  unfold bind, lift.
  destruct (destructure (reqBody req) "modelId") as [mid|e]; cbv beta iota;
    [|simpl; split; [discriminate | intros (k & j & u & H & _); discriminate H]].
  destruct (negb (Js.truthy mid));
    [simpl; split; [discriminate | intros (k & j & u & H & _); discriminate H]|].
  open_handler.
  destruct (launch env); simpl;
    [|destruct (Js.toString _ mid); simpl;
      (split; [discriminate | intros (k & j & u & H & _); discriminate H])].
  destruct (newPage env); simpl;
    [|destruct (Js.toString _ mid); simpl; destruct (close env); simpl;
      (split; [discriminate | intros (k & j & u & H & _); discriminate H])].
  destruct (setViewport env); simpl;
    [|destruct (Js.toString _ mid); simpl; destruct (close env); simpl;
      (split; [discriminate | intros (k & j & u & H & _); discriminate H])].
  destruct (Js.toString _ mid) as [id|]; simpl;
    [|destruct (close env); simpl;
      (split; [discriminate | intros (k & j & u & H & _); discriminate H])].
  destruct (goto env _); simpl;
    [|destruct (close env); simpl;
      (split; [discriminate | intros (k & j & u & H & _); discriminate H])].
  destruct (waitForFunction env); simpl;
    [|destruct (close env); simpl;
      (split; [discriminate | intros (k & j & u & H & _); discriminate H])].
  destruct (screenshot env); simpl;
    [|destruct (close env); simpl;
      (split; [discriminate | intros (k & j & u & H & _); discriminate H])].
  destruct (put env (thumbnailKey _) _); simpl;
    [|destruct (close env); simpl;
      (split; [discriminate | intros (k & j & u & H & _); discriminate H])].
  destruct (fetch env _) as [resp|]; simpl;
    [|destruct (close env); simpl;
      (split; [discriminate | intros (k & j & u & H & _); discriminate H])].
  destruct (ok resp); simpl;
    [|destruct (close env); simpl;
      (split; [discriminate | intros (k & j & u & H & _); discriminate H])].
  destruct (json resp) as [md|]; simpl;
    [|destruct (close env); simpl;
      (split; [discriminate | intros (k & j & u & H & _); discriminate H])].
  destruct md as [| b | z | str | arr | m0]; simpl.
  1-4: branches;
       (split; [discriminate | intros (k & j & u & H & _); discriminate H]).
  - destruct (put env (metadataKey _) (JsonText (JArr arr))) eqn:E1; simpl.
    + destruct (close env); simpl;
        (split; [intros _; eexists _, _, _; split; [reflexivity | exact E1] | reflexivity]).
    + rewrite E1. simpl. destruct (close env); simpl;
        (split; [discriminate | intros (k & j & u & H & _); discriminate H]).
  - destruct (put env (metadataKey _) (JsonText (JObj (<["thumbnailUrl" := _]> _))))
      eqn:E1; simpl.
    + destruct (close env); simpl;
        (split; [intros _; eexists _, _, _; split; [reflexivity | exact E1] | reflexivity]).
    + destruct (put env (metadataKey _) (JsonText (JObj (<["status" := JStr "Error"]> _))));
        simpl; destruct (close env); simpl;
        (split; [discriminate | intros (k & j & u & H & _); discriminate H]).
Qed.

(** Rendering what the upload handler stored.  When the Render Trigger
    is asked for the id of a record the upload handler wrote, loads that
    record and everything succeeds, the record in the store at the
    metadata key of the id goes from status Uploaded to status Ready,
    gains the thumbnailUrl the store returned, and keeps id, name,
    modelUrl, textureUrl, modelType and timestamp. *)
Theorem render_after_upload env req buf url id n murl turl ext ts u
        (st : gmap string Body) :
  let uploaded := Upload.newModelMetadata id n murl turl ext ts in
  Renders env req (JStr id) id buf url uploaded ->
  put env (metadataKey id) (JsonText (JObj (readyRecord uploaded url))) = Resolved u ->
  st !! metadataKey id = Some (JsonText (JObj uploaded)) ->
  Record.statusAt st (metadataKey id) = Some (JStr "Uploaded") /\
  exists m,
    Record.storeAfter (put env) st (trace (exec env req)) !! metadataKey id
      = Some (JsonText (JObj m)) /\
    m !! "status" = Some (JStr "Ready") /\
    m !! "thumbnailUrl" = Some (JStr url) /\
    m !! "id" = Some (JStr id) /\ m !! "name" = Some (JStr n) /\
    m !! "modelUrl" = Some (JStr murl) /\ m !! "textureUrl" = Some (JStr turl) /\
    m !! "modelType" = Some (JStr (substringFrom 1 ext)) /\
    m !! "timestamp" = Some (JNum ts).
Proof.
  intros uploaded Hr Hp Hst. split.
  - unfold Record.statusAt. rewrite Hst. reflexivity.
  - exists (readyRecord uploaded url).
    split; [exact (storeAfter_renders env req (JStr id) id buf url uploaded u st Hr Hp)|].
    unfold readyRecord.
    split; [rewrite lookup_insert_ne by discriminate; apply lookup_insert_eq|].
    split; [apply lookup_insert_eq|].
    repeat split; rewrite !lookup_insert_ne by discriminate; reflexivity.
Qed.

End RenderMore.

(* ===================================================================== *)
(** ** More about the delete handler *)
(* ===================================================================== *)

Section DeleteMore.
Import Delete DeleteSteps.

Ltac members H :=
  repeat (apply elem_of_cons in H as [H|H]; [try discriminate|]);
  try (apply elem_of_nil in H; contradiction).

Ltac branches :=
  repeat match goal with
         | |- context [match ?o with Resolved _ => _ | Rejected _ => _ end] =>
             destruct o eqn:?; simpl
         | |- context [match ?o with Some _ => _ | None => _ end] =>
             destruct o eqn:?; simpl
         | |- context [if ?b then _ else _] =>
             destruct b eqn:?; simpl
         end.

Ltac open_handler :=
  unfold tryBlock, loadMetadata, catchBlock;
  unfold try_catch, bind, await, lift, emit, respond, return_, ret, modify, get, throw;
  simpl.

Lemma metadataKey_truthy (id : string) : Js.truthy (Some (JStr (metadataKey id))) = true.
Proof. reflexivity. Qed.

(** The shape of the argument of [del]: at most three truthy values of
    the record, then the metadata key. *)
Lemma delArgument_shape (k : string) (md : Json) (urls : list Json) :
  JsString.truthy k = true ->
  delArgument k md = Resolved urls ->
  last urls = Some (JStr k) /\ (List.length urls <= 4)%nat /\
  forall u, u ∈ urls -> Js.truthy (Some u) = true.
Proof.
  intros Hk. unfold delArgument.
  destruct (Js.getProp md "modelUrl") as [a|]; [|discriminate].
  destruct (Js.getProp md "textureUrl") as [b|]; [|discriminate].
  destruct (Js.getProp md "thumbnailUrl") as [c|]; [|discriminate].
  intros H. injection H as <-.
  change (Js.truthy (Some (JStr k))) with (JsString.truthy k). rewrite Hk.
  destruct a as [a|], b as [b|], c as [c|]; simpl;
    repeat match goal with
           | |- context [if ?x then _ else _] => destruct x eqn:?; simpl
           end;
    (split; [reflexivity|]); (split; [lia|]);
    intros u Hu; members Hu; subst u; assumption.
Qed.

(** Nothing is deleted before the record was loaded: a batch delete, if
    there is one, is the only one of the invocation and comes right after
    the fetch of the record of the id of the request as it prints, which
    was answered ok with a JSON body; it holds at most three truthy values
    of the record and, last, the metadata key of that id. *)
Theorem delete_only_after_load env req urls :
  urls ∈ deleted (trace (exec env req)) ->
  exists mid sid resp md rest,
    Asks env req mid sid /\
    fetch env (metadataUrl req sid) = Resolved resp /\
    ok resp = true /\ json resp = Resolved md /\
    deleted (trace (exec env req)) = [urls] /\
    trace (exec env req) = EvFetch (metadataUrl req sid) :: EvDel urls :: rest /\
    last urls = Some (JStr (metadataKey sid)) /\
    (List.length urls <= 4)%nat /\
    forall u, u ∈ urls -> Js.truthy (Some u) = true.
Proof.
  remember (trace (exec env req)) as tr eqn:Htr. revert Htr.
  unfold exec, run, handler, metadataUrl.
  destruct (String.eqb_spec (method req) "POST") as [Hm|Hm];
    [|simpl; intros -> H; simpl in H; members H].
  change (negb true) with false. cbv iota. open_handler.
  destruct (destructure (reqBody req) "id") as [mid|e] eqn:Hid; simpl;
    [|intros -> H; simpl in H; members H].
  destruct mid as [mid|]; [|simpl; intros -> H; simpl in H; members H].
  destruct (Js.truthy (Some mid)) eqn:Hty; simpl; [|intros -> H; simpl in H; members H].
  destruct (Js.toStr (numberToString env) mid) as [sid|] eqn:Hpr; simpl;
    [|intros -> H; simpl in H; members H].
  destruct (fetch env _) as [resp|] eqn:Hf; simpl; [|intros -> H; simpl in H; members H].
  destruct (ok resp) eqn:Hok; simpl; [|intros -> H; simpl in H; members H].
  destruct (json resp) as [md|] eqn:Hj; simpl; [|intros -> H; simpl in H; members H].
  destruct (urlsToDelete env req _ _ md); simpl; [|intros -> H; simpl in H; members H].
  destruct (delArgument _ md) as [l|] eqn:Hd; simpl; [|intros -> H; simpl in H; members H].
  destruct (delArgument_shape _ _ _
              (eq_refl : JsString.truthy (metadataKey sid) = true) Hd)
    as (Hlast & Hlen & Htr).
  assert (Hgoal : forall rest,
            tr = EvFetch (Js.tmpl (origin req) +:+ "/models/" +:+ sid +:+ "/metadata.json")
                   :: EvDel l :: rest ->
            deleted tr = [l] ->
            urls ∈ deleted tr ->
            exists mid' sid' resp' md' rest',
              Asks env req mid' sid' /\
              fetch env (Js.tmpl (origin req) +:+ "/models/" +:+ sid'
                         +:+ "/metadata.json") = Resolved resp' /\
              ok resp' = true /\ json resp' = Resolved md' /\
              deleted tr = [urls] /\
              tr = EvFetch (Js.tmpl (origin req) +:+ "/models/" +:+ sid'
                            +:+ "/metadata.json") :: EvDel urls :: rest' /\
              last urls = Some (JStr (metadataKey sid')) /\
              (List.length urls <= 4)%nat /\
              forall u, u ∈ urls -> Js.truthy (Some u) = true).
  { intros rest Ht Hdel H. rewrite Hdel in H.
    apply list_elem_of_singleton in H. subst urls.
    exists mid, sid, resp, md, rest. split; [now constructor|].
    repeat (split; [first [assumption | reflexivity]|]). exact Htr. }
  destruct (del env l); simpl; intros Ht; (eapply Hgoal; [exact Ht | now rewrite Ht]).
Qed.

(** The delete handler catches every error, the one of a missing body
    included; it always sends one response, with status 200, 400, 404,
    405 or 500; and it answers 200 exactly when the store accepted the
    batch delete. *)
Theorem delete_always_answers env req :
  rejected None (handler env req) = false /\
  (exists r, response (exec env req) = Some r /\
             (status r = 200 \/ status r = 400 \/ status r = 404 \/
              status r = 405 \/ status r = 500)%Z) /\
  (statusOf (exec env req) = Some 200%Z <->
   exists urls, deleted (trace (exec env req)) = [urls] /\ del env urls = Resolved tt).
Proof.
  unfold rejected, statusOf, exec, run, handler.
  destruct (negb (String.eqb (method req) "POST")).
  { simpl. split; [reflexivity|]. split; [eexists; split; [reflexivity|]; auto|].
    split; [discriminate | intros (u & H & _); discriminate H]. }
  open_handler.
  destruct (destructure (reqBody req) "id") as [mid|e]; simpl.
  2: { split; [reflexivity|]. split; [eexists; split; [reflexivity|]; simpl; auto 6|].
       split; [discriminate | intros (u & H & _); discriminate H]. }
  destruct (negb (Js.truthy mid)); simpl.
  { split; [reflexivity|]. split; [eexists; split; [reflexivity|]; simpl; auto 6|].
    split; [discriminate | intros (u & H & _); discriminate H]. }
  destruct (Js.toString _ mid) as [sid|]; simpl.
  2: { split; [reflexivity|]. split; [eexists; split; [reflexivity|]; simpl; auto 6|].
       split; [discriminate | intros (u & H & _); discriminate H]. }
  destruct (fetch env _) as [resp|]; simpl.
  2: { split; [reflexivity|]. split; [eexists; split; [reflexivity|]; simpl; auto 6|].
       split; [discriminate | intros (u & H & _); discriminate H]. }
  destruct (ok resp); simpl.
  2: { split; [reflexivity|]. split; [eexists; split; [reflexivity|]; simpl; auto 6|].
       split; [discriminate | intros (u & H & _); discriminate H]. }
  destruct (json resp) as [md|]; simpl.
  2: { split; [reflexivity|]. split; [eexists; split; [reflexivity|]; simpl; auto 6|].
       split; [discriminate | intros (u & H & _); discriminate H]. }
  destruct (urlsToDelete env req _ _ md); simpl.
  2: { split; [reflexivity|]. split; [eexists; split; [reflexivity|]; simpl; auto 6|].
       split; [discriminate | intros (u & H & _); discriminate H]. }
  destruct (delArgument _ md) as [l|]; simpl.
  2: { split; [reflexivity|]. split; [eexists; split; [reflexivity|]; simpl; auto 6|].
       split; [discriminate | intros (u & H & _); discriminate H]. }
  destruct (del env l) as [[]|e] eqn:Hd; simpl.
  - split; [reflexivity|]. split; [eexists; split; [reflexivity|]; simpl; auto 6|].
    split; [intros _; exists l; split; [reflexivity | exact Hd] | reflexivity].
  - split; [reflexivity|]. split; [eexists; split; [reflexivity|]; simpl; auto 6|].
    split; [discriminate|]. intros (u & H & Hu). injection H as <-. congruence.
Qed.

(** For a request whose id prints as [sid]: the record of the asset is
    not there (the answer is not ok): 404, and nothing is deleted; the
    handler has only asked for the record. *)
Theorem delete_of_unknown_asset_is_not_found env req mid sid resp :
  Asks env req mid sid ->
  fetch env (metadataUrl req sid) = Resolved resp ->
  ok resp = false ->
  statusOf (exec env req) = Some 404%Z /\
  deleted (trace (exec env req)) = [] /\
  trace (exec env req) = [EvFetch (metadataUrl req sid)].
Proof.
  intros [Hm Hid Hty Hpr] Hf Hok. unfold statusOf, exec, run, handler, metadataUrl in *.
  rewrite Hm. simpl negb. cbv iota. open_handler.
  rewrite Hid. cbv beta iota. rewrite Hty. simpl.
  simpl in Hpr. rewrite Hpr. simpl. rewrite Hf. simpl.
  rewrite Hok. simpl. auto.
Qed.

(** For a request whose id prints as [sid]: the record cannot be fetched
    or is no JSON: the inner [catch] answers 500 with a fixed message that
    does not carry the error, and nothing is deleted. *)
Theorem delete_load_failure_deletes_nothing env req mid sid :
  Asks env req mid sid ->
  (exists e, fetch env (metadataUrl req sid) = Rejected e) \/
  (exists resp e, fetch env (metadataUrl req sid) = Resolved resp /\
                  ok resp = true /\ json resp = Rejected e) ->
  response (exec env req) =
    Some (mkResponse 500 (msg "Interner Serverfehler beim Abrufen der Metadaten.")) /\
  deleted (trace (exec env req)) = [].
Proof.
  intros [Hm Hid Hty Hpr] H. unfold exec, run, handler, metadataUrl in *.
  rewrite Hm. simpl negb. cbv iota. open_handler.
  rewrite Hid. cbv beta iota. rewrite Hty. simpl.
  simpl in Hpr. rewrite Hpr. simpl.
  destruct H as [[e He] | (resp & e & Hf & Hok & He)].
  - rewrite He. simpl. auto.
  - rewrite Hf. simpl. rewrite Hok. simpl. rewrite He. simpl. auto.
Qed.

(** A POST without a body, or with the body [null]: the destructuring
    stands inside the [try], so the answer is 500, and the handler has
    called no collaborator. *)
Theorem delete_without_body_answers_500 env req :
  method req = "POST" ->
  reqBody req = None \/ reqBody req = Some JNull ->
  statusOf (exec env req) = Some 500%Z /\
  rejected None (handler env req) = false /\
  exists log, trace (exec env req) = [EvLog log].
Proof.
  intros Hm Hb. unfold statusOf, rejected, exec, run, handler.
  rewrite Hm. simpl negb. cbv iota. open_handler.
  destruct Hb as [-> | ->]; simpl; eauto.
Qed.

Lemma filterM_rejects (f : option Json -> Outcome bool) (l : list (option Json)) (e : Error) :
  (forall x e', f x = Rejected e' -> e' = e) ->
  (exists x, x ∈ l /\ f x = Rejected e) ->
  filterM f l = Rejected e.
Proof.
  intros Hf. induction l as [|y l IH]; intros (x & Hin & Hx).
  - now apply elem_of_nil in Hin.
  - simpl. destruct (f y) as [b|e'] eqn:Ey.
    + apply elem_of_cons in Hin as [-> | Hin]; [congruence|].
      rewrite IH by eauto. reflexivity.
    + now rewrite (Hf y e' Ey).
Qed.

Lemma filterM_resolves (f : option Json -> Outcome bool) (l : list (option Json)) :
  (forall x, x ∈ l -> exists b, f x = Resolved b) ->
  exists l', filterM f l = Resolved l'.
Proof.
  induction l as [|y l IH]; intros H; [now exists []|].
  simpl. destruct (H y) as [b Hb]; [apply list_elem_of_here|]. rewrite Hb.
  destruct IH as [l' Hl']; [intros x Hx; apply H; now apply list_elem_of_further|].
  rewrite Hl'. eauto.
Qed.

Lemma keepUrl_rejects_only_so req x e : keepUrl req x = Rejected e -> e = startsWithError.
Proof.
  unfold keepUrl. destruct (negb (Js.truthy x)); [discriminate|].
  destruct x as [[| | | | |]|]; intros H; try discriminate H; now injection H.
Qed.

Lemma keepUrl_string_or_missing req x :
  stringOrMissing x = true -> exists b, keepUrl req x = Resolved b.
Proof.
  unfold keepUrl. destruct x as [[| | | s | |]|]; try discriminate; intros _.
  - destruct (negb (Js.truthy (Some (JStr s)))); eauto.
  - simpl. eauto.
Qed.

(** For a request whose id prints as [sid] and a record whose modelType
    prints: a record with a field modelUrl, textureUrl or thumbnailUrl
    that is truthy and no string (a number, [true], an array, an object)
    cannot be deleted: building the unused list [urlsToDelete] throws, the
    answer is 500, and the batch delete is never called. *)
Theorem delete_aborts_on_a_field_that_is_no_string env req mid sid resp m ty field v :
  Asks env req mid sid ->
  fetch env (metadataUrl req sid) = Resolved resp ->
  ok resp = true -> json resp = Resolved (JObj m) ->
  Js.toString (numberToString env) (m !! "modelType") = Resolved ty ->
  field ∈ ["modelUrl"; "textureUrl"; "thumbnailUrl"] ->
  m !! field = Some v -> Js.truthy (Some v) = true -> (forall s, v <> JStr s) ->
  response (exec env req) =
    Some (mkResponse 500 (msg ("Interner Serverfehler beim L" +:+ ouml
                               +:+ "schen des Modells: url.startsWith is not a function"))) /\
  deleted (trace (exec env req)) = [] /\
  trace (exec env req) =
    [EvFetch (metadataUrl req sid);
     EvLog ("SERVER FEHLER beim L" +:+ ouml +:+ "schen: url.startsWith is not a function")].
Proof.
  intros [Hm Hid Hty Hpr] Hf Hok Hj Hprt Hfield Hv Htv Hns.
  assert (Hkeep : keepUrl req (Some v) = Rejected startsWithError).
  { unfold keepUrl. rewrite Htv. simpl.
    destruct v; try reflexivity. now destruct (Hns s). }
  assert (Hu : urlsToDelete env req sid (metadataUrl req sid) (JObj m)
               = Rejected startsWithError).
  { unfold urlsToDelete. cbn [Js.getProp]. rewrite Hprt.
    apply filterM_rejects; [apply keepUrl_rejects_only_so|].
    exists (Some v). split; [|exact Hkeep].
    members Hfield; subst field; rewrite Hv, ?Htv.
    - apply list_elem_of_here.
    - apply list_elem_of_further, list_elem_of_here.
    - do 2 apply list_elem_of_further. apply list_elem_of_here. }
  unfold exec, run, handler, metadataUrl in *.
  rewrite Hm. simpl negb. cbv iota. open_handler.
  rewrite Hid. cbv beta iota. rewrite Hty. simpl.
  simpl in Hpr. rewrite Hpr. simpl. rewrite Hf. simpl.
  rewrite Hok. simpl. rewrite Hj. simpl. rewrite Hu. simpl. auto.
Qed.

Lemma urlsToDelete_resolves env req sid u m ty :
  stringOrMissing (m !! "modelUrl") = true ->
  stringOrMissing (m !! "textureUrl") = true ->
  stringOrMissing (m !! "thumbnailUrl") = true ->
  Js.toString (numberToString env) (m !! "modelType") = Resolved ty ->
  exists l, urlsToDelete env req sid u (JObj m) = Resolved l.
Proof.
  intros H1 H2 H3 H4. unfold urlsToDelete. cbn [Js.getProp]. rewrite H4.
  apply filterM_resolves. intros x Hx.
  members Hx; subst x; try (apply keepUrl_string_or_missing; assumption);
    try (apply keepUrl_string_or_missing; reflexivity).
  destruct (Js.truthy (m !! "thumbnailUrl"));
    [apply keepUrl_string_or_missing; assumption | now exists false].
Qed.

(** Deleting what the upload handler stored.  The request asks for the
    id [sid] of a record the upload handler wrote, and the record loaded
    from the metadata URL of that id is this record, with the two
    locations the store returned: the batch delete gets the model
    location, the texture location and the metadata key of the id; when
    it is that record after the Render Trigger made it ready, the
    thumbnail location as well, before the metadata key.  The answer is
    200 when the store accepts the batch. *)
Theorem delete_after_upload_and_render
        env req sid n murl turl ext ts url (rendered : bool) :
  Asks env req (JStr sid) sid ->
  JsString.truthy murl = true -> JsString.truthy turl = true ->
  JsString.truthy url = true ->
  let uploaded := Upload.newModelMetadata sid n murl turl ext ts in
  let record := if rendered then RenderSpec.readyRecord uploaded url else uploaded in
  let urls := if rendered
              then [JStr murl; JStr turl; JStr url; JStr (metadataKey sid)]
              else [JStr murl; JStr turl; JStr (metadataKey sid)] in
  fetch env (metadataUrl req sid) = Resolved (mkFetchResponse true (Resolved (JObj record))) ->
  deleted (trace (exec env req)) = [urls] /\
  (del env urls = Resolved tt -> statusOf (exec env req) = Some 200%Z).
Proof.
  intros Ha Hmu Htu Hu uploaded record urls Hf.
  assert (L1 : record !! "modelUrl" = Some (JStr murl)).
  { subst record. destruct rendered; [|reflexivity].
    unfold RenderSpec.readyRecord. rewrite !lookup_insert_ne by discriminate. reflexivity. }
  assert (L2 : record !! "textureUrl" = Some (JStr turl)).
  { subst record. destruct rendered; [|reflexivity].
    unfold RenderSpec.readyRecord. rewrite !lookup_insert_ne by discriminate. reflexivity. }
  assert (L3 : record !! "thumbnailUrl" = if rendered then Some (JStr url) else None).
  { subst record. destruct rendered; [|reflexivity].
    unfold RenderSpec.readyRecord. apply lookup_insert_eq. }
  assert (L4 : record !! "modelType" = Some (JStr (substringFrom 1 ext))).
  { subst record. destruct rendered; [|reflexivity].
    unfold RenderSpec.readyRecord. rewrite !lookup_insert_ne by discriminate. reflexivity. }
  destruct (urlsToDelete_resolves env req sid (metadataUrl req sid) record
              (substringFrom 1 ext)) as [l Hl].
  { now rewrite L1. } { now rewrite L2. } { rewrite L3. now destruct rendered. }
  { now rewrite L4. }
  destruct Ha as [Hm Hid Hty Hpr].
  destruct (delete_submits_record_fields env req (JStr sid) sid record l
              Hm Hid Hty Hpr Hf Hl) as [Hdel Hst].
  assert (Hurls : omap id (List.filter Js.truthy
                    [record !! "modelUrl"; record !! "textureUrl";
                     record !! "thumbnailUrl"; Some (JStr (metadataKey sid))]) = urls).
  { rewrite L1, L2, L3. cbn [List.filter].
    change (Js.truthy (Some (JStr murl))) with (JsString.truthy murl).
    change (Js.truthy (Some (JStr turl))) with (JsString.truthy turl).
    rewrite Hmu, Htu. subst urls.
    destruct rendered.
    - change (Js.truthy (Some (JStr url))) with (JsString.truthy url). rewrite Hu. reflexivity.
    - reflexivity. }
  rewrite Hurls in Hdel, Hst. split; [exact Hdel|].
  intros Hok. rewrite Hst, Hok. reflexivity.
Qed.

End DeleteMore.

(* ===================================================================== *)
(** ** The listing handler *)
(* ===================================================================== *)

Section ListingFacts.
Import Listing ListingSpec.

Lemma fetchAll_run env files (s : St unit) :
  fetchAll env files s =
  (Val ((fun file => match getBlob env (url file) with
                     | Resolved j => j
                     | Rejected _ => JNull
                     end) <$> files),
   mkSt (locals s) (trace s ++ fetchEvents env files) (response s)
        (timeline s ++ did (fetchEvents env files))).
Proof.
  revert s; induction files as [|file rest IH]; intros [l t r tl].
  - simpl. now rewrite !app_nil_r.
  - cbn [fetchAll fetchEvents]. unfold bind, fetchOne, await, emit, ret.
    cbn [locals trace response timeline fmap list_fmap].
    destruct (getBlob env (url file)) as [j|e] eqn:E;
      cbn [locals trace response timeline];
      rewrite IH; cbn [locals trace response timeline]; unfold did;
      rewrite ?map_app; cbn [map app];
      rewrite <- !app_assoc; reflexivity.
Qed.

Lemma fetched_fetchEvents env files : fetched (fetchEvents env files) = url <$> files.
Proof.
  induction files as [|file rest IH]; [reflexivity|].
  cbn [fetchEvents]. unfold fetched in *. rewrite omap_app, IH.
  destruct (getBlob env (url file)); reflexivity.
Qed.

Lemma fetched_app_log t log : fetched (t ++ [EvLog log]) = fetched t.
Proof. unfold fetched. rewrite omap_app. simpl. apply app_nil_r. Qed.

Lemma filter_notNull_loaded env files :
  List.filter notNull
    ((fun file => match getBlob env (url file) with
                  | Resolved j => j
                  | Rejected _ => JNull
                  end) <$> files) = omap (loadedFrom env) files.
Proof.
  induction files as [|file rest IH]; [reflexivity|].
  cbn [fmap list_fmap List.filter omap list_omap]. unfold loadedFrom at 1.
  fold (@fmap list _ Blob Json). fold (@omap list _ Blob Json).
  destruct (getBlob env (url file)) as [j|e]; cbn [notNull].
  - destruct (notNull j); now rewrite IH.
  - exact IH.
Qed.

(** A GET whose listing resolves: the answer by how the sort ends. *)
Lemma exec_listing env req blobs :
  method req = "GET" -> listBlobs env = Resolved blobs ->
  response (exec env req) =
    Some (match sort (compareFn env) (loaded env blobs) with
          | Resolved models => mkResponse 200 (JArr models)
          | Rejected error =>
              mkResponse 500 (msg ("Interner Serverfehler beim Laden der Modelle: "
                                   +:+ message error))
          end) /\
  fetched (trace (exec env req)) = url <$> List.filter isMetadataFile blobs.
Proof.
  intros Hm Hl. unfold exec, run, handler. rewrite Hm.
  change (negb (String.eqb "GET" "GET")) with false. cbv iota.
  unfold try_catch, tryBlock, catchBlock, bind, lift. rewrite Hl. cbv beta iota.
  rewrite fetchAll_run. rewrite filter_notNull_loaded. fold (loaded env blobs).
  destruct (sort (compareFn env) (loaded env blobs)) as [models|error];
    unfold respond, emit; cbn [locals trace response timeline app snd fst].
  - split; [reflexivity | apply fetched_fetchEvents].
  - split; [reflexivity|]. rewrite fetched_app_log. apply fetched_fetchEvents.
Qed.

(** The comparison throws exactly when one of the two records does not
    convert. *)
Lemma compareFn_converts env a b :
  (exists c, compareFn env a b = Resolved c) <-> converts env a /\ converts env b.
Proof.
  unfold converts, compareFn.
  destruct (Js.getProp b "timestamp") as [tb|]; [|split; [intros [c H] | intros [_ [c H]]]; discriminate H].
  destruct (Js.getProp a "timestamp") as [ta|]; [|split; [intros [c H] | intros [[c H] _]]; discriminate H].
  destruct (Js.toNumber _ _ tb) as [x|]; [|split; [intros [c H] | intros [_ [c H]]]; discriminate H].
  destruct (Js.toNumber _ _ ta) as [y|]; [|split; [intros [c H] | intros [[c H] _]]; discriminate H].
  split; eauto.
Qed.

Lemma compareFn_numbers env a b x y :
  timestamp a = Some x -> timestamp b = Some y ->
  compareFn env a b = Resolved (y - x)%Z.
Proof.
  unfold timestamp, compareFn. intros Ha Hb.
  destruct a as [| | | | |ma]; try discriminate Ha.
  destruct b as [| | | | |mb]; try discriminate Hb.
  cbn [Js.getProp].
  destruct (ma !! "timestamp") as [[| | n | | |]|]; try discriminate Ha.
  destruct (mb !! "timestamp") as [[| | n' | | |]|]; try discriminate Hb.
  injection Ha as <-. injection Hb as <-. reflexivity.
Qed.

Lemma timestamped_converts env l j : timestamped l -> j ∈ l -> converts env j.
Proof.
  intros Hl Hj. destruct (Hl j Hj) as [x Hx]. unfold converts.
  rewrite (compareFn_numbers env j j x x Hx Hx). eauto.
Qed.

Lemma comparison_numbers env a b x y :
  timestamp a = Some x -> timestamp b = Some y -> comparison env a b = (y - x)%Z.
Proof. intros Ha Hb. unfold comparison. now rewrite (compareFn_numbers env a b x y Ha Hb). Qed.

Lemma inserted_perm cmp x l : inserted cmp x l ≡ₚ x :: l.
Proof.
  induction l as [|y r IH]; [reflexivity|].
  simpl. destruct (cmp x y <=? 0)%Z; [reflexivity|].
  rewrite IH. apply Permutation_swap.
Qed.

Lemma sorted_perm cmp l : sorted cmp l ≡ₚ l.
Proof.
  induction l as [|x l IH]; [reflexivity|].
  unfold sorted in *. simpl. rewrite inserted_perm. now rewrite IH.
Qed.

(** On records that convert the sort does not throw. *)
Lemma insertSorted_resolves env x l :
  converts env x -> (forall j, j ∈ l -> converts env j) ->
  insertSorted (compareFn env) x l = Resolved (inserted (comparison env) x l).
Proof.
  intros Hx. induction l as [|y r IH]; intros Hl; [reflexivity|].
  cbn [insertSorted inserted]. unfold comparison at 1.
  destruct (proj2 (compareFn_converts env x y)) as [c Hc].
  { split; [exact Hx | apply Hl, list_elem_of_here]. }
  rewrite Hc. destruct (c <=? 0)%Z; [reflexivity|].
  rewrite IH; [reflexivity|]. intros j Hj. now apply Hl, list_elem_of_further.
Qed.

Lemma sort_resolves env l :
  (forall j, j ∈ l -> converts env j) ->
  sort (compareFn env) l = Resolved (sorted (comparison env) l).
Proof.
  induction l as [|x l IH]; intros Hl; [reflexivity|].
  unfold sort, sorted in *. cbn [foldr].
  rewrite IH by (intros j Hj; now apply Hl, list_elem_of_further).
  apply insertSorted_resolves; [apply Hl, list_elem_of_here|].
  intros j Hj. apply Hl, list_elem_of_further.
  fold (sorted (comparison env) l) in Hj. now rewrite (sorted_perm _ l) in Hj.
Qed.

Lemma insertSorted_perm cmp x l s : insertSorted cmp x l = Resolved s -> s ≡ₚ x :: l.
Proof.
  revert s; induction l as [|y r IH]; intros s; cbn [insertSorted].
  - intros H. injection H as <-. reflexivity.
  - destruct (cmp x y) as [c|]; [|discriminate].
    destruct (c <=? 0)%Z; [intros H; injection H as <-; reflexivity|].
    destruct (insertSorted cmp x r) as [r'|]; [|discriminate].
    intros H. injection H as <-. rewrite (IH r' eq_refl). apply Permutation_swap.
Qed.

(** A sort of two records or more that does not throw has compared every
    record. *)
Lemma sort_resolved env l s :
  sort (compareFn env) l = Resolved s ->
  s ≡ₚ l /\ ((2 <= List.length l)%nat -> forall j, j ∈ l -> converts env j).
Proof.
  revert s; induction l as [|x l IH]; intros s.
  - intros H. injection H as <-. split; [reflexivity|]. simpl. lia.
  - unfold sort in *. cbn [foldr].
    destruct (foldr _ (Resolved []) l) as [s'|]; [|discriminate].
    destruct (IH s' eq_refl) as [Hp Hc]. intros H.
    split; [rewrite (insertSorted_perm _ _ _ _ H); now rewrite Hp|].
    intros Hlen.
    destruct s' as [|y r].
    { apply Permutation_nil_l in Hp. subst l. simpl in Hlen. lia. }
    cbn [insertSorted] in H.
    destruct (compareFn env x y) as [c|] eqn:Hxy; [|discriminate].
    destruct (proj1 (compareFn_converts env x y)) as [Hx Hy]; [eauto|].
    assert (Hl : forall j, j ∈ l -> converts env j).
    { destruct l as [|y' [|z l']].
      - apply Permutation_nil_r in Hp. discriminate Hp.
      - apply Permutation_singleton_r in Hp. injection Hp as -> ->.
        intros j Hj. apply list_elem_of_singleton in Hj. now subst j.
      - apply Hc. simpl. lia. }
    intros j Hj. apply elem_of_cons in Hj as [-> | Hj]; [exact Hx | now apply Hl].
Qed.

Lemma notOlder_compare env a b :
  is_Some (timestamp a) -> is_Some (timestamp b) ->
  (notOlder a b <-> (comparison env a b <= 0)%Z).
Proof.
  intros [x Hx] [y Hy]. rewrite (comparison_numbers env a b x y Hx Hy).
  unfold notOlder. rewrite Hx, Hy. lia.
Qed.

Lemma notOlder_trans a b c : notOlder a b -> notOlder b c -> notOlder a c.
Proof.
  unfold notOlder. destruct (timestamp a), (timestamp b), (timestamp c); try tauto. lia.
Qed.

Lemma inserted_sorted env x l :
  is_Some (timestamp x) -> timestamped l ->
  StronglySorted notOlder l -> StronglySorted notOlder (inserted (comparison env) x l).
Proof.
  intros Hx Hl Hs. induction Hs as [|y r Hr IH Hy].
  - simpl. repeat constructor.
  - assert (Hty : is_Some (timestamp y)) by (apply Hl, list_elem_of_here).
    assert (Hlr : timestamped r) by (intros j Hj; apply Hl; now apply list_elem_of_further).
    simpl. destruct (comparison env x y <=? 0)%Z eqn:E.
    + apply Z.leb_le, notOlder_compare in E; [|assumption..].
      constructor; [now constructor|].
      constructor; [exact E|].
      eapply Forall_impl; [exact Hy|]. intros z Hz. exact (notOlder_trans _ _ _ E Hz).
    + apply Z.leb_gt in E. constructor; [apply IH, Hlr|].
      assert (Hyx : notOlder y x).
      { destruct Hx as [a Ha], Hty as [b Hb].
        rewrite (comparison_numbers env x y a b Ha Hb) in E.
        unfold notOlder. rewrite Ha, Hb. lia. }
      apply Forall_forall. intros z Hz.
      rewrite (inserted_perm (comparison env) x r) in Hz.
      apply elem_of_cons in Hz as [-> | Hz]; [exact Hyx|].
      rewrite Forall_forall in Hy. now apply Hy.
Qed.

Lemma sorted_sorted env l :
  timestamped l -> StronglySorted notOlder (sorted (comparison env) l).
Proof.
  induction l as [|x l IH]; intros Hl; [constructor|].
  unfold sorted in *. simpl. apply inserted_sorted.
  - apply Hl, list_elem_of_here.
  - intros j Hj. apply Hl, list_elem_of_further.
    fold (sorted (comparison env) l) in Hj. now rewrite (sorted_perm _ l) in Hj.
  - apply IH. intros j Hj. now apply Hl, list_elem_of_further.
Qed.

(** Equal timestamps keep their order: inserting an element with the
    timestamp [t] puts it in front of every element with that timestamp. *)
Lemma inserted_stable env t x l :
  List.filter (hasTimestamp t) (inserted (comparison env) x l) =
  List.filter (hasTimestamp t) (x :: l).
Proof.
  induction l as [|y r IH]; [reflexivity|].
  cbn [inserted]. destruct (comparison env x y <=? 0)%Z eqn:E; [reflexivity|].
  apply Z.leb_gt in E. cbn [List.filter] in *. rewrite IH.
  destruct (hasTimestamp t x) eqn:Hx; [|reflexivity].
  destruct (hasTimestamp t y) eqn:Hy; [|reflexivity].
  unfold hasTimestamp in Hx, Hy. apply bool_decide_eq_true in Hx, Hy.
  rewrite (comparison_numbers env x y t t Hx Hy) in E. lia.
Qed.

Lemma sorted_stable env t l :
  List.filter (hasTimestamp t) (sorted (comparison env) l) = List.filter (hasTimestamp t) l.
Proof.
  induction l as [|x l IH]; [reflexivity|].
  unfold sorted in *. cbn [foldr]. rewrite inserted_stable.
  cbn [List.filter]. now rewrite IH.
Qed.

(** A GET whose listing resolves: the handler asks for the files whose
    path ends in /metadata.json, each once and in the order of the
    listing, and for no other blob, whichever files fail.  When the
    timestamp of every record that loads converts to a number or to NaN,
    the answer is 200 and shows a rearrangement of the records that load
    and are not [null]; when two records or more load and the timestamp
    of one of them cannot be converted, the sort throws and the answer is
    500. *)
Theorem listing_shows_the_records_that_load env req blobs :
  method req = "GET" -> listBlobs env = Resolved blobs ->
  fetched (trace (exec env req)) = url <$> List.filter isMetadataFile blobs /\
  ((forall model, model ∈ loaded env blobs -> converts env model) ->
   exists models,
     response (exec env req) = Some (mkResponse 200 (JArr models)) /\
     models ≡ₚ loaded env blobs) /\
  ((2 <= List.length (loaded env blobs))%nat ->
   (exists model, model ∈ loaded env blobs /\ ~ converts env model) ->
   statusOf (exec env req) = Some 500%Z).
Proof.
  intros Hm Hl. destruct (exec_listing env req blobs Hm Hl) as [Hr Ht].
  split; [exact Ht|]. split.
  - intros Hc. exists (sorted (comparison env) (loaded env blobs)).
    rewrite Hr, (sort_resolves env _ Hc). split; [reflexivity | apply sorted_perm].
  - intros Hlen (model & Hin & Hno). unfold statusOf. rewrite Hr.
    destruct (sort (compareFn env) (loaded env blobs)) as [s|e] eqn:Hs; [|reflexivity].
    destruct (sort_resolved env _ _ Hs) as [_ Hc]. destruct Hno. now apply Hc.
Qed.

(** When every record that loads has a number as timestamp, the listing
    shows the newest first: no record stands before a newer one. *)
Theorem listing_is_newest_first env req blobs :
  method req = "GET" -> listBlobs env = Resolved blobs ->
  timestamped (loaded env blobs) ->
  exists models,
    response (exec env req) = Some (mkResponse 200 (JArr models)) /\
    StronglySorted notOlder models.
Proof.
  intros Hm Hl Hts. destruct (exec_listing env req blobs Hm Hl) as [Hr _].
  exists (sorted (comparison env) (loaded env blobs)).
  rewrite Hr, (sort_resolves env _ (fun j Hj => timestamped_converts env _ j Hts Hj)).
  split; [reflexivity | now apply sorted_sorted].
Qed.

(** When every record that loads has a number as timestamp, records
    with the same timestamp are shown in the order in which the store
    listed their files. *)
Theorem listing_keeps_the_order_of_equal_timestamps env req blobs t :
  method req = "GET" -> listBlobs env = Resolved blobs ->
  timestamped (loaded env blobs) ->
  exists models,
    response (exec env req) = Some (mkResponse 200 (JArr models)) /\
    List.filter (hasTimestamp t) models = List.filter (hasTimestamp t) (loaded env blobs).
Proof.
  intros Hm Hl Hts. destruct (exec_listing env req blobs Hm Hl) as [Hr _].
  exists (sorted (comparison env) (loaded env blobs)).
  rewrite Hr, (sort_resolves env _ (fun j Hj => timestamped_converts env _ j Hts Hj)).
  split; [reflexivity | apply sorted_stable].
Qed.

End ListingFacts.

(* ===================================================================== *)
(** ** Values the handlers cannot convert *)
(* ===================================================================== *)

Section Conversions.

(** A file part without a file name: the form parser reports the name
    [null], the file-name test of the upload handler throws on it inside
    the [try], and the answer is 500; the file is not read and nothing is
    stored. *)
Theorem upload_file_without_name_answers_500 env req form zipFile n :
  Upload.method req = "POST" ->
  Upload.parseForm env = Resolved form ->
  trim <$> (Upload.modelName form ≫= head) = Some n ->
  n <> "" ->
  Upload.file form ≫= head = Some zipFile ->
  Upload.originalFilename zipFile = None ->
  Upload.statusOf (Upload.exec env req) = Some 500%Z /\
  rejected tt (Upload.handler env req) = false /\
  Upload.putKeys (trace (Upload.exec env req)) = [] /\
  exists log, trace (Upload.exec env req) = [EvParseForm; EvLog log].
Proof.
  intros Hm Hf Hn Hne Hfile Hname.
  unfold Upload.statusOf, rejected, Upload.exec, run, Upload.handler.
  rewrite Hm. simpl negb. cbv iota.
  unfold try_catch, Upload.tryBlock, Upload.catchBlock, bind, await, lift, emit, respond.
  rewrite Hf. simpl.
  rewrite Hn, Hfile, (truthy_ne n Hne). simpl. rewrite Hname. simpl.
  repeat split; eauto.
Qed.

(** An id that cannot be printed (an object with a key toString, or an
    array that holds one).  The Render Trigger throws where it builds the
    URL of the render page and again in its [catch] clause, where the log
    line prints the id: it sends no response at all, its promise rejects,
    and it has neither opened the render page nor written to the store.
    The delete handler throws where it builds the metadata URL, inside
    its [try]: the answer is 500, and it has fetched and deleted
    nothing. *)
Theorem unprintable_id_is_not_served :
  (forall env req mid e,
      Thumbnail.method req = "POST" ->
      destructure (Thumbnail.reqBody req) "modelId" = Resolved (Some mid) ->
      Js.truthy (Some mid) = true ->
      Js.toString (Thumbnail.numberToString env) (Some mid) = Rejected e ->
      response (Thumbnail.exec env req) = None /\
      rejected Thumbnail.locals0 (Thumbnail.handler env req) = true /\
      (forall ev, ev ∈ trace (Thumbnail.exec env req) ->
                  ev = EvBrowser Launch \/ ev = EvBrowser NewPage \/
                  ev = EvBrowser (SetViewport Thumbnail.RENDER_SIZE Thumbnail.RENDER_SIZE) \/
                  ev = EvBrowser Close)) /\
  (forall env req mid e,
      Delete.method req = "POST" ->
      destructure (Delete.reqBody req) "id" = Resolved (Some mid) ->
      Js.truthy (Some mid) = true ->
      Js.toString (Delete.numberToString env) (Some mid) = Rejected e ->
      response (Delete.exec env req) =
        Some (mkResponse 500 (msg ("Interner Serverfehler beim L" +:+ ouml
                                   +:+ "schen des Modells: " +:+ message e))) /\
      trace (Delete.exec env req) =
        [EvLog ("SERVER FEHLER beim L" +:+ ouml +:+ "schen: " +:+ message e)]).
Proof.
  split.
  - intros env req mid e Hm Hid Hty Hpr.
    assert (H : exists er s,
               Thumbnail.handler env req (mkSt Thumbnail.locals0 [] None []) = (Thrown er, s) /\
               response s = None /\
               forall ev, ev ∈ trace s ->
                 ev = EvBrowser Launch \/ ev = EvBrowser NewPage \/
                 ev = EvBrowser (SetViewport Thumbnail.RENDER_SIZE Thumbnail.RENDER_SIZE) \/
                 ev = EvBrowser Close).
    { unfold Thumbnail.handler. rewrite Hm.
      change (negb (String.eqb "POST" "POST")) with false. cbv iota.
      unfold bind at 1, lift at 1. rewrite Hid. cbv beta iota. rewrite Hty.
      change (negb true) with false. cbv iota.
      unfold Thumbnail.tryBlock, Thumbnail.catchBlock, Thumbnail.finallyBlock,
        Thumbnail.printId.
      unfold try_finally, try_catch, bind, await, lift, emit, respond, modify, get,
        throw, ret, return_.
      rewrite Hpr. cbn [locals trace response timeline].
      destruct (Thumbnail.launch env);
        cbn [locals trace response timeline fst snd app
             Thumbnail.browser Thumbnail.setBrowser Thumbnail.locals0].
      2: { eexists _, _. split; [reflexivity|]. split; [reflexivity|].
           intros ev H. apply elem_of_cons in H as [->|H]; [auto|].
           now apply elem_of_nil in H. }
      destruct (Thumbnail.newPage env);
        cbn [locals trace response timeline fst snd app
             Thumbnail.browser Thumbnail.setBrowser].
      2: { destruct (Thumbnail.close env); cbn [locals trace response timeline fst snd app];
           (eexists _, _; split; [reflexivity|]; split; [reflexivity|]);
           intros ev H;
           repeat (apply elem_of_cons in H as [->|H]; [auto|]); now apply elem_of_nil in H. }
      destruct (Thumbnail.setViewport env);
        cbn [locals trace response timeline fst snd app
             Thumbnail.browser Thumbnail.setBrowser];
        destruct (Thumbnail.close env); cbn [locals trace response timeline fst snd app];
        (eexists _, _; split; [reflexivity|]; split; [reflexivity|]);
        intros ev H;
        repeat (apply elem_of_cons in H as [->|H]; [auto|]); now apply elem_of_nil in H. }
    destruct H as (er & s & Hrun & Hresp & Htr).
    unfold rejected, Thumbnail.exec, run. rewrite Hrun. auto.
  - intros env req mid e Hm Hid Hty Hpr.
    unfold Delete.exec, run, Delete.handler. rewrite Hm. simpl negb. cbv iota.
    unfold Delete.tryBlock, Delete.catchBlock.
    unfold try_catch, bind, await, lift, emit, respond, return_, ret, modify, get, throw.
    rewrite Hid. cbv beta iota. rewrite Hty. simpl negb. cbv iota beta.
    rewrite Hpr. split; reflexivity.
Qed.

End Conversions.

(* ===================================================================== *)
(** ** The further properties at concrete invocations *)
(* ===================================================================== *)

Section MoreConcreteUpload.
Import Upload UploadSpec UploadExamples MoreExamples.

Lemma upload_blank_name_or_missing_file_witness :
  response (exec blankEnv post) =
    Some (mkResponse 400 (msg "Modellname oder ZIP-Datei fehlen.")) /\
  trace (exec blankEnv post) = [EvParseForm].
Proof.
  apply (upload_blank_name_or_missing_file blankEnv post blankForm); try reflexivity.
  right; left. reflexivity.
Defined.

Lemma upload_keys_follow_convention_witness :
  (exists ext, ext ∈ modelExtensions /\ "models/id-1/model.obj" = modelKey "id-1" ext) \/
  "models/id-1/model.obj" = textureKey "id-1" \/
  "models/id-1/model.obj" = metadataKey "id-1".
Proof.
  apply (upload_keys_follow_convention (env0 "a.ZIP" (Resolved chair)) post
           "models/id-1/model.obj").
  vm_compute. apply list_elem_of_here.
Defined.


Lemma upload_texture_failure_orphans_model_witness :
  response (exec textureFailsEnv post) =
    Some (mkResponse 500 (msg "Interner Serverfehler: store unavailable")) /\
  putKeys (trace (exec textureFailsEnv post)) =
    ["models/id-1/model.obj"; "models/id-1/texture.png"].
Proof.
  pose proof (upload_texture_failure_orphans_model
                textureFailsEnv post (form0 "a.zip") (file0 "a.zip") "Chair" "PK" chair
                2%nat (mkEntry "assets/MESH.OBJ" false (Resolved "o mesh"))
                1%nat (mkEntry "assets/skin.png" false (Resolved "PNGDATA"))
                "o mesh" "PNGDATA" "https://store.example/models/id-1/model.obj"
                (mkError "store unavailable")) as H.
  destruct H as (H1 & H2 & _).
  - constructor; try reflexivity. discriminate.
  - reflexivity.
  - reflexivity.
  - reflexivity.
  - reflexivity.
  - reflexivity.
  - reflexivity.
  - split; [exact H1 | exact H2].
Defined.

Lemma scan_selects_two_different_files_witness :
  dir (mkEntry "assets/MESH.OBJ" false (Resolved "o mesh")) = false /\
  dir (mkEntry "assets/skin.png" false (Resolved "PNGDATA")) = false /\
  isTextureEntry (mkEntry "assets/MESH.OBJ" false (Resolved "o mesh")) = false /\
  isModelEntry (mkEntry "assets/skin.png" false (Resolved "PNGDATA")) = false /\
  mkEntry "assets/MESH.OBJ" false (Resolved "o mesh")
    <> mkEntry "assets/skin.png" false (Resolved "PNGDATA").
Proof.
  apply (scan_selects_two_different_files chair); reflexivity.
Defined.

End MoreConcreteUpload.

Section MoreConcreteRender.
Import Thumbnail RenderSpec RenderSteps ThumbnailExamples MoreExamples.

Lemma captures_a1 (put : string -> Body -> Outcome string) (served : Outcome FetchResponse) :
  put (thumbnailKey "a1") (Bytes "PNG") = Resolved thumbUrl ->
  Captures (renderEnv put served) post (JStr "a1") "a1" "PNG" thumbUrl.
Proof. intros H. constructor; try reflexivity. exact H. Defined.

Lemma renders_a1_uploaded (put : string -> Body -> Outcome string) :
  put (thumbnailKey "a1") (Bytes "PNG") = Resolved thumbUrl ->
  Renders (renderEnv put (Resolved (mkFetchResponse true (Resolved (JObj uploadedA1)))))
          post (JStr "a1") "a1" "PNG" thumbUrl uploadedA1.
Proof. intros H. constructor; try reflexivity. exact H. Defined.

Lemma render_writes_record_only_after_capture_witness :
  exists mid id buf url resp md rest,
    Captures (env0 okPut "Uploaded") post mid id buf url /\
    fetch (env0 okPut "Uploaded") (oldMetadataUrl post id) = Resolved resp /\
    ok resp = true /\ json resp = Resolved md /\
    metadataKey "a1" = metadataKey id /\
    trace (exec (env0 okPut "Uploaded") post) =
      (captured post id buf ++ EvFetch (oldMetadataUrl post id) :: rest)%list.
Proof.
  apply (render_writes_record_only_after_capture (env0 okPut "Uploaded") post
           (metadataKey "a1") (JObj (readyRecord (recordWith "Uploaded") thumbUrl))).
  vm_compute. apply list_elem_of_here.
Defined.

Lemma render_keeps_the_other_fields_witness :
  exists mid id resp m0,
    destructure (reqBody post) "modelId" = Resolved mid /\
    Js.toString (numberToString (env0 okPut "Uploaded")) mid = Resolved id /\
    metadataKey "a1" = metadataKey id /\
    EvFetch (oldMetadataUrl post id) ∈ trace (exec (env0 okPut "Uploaded") post) /\
    fetch (env0 okPut "Uploaded") (oldMetadataUrl post id) = Resolved resp /\
    json resp = Resolved (JObj m0) /\
    forall f, f <> "status" -> f <> "thumbnailUrl" ->
              readyRecord (recordWith "Uploaded") thumbUrl !! f = m0 !! f.
Proof.
  apply (render_keeps_the_other_fields (env0 okPut "Uploaded") post (metadataKey "a1")).
  vm_compute. apply list_elem_of_here.
Defined.

Lemma render_rejects_without_body_witness :
  rejected locals0 (handler (env0 okPut "Uploaded") noBody) = true /\
  response (exec (env0 okPut "Uploaded") noBody) = None /\
  trace (exec (env0 okPut "Uploaded") noBody) = [].
Proof.
  apply render_rejects_without_body; [reflexivity | left; reflexivity].
Defined.

Lemma render_without_loaded_record_stores_image_only_witness :
  statusOf (exec (renderEnv okPut (Resolved notFound)) post) = Some 500%Z /\
  Record.recordsPut (trace (exec (renderEnv okPut (Resolved notFound)) post)) = [].
Proof.
  pose proof (render_without_loaded_record_stores_image_only
                (renderEnv okPut (Resolved notFound)) post (JStr "a1") "a1" "PNG" thumbUrl
                (captures_a1 okPut (Resolved notFound) eq_refl)) as H.
  destruct H as (H1 & H2 & _).
  - right. exists notFound. split; [reflexivity | left; reflexivity].
  - split; [exact H1 | exact H2].
Defined.

Lemma render_needs_an_object_record_witness :
  statusOf (exec (renderEnv okPut (Resolved (mkFetchResponse true (Resolved (JNum 5))))) post)
    = Some 500%Z /\
  Record.recordsPut
    (trace (exec (renderEnv okPut (Resolved (mkFetchResponse true (Resolved (JNum 5))))) post))
    = [].
Proof.
  apply (render_needs_an_object_record
           (renderEnv okPut (Resolved (mkFetchResponse true (Resolved (JNum 5))))) post
           (JStr "a1") "a1" "PNG" thumbUrl (mkFetchResponse true (Resolved (JNum 5))) (JNum 5)
           (captures_a1 okPut _ eq_refl)); reflexivity.
Defined.

Lemma render_double_failure_is_logged_only_witness :
  response (exec (renderEnv refuseRecords
                    (Resolved (mkFetchResponse true (Resolved (JObj uploadedA1))))) post) =
  Some (mkResponse 500 (errorBody (mkError "store unavailable"))).
Proof.
  exact (proj1 (render_double_failure_is_logged_only
                  (renderEnv refuseRecords
                     (Resolved (mkFetchResponse true (Resolved (JObj uploadedA1))))) post
                  (JStr "a1") "a1" "PNG" thumbUrl uploadedA1
                  (mkError "store unavailable") (mkError "store unavailable")
                  (renders_a1_uploaded refuseRecords eq_refl) eq_refl eq_refl)).
Defined.

Lemma render_after_upload_witness :
  Record.statusAt {[ metadataKey "a1" := JsonText (JObj uploadedA1) ]} (metadataKey "a1")
    = Some (JStr "Uploaded") /\
  exists m,
    Record.storeAfter okPut {[ metadataKey "a1" := JsonText (JObj uploadedA1) ]}
      (trace (exec (renderEnv okPut
                      (Resolved (mkFetchResponse true (Resolved (JObj uploadedA1))))) post))
      !! metadataKey "a1" = Some (JsonText (JObj m)) /\
    m !! "status" = Some (JStr "Ready") /\
    m !! "thumbnailUrl" = Some (JStr thumbUrl) /\
    m !! "id" = Some (JStr "a1") /\ m !! "name" = Some (JStr "Chair") /\
    m !! "modelUrl" = Some (JStr "https://store.example/models/a1/model.obj") /\
    m !! "textureUrl" = Some (JStr "https://store.example/models/a1/texture.png") /\
    m !! "modelType" = Some (JStr (substringFrom 1 ".obj")) /\
    m !! "timestamp" = Some (JNum 1700000000000).
Proof.
  apply (render_after_upload
           (renderEnv okPut (Resolved (mkFetchResponse true (Resolved (JObj uploadedA1)))))
           post "PNG" thumbUrl "a1" "Chair"
           "https://store.example/models/a1/model.obj"
           "https://store.example/models/a1/texture.png" ".obj" 1700000000000
           "https://store.example/models/a1/metadata.json"
           {[ metadataKey "a1" := JsonText (JObj uploadedA1) ]}
           (renders_a1_uploaded okPut eq_refl) eq_refl).
  vm_compute. reflexivity.
Defined.

End MoreConcreteRender.

Section MoreConcreteDelete.
Import Delete DeleteSteps DeleteExamples MoreExamples.

Lemma asks_a1 (env : Env) : Asks env post (JStr "a1") "a1".
Proof. constructor; reflexivity. Defined.

Lemma delete_only_after_load_witness :
  exists mid sid resp md rest,
    Asks (env0 uploaded) post mid sid /\
    fetch (env0 uploaded) (metadataUrl post sid) = Resolved resp /\
    ok resp = true /\ json resp = Resolved md /\
    deleted (trace (exec (env0 uploaded) post)) =
      [[JStr modelUrl; JStr textureUrl; JStr (metadataKey "a1")]] /\
    trace (exec (env0 uploaded) post) =
      EvFetch (metadataUrl post sid)
        :: EvDel [JStr modelUrl; JStr textureUrl; JStr (metadataKey "a1")] :: rest /\
    last [JStr modelUrl; JStr textureUrl; JStr (metadataKey "a1")]
      = Some (JStr (metadataKey sid)) /\
    (List.length [JStr modelUrl; JStr textureUrl; JStr (metadataKey "a1")] <= 4)%nat /\
    forall u, u ∈ [JStr modelUrl; JStr textureUrl; JStr (metadataKey "a1")] ->
              Js.truthy (Some u) = true.
Proof.
  apply (delete_only_after_load (env0 uploaded) post
           [JStr modelUrl; JStr textureUrl; JStr (metadataKey "a1")]).
  vm_compute. apply list_elem_of_here.
Defined.

Lemma delete_of_unknown_asset_is_not_found_witness :
  statusOf (exec (deleteEnv (Resolved notFound)) post) = Some 404%Z /\
  deleted (trace (exec (deleteEnv (Resolved notFound)) post)) = [] /\
  trace (exec (deleteEnv (Resolved notFound)) post) = [EvFetch (metadataUrl post "a1")].
Proof.
  apply (delete_of_unknown_asset_is_not_found (deleteEnv (Resolved notFound)) post
           (JStr "a1") "a1" notFound (asks_a1 _)); reflexivity.
Defined.

Lemma delete_load_failure_deletes_nothing_witness :
  response (exec (deleteEnv (Rejected (mkError "fetch failed"))) post) =
    Some (mkResponse 500 (msg "Interner Serverfehler beim Abrufen der Metadaten.")) /\
  deleted (trace (exec (deleteEnv (Rejected (mkError "fetch failed"))) post)) = [].
Proof.
  apply (delete_load_failure_deletes_nothing (deleteEnv (Rejected (mkError "fetch failed")))
           post (JStr "a1") "a1" (asks_a1 _)).
  left. exists (mkError "fetch failed"). reflexivity.
Defined.

Lemma delete_without_body_answers_500_witness :
  statusOf (exec (env0 uploaded) deleteNoBody) = Some 500%Z /\
  rejected None (handler (env0 uploaded) deleteNoBody) = false /\
  exists log, trace (exec (env0 uploaded) deleteNoBody) = [EvLog log].
Proof.
  apply delete_without_body_answers_500; [reflexivity | left; reflexivity].
Defined.

Lemma delete_aborts_on_a_field_that_is_no_string_witness :
  deleted (trace (exec (env0 (JObj numberUrl)) post)) = [].
Proof.
  apply (delete_aborts_on_a_field_that_is_no_string (env0 (JObj numberUrl)) post (JStr "a1")
           "a1" (mkFetchResponse true (Resolved (JObj numberUrl))) numberUrl "obj"
           "modelUrl" (JNum 5) (asks_a1 _)); try reflexivity.
  - apply list_elem_of_here.
  - discriminate.
Defined.

Lemma delete_after_upload_and_render_witness :
  deleted (trace (exec (env0 uploaded) post)) =
    [[JStr modelUrl; JStr textureUrl; JStr (metadataKey "a1")]] /\
  statusOf (exec (env0 uploaded) post) = Some 200%Z.
Proof.
  destruct (delete_after_upload_and_render (env0 uploaded) post "a1" "Chair"
              modelUrl textureUrl ".obj" 1700000000000 "unused" false (asks_a1 _)
              eq_refl eq_refl eq_refl eq_refl) as [H1 H2].
  split; [exact H1 | exact (H2 eq_refl)].
Defined.

End MoreConcreteDelete.

Section MoreConcreteListing.
Import Listing ListingSpec ListingExamples.

Lemma timestamped_example : timestamped (loaded env0 blobs).
Proof.
  intros j Hj. vm_compute in Hj.
  repeat (apply elem_of_cons in Hj as [-> | Hj]; [vm_compute; eauto|]).
  now apply elem_of_nil in Hj.
Defined.

Lemma listing_shows_the_records_that_load_witness :
  fetched (trace (exec env0 get)) = ["u/a"; "u/b"; "u/c"; "u/d"] /\
  exists models,
    response (exec env0 get) = Some (mkResponse 200 (JArr models)) /\
    models ≡ₚ [record "a" 10; record "b" 30; record "d" 10].
Proof.
  destruct (listing_shows_the_records_that_load env0 get blobs eq_refl eq_refl)
    as (H1 & H2 & _).
  split; [exact H1|]. apply H2.
  intros model Hin. destruct (timestamped_example model Hin) as [x Hx].
  exists 0%Z. unfold compareFn.
  destruct model as [| | | | |m]; try discriminate Hx.
  cbn [timestamp] in Hx. cbn [Js.getProp].
  destruct (m !! "timestamp") as [[| | n | | |]|]; try discriminate Hx.
  cbn [Js.toNumber]. now rewrite Z.sub_diag.
Defined.

Lemma listing_is_newest_first_witness :
  exists models,
    response (exec env0 get) = Some (mkResponse 200 (JArr models)) /\
    StronglySorted notOlder models.
Proof.
  exact (listing_is_newest_first env0 get blobs eq_refl eq_refl timestamped_example).
Defined.

Lemma listing_keeps_the_order_of_equal_timestamps_witness :
  exists models,
    response (exec env0 get) = Some (mkResponse 200 (JArr models)) /\
    List.filter (hasTimestamp 10) models = [record "a" 10; record "d" 10].
Proof.
  exact (listing_keeps_the_order_of_equal_timestamps env0 get blobs 10 eq_refl eq_refl
           timestamped_example).
Defined.

End MoreConcreteListing.

Section MoreConcreteConversions.
Import UploadExamples.

Lemma upload_file_without_name_answers_500_witness :
  Upload.statusOf (Upload.exec MoreExamples.namelessEnv post) = Some 500%Z /\
  rejected tt (Upload.handler MoreExamples.namelessEnv post) = false /\
  Upload.putKeys (trace (Upload.exec MoreExamples.namelessEnv post)) = [] /\
  exists log, trace (Upload.exec MoreExamples.namelessEnv post) = [EvParseForm; EvLog log].
Proof.
  apply (upload_file_without_name_answers_500 MoreExamples.namelessEnv post
           MoreExamples.namelessForm (Upload.mkFile None "/tmp/up1") "Chair");
    try reflexivity.
  discriminate.
Defined.

(** The Render Trigger asked for the id {"toString": 1}, and for the id
    10^21 on a runtime that prints it as 1e+21. *)
Lemma unprintable_id_example :
  response (Thumbnail.exec (ThumbnailExamples.env0 ThumbnailExamples.okPut "Uploaded")
              MoreExamples.unprintablePost) = None /\
  rejected Thumbnail.locals0
    (Thumbnail.handler (ThumbnailExamples.env0 ThumbnailExamples.okPut "Uploaded")
       MoreExamples.unprintablePost) = true /\
  Record.recordsPut
    (trace (Thumbnail.exec (ThumbnailExamples.env0 ThumbnailExamples.okPut "Uploaded")
              MoreExamples.largePost)) =
    [("models/1e+21/metadata.json",
      JObj (RenderSpec.readyRecord (ThumbnailExamples.recordWith "Uploaded")
              "https://store.example/models/1e+21/thumbnail.png"))].
Proof. repeat split; vm_compute; reflexivity. Qed.

End MoreConcreteConversions.
